(** * ADUP router: a shallow embedding of [src/adup/router.py]

    The development follows the Python class [Router] method by method.

    Conventions of the embedding.
    - Python floats (costs, metrics, virtual time) are exact rationals [Q];
      numeric results are compared with [==] (Qeq).  Integers met by the code
      (packet fields, counters) inject into [Q] or stay in [Z].
    - A Python [dict] is an insertion-ordered association list ([PyDict]):
      assignment to an existing key keeps its position, assignment to a new
      key appends, iteration follows the list.
    - A method that mutates [self] is a function from the router state to the
      new router state; [self.env.now] is the extra argument [now].
    - [self.env.process(self._send_update_proc(dest))] is recorded as a
      scheduled action in order of creation; [send_update] is the function the
      kernel later runs for it.
    - Attributes created lazily with [hasattr] ([path_usage], [cost_history],
      [loop_detection], [path_analysis_log]) are fields that start empty.
    - Fallible code returns [option].  The one [try ... except Exception]
      wrapper that fires on well-typed states is that of [send_update],
      where the constructor of a route entry rejects a destination that is
      not an IPv4 address: there the handler's effect (nothing is sent) is
      modelled.  The other wrappers never fire and are omitted; [print]
      calls are omitted.
    - [self.routing_table] is created empty and never written; it is not a
      field of the state and its length in log entries is 0.
    - The kernel (virtual time, process scheduling, queues) is not
      modelled: each handler and each body of a periodic loop is one atomic
      step, as the cooperative scheduling of the source makes it.  Of a
      link only its two endpoints and the end it delivers to are kept.
    - The topology builders of [src/adup/simulation.py] return the routers
      by name and the links in order of creation, or [None] where a
      statement would raise; routers and links refer to each other by
      name. *)

From Stdlib Require Import QArith Qminmax Qabs Lqa.
From Stdlib Require Import List String Ascii Bool ZArith Lia.
From Stdlib Require Import DecimalString DecimalNat.
Import ListNotations.

Open Scope string_scope.
Open Scope Q_scope.

(** ** Float comparisons as boolean tests on [Q] *)

Definition Qgtb (a b : Q) : bool := negb (Qle_bool a b).   (* a > b  *)
Definition Qltb (a b : Q) : bool := negb (Qle_bool b a).   (* a < b  *)
Definition Qgeb (a b : Q) : bool := Qle_bool b a.          (* a >= b *)

(** Python [int(x)]: truncation toward zero. *)
Definition py_int (x : Q) : Z := Z.quot (Qnum x) (Zpos (Qden x)).

(** [f'{n}'] for a non-negative integer. *)
Definition decimal (n : nat) : string :=
  NilEmpty.string_of_uint (Nat.to_uint n).

(** Python [l[-n:]] for [n > 0]. *)
Definition last_n {A} (n : nat) (l : list A) : list A :=
  skipn (List.length l - n) l.

(** Python [max(l)] and [min(l)] on a non-empty list of floats; the value on
    the empty list (where Python raises) is 0 and is never used. *)
Definition py_max (l : list Q) : Q :=
  match l with
  | [] => 0
  | x :: t => fold_left (fun m y => if Qgtb y m then y else m) t x
  end.

Definition py_min (l : list Q) : Q :=
  match l with
  | [] => 0
  | x :: t => fold_left (fun m y => if Qltb y m then y else m) t x
  end.

(** ** Python dictionaries with string keys *)

Module PyDict.
Section Dict.
Context {V : Type}.

Definition t := list (string * V).

Definition empty : t := [].

Fixpoint get (d : t) (k : string) : option V :=
  match d with
  | [] => None
  | (k', v) :: d' => if String.eqb k' k then Some v else get d' k
  end.

Definition mem (d : t) (k : string) : bool :=
  match get d k with Some _ => true | None => false end.

Definition get_default (d : t) (k : string) (dflt : V) : V :=
  match get d k with Some v => v | None => dflt end.

(** [d[k] = v] *)
Fixpoint set (d : t) (k : string) (v : V) : t :=
  match d with
  | [] => [(k, v)]
  | (k', v') :: d' =>
      if String.eqb k' k then (k', v) :: d' else (k', v') :: set d' k v
  end.

(** [del d[k]] *)
Fixpoint del (d : t) (k : string) : t :=
  match d with
  | [] => []
  | (k', v') :: d' =>
      if String.eqb k' k then del d' k else (k', v') :: del d' k
  end.

Definition keys (d : t) : list string := map fst d.
Definition items (d : t) : list (string * V) := d.
Definition len (d : t) : nat := List.length d.

(** Keys of a dictionary are unique. *)
Definition wf (d : t) : Prop := NoDup (keys d).
End Dict.
Arguments t : clear implicits.
End PyDict.

Abbreviation pydict := PyDict.t.

(** ** Packets ([src/adup/packets.py]) *)

(** Packets travel between routers as objects and are never serialised, so a
    field holds the number the sender stored in it: [send_hellos] stores
    floats in [packet_loss], [send_update] stores [int(total_cost)] in
    [total_delay]. *)

Record ADUP_Hello := {
  h_delay : Q;
  h_jitter : Q;
  h_packet_loss : Q;
  h_congestion : Q;
  h_link_stability : Q
}.

Record ADUP_Route_Entry := {
  prefix_len : Z;
  dest_network : string;
  total_bandwidth : Z;
  total_delay : Q;
  total_jitter : Z;
  total_packet_loss : Z;
  total_congestion : Z
}.

Record ADUP_Update := { routes : list ADUP_Route_Entry }.

(** [dest_network] is an [IPField]: the constructor of a route entry
    converts the value it is given and raises when that is not an IPv4
    address.  The addresses it accepts are taken to be the dotted quads of
    decimal octets, which decides every prefix the program builds
    ([f'192.168.{i+1}.0'] is an address up to 192.168.255.0 and none from
    192.168.256.0 on).  Other spellings the library may let pass on some
    platforms (fewer than four parts, octal or hexadecimal parts, host
    names that resolve) never occur in the program and are not accepted
    here; the theorems use the rejection of a string only for the names
    192.168.k.0 with k above 255. *)

(** [s.split('.')] *)
Fixpoint split_dots (s : string) : list string :=
  match s with
  | EmptyString => [EmptyString]
  | String c s' =>
      if Ascii.eqb c "." then EmptyString :: split_dots s'
      else
        match split_dots s' with
        | h :: t => String c h :: t
        | [] => [String c EmptyString]
        end
  end.

(** No ['.'] occurs in [s]. *)
Fixpoint dotless (s : string) : bool :=
  match s with
  | EmptyString => true
  | String c s' => negb (Ascii.eqb c ".") && dotless s'
  end.

(** A decimal numeral between 0 and 255, written without sign, blank or
    leading zero. *)
Definition octet (s : string) : bool :=
  match NilEmpty.uint_of_string s with
  | Some d =>
      let k := Nat.of_uint d in
      Nat.leb k 255 && String.eqb s (decimal k)
  | None => false
  end.

Definition ip_field_accepts (s : string) : bool :=
  match split_dots s with
  | [a; b; c; d] => octet a && octet b && octet c && octet d
  | _ => false
  end.

Inductive Packet :=
| PHello (h : ADUP_Hello)
| PUpdate (u : ADUP_Update)
| POther.

(** ** Links and interfaces ([src/adup/simulation.py]) *)

(** A link knows its two endpoints; routers are referred to by name. *)
Record Link := { router1 : string; router2 : string }.

(** The endpoint a packet put on the link by [sender] is delivered to
    ([Link.run]). *)
Definition link_peer (l : Link) (sender : string) : string :=
  if String.eqb (router1 l) sender then router2 l else router1 l.

(** [iface_info.get('link')]: absent or a link. *)
Definition iface_info := option Link.

(** ** Router state *)

Record neighbor_info := {
  last_seen : Q;
  nmetrics : pydict Q
}.

Record fib_metrics := {
  fm_total_delay : option Q;
  fm_total_cost : option Q;
  fm_stability : option Q;
  fm_congestion : option Q;
  fm_packet_loss : option Q;
  fm_selection_reason : option string
}.

Record fib_entry := {
  next_hop : string;
  metrics : fib_metrics
}.

Record candidate := {
  c_neighbor : string;
  c_total_cost : Q;
  c_combined_score : Q;
  c_stability : Q;
  c_congestion : Q;
  c_packet_loss : Q;
  c_exploration_bonus : Q;
  c_selection_reason : string
}.

Record packet_log_entry := {
  pl_time : Q;
  pl_router : string;
  pl_type : string;
  pl_direction : string;
  pl_neighbor : option string;
  pl_details : pydict Q;
  pl_routing_table_size : nat;
  pl_neighbor_count : nat;
  pl_path_selection_reason : string;
  pl_composite_cost : option (option Q)   (* None, or Some None for inf *)
}.

Record route_change := {
  rc_time : Q;
  rc_router : string;
  rc_destination : string;
  rc_old_route : string;
  rc_new_route : string;
  rc_path_info : option candidate;
  rc_change_type : string
}.

Record path_analysis := {
  pa_time : Q;
  pa_router : string;
  pa_destination : string;
  pa_candidates : list candidate;
  pa_total_candidates : nat
}.

Record Router := {
  name : string;
  interfaces : pydict iface_info;
  neighbor_table : pydict neighbor_info;
  networks : list string;
  fib : pydict fib_entry;
  topology_table : pydict (pydict Q);
  state : string;
  packet_log : list packet_log_entry;
  route_changes : list route_change;
  last_route_change_time : Q;
  convergence_start_time : option Q;
  path_usage : pydict Z;
  path_analysis_log : list path_analysis;
  cost_history : pydict (list Q);
  loop_detection : pydict (list (Q * Q))
}.

(** [Router.__init__] *)
Definition init_router (nm : string) (ifs : pydict iface_info)
    (nets : list string) : Router :=
  {| name := nm; interfaces := ifs; neighbor_table := [];
     networks := nets; fib := []; topology_table := [];
     state := "INITIALIZING"; packet_log := []; route_changes := [];
     last_route_change_time := 0; convergence_start_time := None;
     path_usage := []; path_analysis_log := [];
     cost_history := []; loop_detection := [] |}.

(** Field updates. *)
Definition with_neighbor_table (r : Router) (x : pydict neighbor_info) :=
  {| name := name r; interfaces := interfaces r; neighbor_table := x;
     networks := networks r; fib := fib r;
     topology_table := topology_table r; state := state r;
     packet_log := packet_log r; route_changes := route_changes r;
     last_route_change_time := last_route_change_time r;
     convergence_start_time := convergence_start_time r;
     path_usage := path_usage r; path_analysis_log := path_analysis_log r;
     cost_history := cost_history r; loop_detection := loop_detection r |}.

Definition with_fib (r : Router) (x : pydict fib_entry) :=
  {| name := name r; interfaces := interfaces r;
     neighbor_table := neighbor_table r;
     networks := networks r; fib := x;
     topology_table := topology_table r; state := state r;
     packet_log := packet_log r; route_changes := route_changes r;
     last_route_change_time := last_route_change_time r;
     convergence_start_time := convergence_start_time r;
     path_usage := path_usage r; path_analysis_log := path_analysis_log r;
     cost_history := cost_history r; loop_detection := loop_detection r |}.

Definition with_topology_table (r : Router) (x : pydict (pydict Q)) :=
  {| name := name r; interfaces := interfaces r;
     neighbor_table := neighbor_table r;
     networks := networks r; fib := fib r;
     topology_table := x; state := state r;
     packet_log := packet_log r; route_changes := route_changes r;
     last_route_change_time := last_route_change_time r;
     convergence_start_time := convergence_start_time r;
     path_usage := path_usage r; path_analysis_log := path_analysis_log r;
     cost_history := cost_history r; loop_detection := loop_detection r |}.

Definition with_packet_log (r : Router) (x : list packet_log_entry) :=
  {| name := name r; interfaces := interfaces r;
     neighbor_table := neighbor_table r;
     networks := networks r; fib := fib r;
     topology_table := topology_table r; state := state r;
     packet_log := x; route_changes := route_changes r;
     last_route_change_time := last_route_change_time r;
     convergence_start_time := convergence_start_time r;
     path_usage := path_usage r; path_analysis_log := path_analysis_log r;
     cost_history := cost_history r; loop_detection := loop_detection r |}.

Definition with_route_changes (r : Router) (x : list route_change) :=
  {| name := name r; interfaces := interfaces r;
     neighbor_table := neighbor_table r;
     networks := networks r; fib := fib r;
     topology_table := topology_table r; state := state r;
     packet_log := packet_log r; route_changes := x;
     last_route_change_time := last_route_change_time r;
     convergence_start_time := convergence_start_time r;
     path_usage := path_usage r; path_analysis_log := path_analysis_log r;
     cost_history := cost_history r; loop_detection := loop_detection r |}.

Definition with_convergence (r : Router) (t : Q) (c : option Q) :=
  {| name := name r; interfaces := interfaces r;
     neighbor_table := neighbor_table r;
     networks := networks r; fib := fib r;
     topology_table := topology_table r; state := state r;
     packet_log := packet_log r; route_changes := route_changes r;
     last_route_change_time := t;
     convergence_start_time := c;
     path_usage := path_usage r; path_analysis_log := path_analysis_log r;
     cost_history := cost_history r; loop_detection := loop_detection r |}.

Definition with_path_usage (r : Router) (x : pydict Z) :=
  {| name := name r; interfaces := interfaces r;
     neighbor_table := neighbor_table r;
     networks := networks r; fib := fib r;
     topology_table := topology_table r; state := state r;
     packet_log := packet_log r; route_changes := route_changes r;
     last_route_change_time := last_route_change_time r;
     convergence_start_time := convergence_start_time r;
     path_usage := x; path_analysis_log := path_analysis_log r;
     cost_history := cost_history r; loop_detection := loop_detection r |}.

Definition with_path_analysis_log (r : Router) (x : list path_analysis) :=
  {| name := name r; interfaces := interfaces r;
     neighbor_table := neighbor_table r;
     networks := networks r; fib := fib r;
     topology_table := topology_table r; state := state r;
     packet_log := packet_log r; route_changes := route_changes r;
     last_route_change_time := last_route_change_time r;
     convergence_start_time := convergence_start_time r;
     path_usage := path_usage r; path_analysis_log := x;
     cost_history := cost_history r; loop_detection := loop_detection r |}.

Definition with_cost_history (r : Router) (x : pydict (list Q)) :=
  {| name := name r; interfaces := interfaces r;
     neighbor_table := neighbor_table r;
     networks := networks r; fib := fib r;
     topology_table := topology_table r; state := state r;
     packet_log := packet_log r; route_changes := route_changes r;
     last_route_change_time := last_route_change_time r;
     convergence_start_time := convergence_start_time r;
     path_usage := path_usage r; path_analysis_log := path_analysis_log r;
     cost_history := x; loop_detection := loop_detection r |}.

Definition with_loop_detection (r : Router) (x : pydict (list (Q * Q))) :=
  {| name := name r; interfaces := interfaces r;
     neighbor_table := neighbor_table r;
     networks := networks r; fib := fib r;
     topology_table := topology_table r; state := state r;
     packet_log := packet_log r; route_changes := route_changes r;
     last_route_change_time := last_route_change_time r;
     convergence_start_time := convergence_start_time r;
     path_usage := path_usage r; path_analysis_log := path_analysis_log r;
     cost_history := cost_history r; loop_detection := x |}.

Definition with_state (r : Router) (x : string) :=
  {| name := name r; interfaces := interfaces r;
     neighbor_table := neighbor_table r;
     networks := networks r; fib := fib r;
     topology_table := topology_table r; state := x;
     packet_log := packet_log r; route_changes := route_changes r;
     last_route_change_time := last_route_change_time r;
     convergence_start_time := convergence_start_time r;
     path_usage := path_usage r; path_analysis_log := path_analysis_log r;
     cost_history := cost_history r; loop_detection := loop_detection r |}.

(** ** Composite cost *)

(** [self.metric_weights] *)
Definition w_delay : Q := 0.4.
Definition w_jitter : Q := 0.2.
Definition w_packet_loss : Q := 0.25.
Definition w_congestion : Q := 0.15.

Definition calculate_composite_cost (m : pydict Q) : Q :=
  w_delay * PyDict.get_default m "delay" 0 +
  w_jitter * PyDict.get_default m "jitter" 0 +
  w_packet_loss * PyDict.get_default m "packet_loss" 0 * 10 +
  w_congestion * PyDict.get_default m "congestion" 0.

(** ** Logging *)

Definition calculate_neighbor_cost (r : Router) (neighbor : option string)
    : option Q :=                          (* None is float('inf') *)
  match neighbor with
  | None => None
  | Some n =>
      if String.eqb n "" then None else
      match PyDict.get (neighbor_table r) n with
      | None => None
      | Some info => Some (calculate_composite_cost (nmetrics info))
      end
  end.

Definition get_path_selection_reason (r : Router) (neighbor : option string)
    : string :=
  match neighbor with
  | None => "Unknown"
  | Some n =>
      if String.eqb n "" then "Unknown" else
      match PyDict.get (neighbor_table r) n with
      | None => "Unknown"
      | Some info =>
          let cost := calculate_composite_cost (nmetrics info) in
          let best_cost :=
            fold_left
              (fun (best : option Q) (it : string * neighbor_info) =>
                 let other_cost :=
                   calculate_composite_cost (nmetrics (snd it)) in
                 match best with
                 | None => Some other_cost
                 | Some b => if Qltb other_cost b then Some other_cost
                             else Some b
                 end)
              (PyDict.items (neighbor_table r)) None in
          match best_cost with
          | None => "Load balancing"
          | Some b =>
              if Qeq_bool cost b then "Best path (lowest composite cost)"
              else if Qltb cost (b * 1.1) then "Load balancing"
              else "Backup path"
          end
      end
  end.

Definition log_packet (r : Router) (now : Q) (packet_type direction : string)
    (neighbor : option string) (details : pydict Q) : Router :=
  let log_entry :=
    {| pl_time := now; pl_router := name r; pl_type := packet_type;
       pl_direction := direction; pl_neighbor := neighbor;
       pl_details := details;
       pl_routing_table_size := 0;
       pl_neighbor_count := PyDict.len (neighbor_table r);
       pl_path_selection_reason := get_path_selection_reason r neighbor;
       pl_composite_cost :=
         match neighbor with
         | None => None
         | Some n => if String.eqb n "" then None
                     else Some (calculate_neighbor_cost r neighbor)
         end |} in
  let l := (packet_log r ++ [log_entry])%list in
  with_packet_log r
    (if Nat.ltb 100 (List.length l) then last_n 100 l else l).

Definition classify_route_change (old_route new_route : string)
    (path_info : option candidate) : string :=
  if String.eqb old_route "None" then "New route discovered"
  else if String.eqb new_route "None" then "Route lost"
  else if negb (String.eqb old_route new_route) then
    match path_info with
    | Some c => if Qltb (c_total_cost c) 50 then "Better path found"
                else "Path switched due to failure"
    | None => "Path switched due to failure"
    end
  else "Route updated".

Definition log_route_change (r : Router) (now : Q) (destination : string)
    (old_route new_route : string) (path_info : option candidate) : Router :=
  let change_entry :=
    {| rc_time := now; rc_router := name r; rc_destination := destination;
       rc_old_route := old_route; rc_new_route := new_route;
       rc_path_info := path_info;
       rc_change_type :=
         classify_route_change old_route new_route path_info |} in
  let l := (route_changes r ++ [change_entry])%list in
  with_route_changes r
    (if Nat.ltb 50 (List.length l) then last_n 50 l else l).

(** ** Neighbor pruning *)

Definition dead_neighbors (r : Router) (now : Q) : list string :=
  map fst
    (filter (fun it : string * neighbor_info =>
               Qgtb (now - last_seen (snd it)) 15)
            (PyDict.items (neighbor_table r))).

Definition prune_neighbors (r : Router) (now : Q) : Router :=
  fold_left
    (fun (r' : Router) (nm : string) =>
       with_neighbor_table r' (PyDict.del (neighbor_table r') nm))
    (dead_neighbors r now) r.

(** ** Loop detection and stabilization *)

Definition cost_key (dest neighbor : string) : string :=
  dest ++ "-" ++ neighbor.

Definition path_key (neighbor dest : string) : string :=
  neighbor ++ "->" ++ dest.

(** Number of positions [i >= 1] with [l[i] > l[i-1]]. *)
Fixpoint count_increases (l : list Q) : nat :=
  match l with
  | a :: (b :: _) as t =>
      ((if Qgtb b a then 1 else 0) + count_increases t)%nat
  | _ => 0%nat
  end.

(** The history after [append] and the bounded [pop(0)]. *)
Definition push_bounded {A} (bound : nat) (h : list A) (x : A) : list A :=
  let h' := (h ++ [x])%list in
  if Nat.ltb bound (List.length h') then tl h' else h'.

(** The decision of [detect_cost_loop] on the updated history. *)
Definition loop_verdict (history : list (Q * Q)) : bool :=
  let oscillation :=
    if Nat.leb 5 (List.length history) then
      let recent_costs := map snd (last_n 5 history) in
      let cost_variance := py_max recent_costs - py_min recent_costs in
      Qgtb cost_variance 30
    else false in
  if oscillation then true
  else if Nat.leb 4 (List.length history) then
    Nat.leb 3 (count_increases (map snd history))
  else false.

Definition detect_cost_loop (r : Router) (now : Q) (dest neighbor : string)
    (new_cost : Q) : Router * bool :=
  let key := cost_key dest neighbor in
  let history :=
    push_bounded 10 (PyDict.get_default (loop_detection r) key [])
                 (now, new_cost) in
  (with_loop_detection r (PyDict.set (loop_detection r) key history),
   loop_verdict history).

Definition alpha : Q := 0.5.

(** [smoothed = history[-1]; for i in range(len-2, -1, -1): ...] *)
Definition smooth (history : list Q) : Q :=
  match rev history with
  | [] => 0
  | newest :: older =>
      fold_left (fun smoothed h => alpha * h + (1 - alpha) * smoothed)
                older newest
  end.

(** The value returned by [stabilize_cost] on the updated history. *)
Definition stabilized_value (history : list Q) (new_cost : Q) : Q :=
  if Nat.leb 3 (List.length history) then
    let smoothed_cost := smooth history in
    let smoothed_cost :=
      if Nat.ltb 1 (List.length history) then
        let prev_cost := nth (List.length history - 2) history 0 in
        let max_increase := prev_cost * 1.2 in
        if Qgtb smoothed_cost max_increase then max_increase
        else smoothed_cost
      else smoothed_cost in
    Qmin smoothed_cost 80
  else Qmin new_cost 60.

Definition stabilize_cost (r : Router) (dest neighbor : string) (new_cost : Q)
    : Router * Q :=
  let key := cost_key dest neighbor in
  let history :=
    push_bounded 5 (PyDict.get_default (cost_history r) key []) new_cost in
  (with_cost_history r (PyDict.set (cost_history r) key history),
   stabilized_value history new_cost).

(** ** Path selection *)

Definition calculate_link_stability (r : Router) (now : Q) (neighbor : string)
    : Q :=
  match PyDict.get (neighbor_table r) neighbor with
  | None => 0
  | Some info =>
      let time_since_contact := now - last_seen info in
      if Qltb time_since_contact 20 then 100
      else if Qltb time_since_contact 40 then 75
      else if Qltb time_since_contact 80 then 50
      else 25
  end.

Definition calculate_exploration_bonus (r : Router) (neighbor dest : string)
    : Q :=
  let usage_count :=
    PyDict.get_default (path_usage r) (path_key neighbor dest) 0%Z in
  if Z.eqb usage_count 0 then 10
  else if Z.ltb usage_count 3 then 5
  else if Z.ltb usage_count 10 then 2
  else 0.

Definition determine_selection_reason
    (total_cost stability congestion packet_loss : Q) : string :=
  if Qltb total_cost 50 && Qgtb stability 80
  then "Optimal path (low cost, high stability)"
  else if Qltb congestion 20 then "Low congestion path"
  else if Qltb packet_loss 2 then "Low packet loss path"
  else if Qgtb stability 90 then "High stability path"
  else "Best available path".

Definition log_path_analysis (r : Router) (now : Q) (dest : string)
    (candidates : list candidate) : Router :=
  let analysis_entry :=
    {| pa_time := now; pa_router := name r; pa_destination := dest;
       pa_candidates := candidates;
       pa_total_candidates := List.length candidates |} in
  let l := (path_analysis_log r ++ [analysis_entry])%list in
  with_path_analysis_log r
    (if Nat.ltb 50 (List.length l) then last_n 50 l else l).

(** [candidates.sort(key=lambda x: x['combined_score'])]: a stable sort. *)
Fixpoint insert_candidate (c : candidate) (l : list candidate)
    : list candidate :=
  match l with
  | [] => [c]
  | d :: t =>
      if Qltb (c_combined_score d) (c_combined_score c)
      then d :: insert_candidate c t
      else c :: d :: t
  end.

Definition sort_candidates (l : list candidate) : list candidate :=
  fold_right insert_candidate [] l.

(** Ceiling and damping applied to a candidate cost that passed loop
    detection, before stabilization. *)
Definition ceiling_and_damping (total_cost : Q) : Q :=
  let total_cost := Qmin total_cost 80 in
  if Qgtb total_cost 50 then
    let damping_factor := 0.7 in
    50 + (total_cost - 50) * damping_factor
  else total_cost.

(** One iteration of the loop over [self.topology_table[dest].items()]. *)
Definition consider_neighbor (now : Q) (dest : string)
    (acc : Router * list candidate) (it : string * Q)
    : Router * list candidate :=
  let '(r, candidates) := acc in
  let '(neighbor, reported_cost) := it in
  match PyDict.get (neighbor_table r) neighbor with
  | None => (r, candidates)
  | Some info =>
      let neighbor_metrics := nmetrics info in
      let link_cost := calculate_composite_cost neighbor_metrics in
      let total_cost := link_cost + reported_cost in
      let '(r, looped) := detect_cost_loop r now dest neighbor total_cost in
      if looped then (r, candidates)
      else
        let total_cost := ceiling_and_damping total_cost in
        let '(r, total_cost) := stabilize_cost r dest neighbor total_cost in
        let stability_score := calculate_link_stability r now neighbor in
        let congestion_level :=
          PyDict.get_default neighbor_metrics "congestion" 0 in
        let packet_loss_rate :=
          PyDict.get_default neighbor_metrics "packet_loss" 0 in
        let exploration_bonus :=
          calculate_exploration_bonus r neighbor dest in
        let combined_score :=
          total_cost * 0.6 +
          (100 - stability_score) * 0.15 +
          congestion_level * 0.1 +
          packet_loss_rate * 10 * 0.1 +
          exploration_bonus * 0.05 in
        (r, (candidates ++
             [ {| c_neighbor := neighbor;
                  c_total_cost := total_cost;
                  c_combined_score := combined_score;
                  c_stability := stability_score;
                  c_congestion := congestion_level;
                  c_packet_loss := packet_loss_rate;
                  c_exploration_bonus := exploration_bonus;
                  c_selection_reason :=
                    determine_selection_reason total_cost stability_score
                      congestion_level packet_loss_rate |} ])%list)
  end.

Definition collect_candidates (r : Router) (now : Q) (dest : string)
    : Router * list candidate :=
  match PyDict.get (topology_table r) dest with
  | None => (r, [])
  | Some reports =>
      fold_left (consider_neighbor now dest) (PyDict.items reports) (r, [])
  end.

(** Returns the new state and [candidates[0]] (whose [c_neighbor] is the
    first component of the Python pair), or [None] for [(None, None)]. *)
Definition advanced_path_selection (r : Router) (now : Q) (dest : string)
    : Router * option candidate :=
  let '(r, candidates) := collect_candidates r now dest in
  match candidates with
  | [] => (r, None)
  | _ :: _ =>
      let candidates := sort_candidates candidates in
      let r := log_path_analysis r now dest candidates in
      (r, hd_error candidates)
  end.

Arguments log_path_analysis : simpl never.

(** ** Advertisement *)

(** A process created with [self.env.process(self._send_update_proc(d))]. *)
Inductive action :=
| SendUpdateProc (destination : string).

Definition self_entry : fib_entry :=
  {| next_hop := "self";
     metrics := {| fm_total_delay := Some 0; fm_total_cost := Some 0;
                   fm_stability := None; fm_congestion := None;
                   fm_packet_loss := None; fm_selection_reason := None |} |}.

Definition trigger_update (r : Router) (dest : option string)
    : Router * list action :=
  let all_networks :=
    fold_left
      (fun (acc : Router * list action) (net : string) =>
         let '(r, acts) := acc in
         (with_fib r (PyDict.set (fib r) net self_entry),
          (acts ++ [SendUpdateProc net])%list))
      (networks r) (r, []) in
  match dest with
  | Some d => if String.eqb d "" then all_networks
              else (r, [SendUpdateProc d])
  | None => all_networks
  end.

Definition fib_total_cost (e : fib_entry) : Q :=
  match fm_total_cost (metrics e) with
  | Some c => c
  | None => match fm_total_delay (metrics e) with
            | Some d => d
            | None => 0
            end
  end.

Definition route_entry_for (destination : string) (total_cost : Q)
    : ADUP_Route_Entry :=
  {| prefix_len := 24; dest_network := destination;
     total_delay := inject_Z (py_int total_cost);
     total_bandwidth := 100000; total_jitter := 0;
     total_packet_loss := 0; total_congestion := 0 |}.

(** [ADUP_Route_Entry(prefix_len=24, dest_network=destination, ...)] as
    [send_update] calls it: [None] when the constructor raises. *)
Definition ADUP_Route_Entry_new (destination : string) (total_cost : Q)
    : option ADUP_Route_Entry :=
  if ip_field_accepts destination
  then Some (route_entry_for destination total_cost)
  else None.

(** A packet put on the link of an interface ([_send_packet_on_link]). *)
Record emission := {
  em_iface : string;
  em_link : Link;
  em_packet : ADUP_Update
}.

Definition _send_update_on_all_interfaces (r : Router) (update_pkt : ADUP_Update)
    : list emission :=
  flat_map
    (fun it : string * iface_info =>
       match snd it with
       | Some l => [ {| em_iface := fst it; em_link := l;
                        em_packet := update_pkt |} ]
       | None => []
       end)
    (PyDict.items (interfaces r)).

(** [send_update] runs inside [try ... except Exception]: when the
    constructor of the route entry raises, the error is printed and nothing
    is sent. *)
Definition send_update (r : Router) (destination : string) : list emission :=
  match PyDict.get (fib r) destination with
  | None => []
  | Some best_route_info =>
      let total_cost := fib_total_cost best_route_info in
      if Qgtb total_cost 70 then []
      else
        match ADUP_Route_Entry_new destination total_cost with
        | None => []
        | Some route_entry =>
            let update_pkt := {| routes := [route_entry] |} in
            _send_update_on_all_interfaces r update_pkt
        end
  end.

Arguments trigger_update : simpl never.
Arguments send_update : simpl never.

(** ** DUAL recomputation *)

Definition installed_entry (c : candidate) : fib_entry :=
  {| next_hop := c_neighbor c;
     metrics := {| fm_total_delay := None;
                   fm_total_cost := Some (c_total_cost c);
                   fm_stability := Some (c_stability c);
                   fm_congestion := Some (c_congestion c);
                   fm_packet_loss := Some (c_packet_loss c);
                   fm_selection_reason := Some (c_selection_reason c) |} |}.

Definition recalculate_dual (r : Router) (now : Q) (dest : string)
    : Router * list action :=
  let '(r, best) := advanced_path_selection r now dest in
  match best with
  | None => (r, [])
  | Some path_info =>
      let best_neighbor := c_neighbor path_info in
      let current_route := PyDict.get (fib r) dest in
      let current_next_hop :=
        match current_route with
        | Some e => next_hop e
        | None => "None"
        end in
      let current_cost :=                   (* None is float('inf') *)
        match current_route with
        | Some e => fm_total_cost (metrics e)
        | None => None
        end in
      let new_cost := c_total_cost path_info in
      let pk := path_key best_neighbor dest in
      let r :=
        with_path_usage r
          (PyDict.set (path_usage r) pk
             (PyDict.get_default (path_usage r) pk 0 + 1)%Z) in
      let cost_moved :=
        match current_cost with
        | None => true
        | Some c => Qgtb (Qabs (new_cost - c)) 0.1
        end in
      if negb (String.eqb current_next_hop best_neighbor) || cost_moved then
        let old_route := current_next_hop in
        let r :=
          with_convergence r now
            (match convergence_start_time r with
             | None => Some now
             | Some t => Some t
             end) in
        let r := with_fib r (PyDict.set (fib r) dest
                               (installed_entry path_info)) in
        let r := log_route_change r now dest old_route best_neighbor
                   (Some path_info) in
        trigger_update r (Some dest)
      else (r, [])
  end.

Arguments log_route_change : simpl never.
Arguments advanced_path_selection : simpl never.
Arguments recalculate_dual : simpl never.

(** ** UPDATE handling *)

(** The cost written to the topology table for an admitted report. *)
Definition admitted_cost (old : option Q) (reported_cost : Q) : Q :=
  match old with
  | Some old_cost =>
      if Qgtb reported_cost (old_cost * 2.0)
      then Qmin (old_cost * 1.5) 80
      else reported_cost
  | None => reported_cost
  end.

Definition topology_lookup (r : Router) (dest neighbor : string) : option Q :=
  match PyDict.get (topology_table r) dest with
  | Some reports => PyDict.get reports neighbor
  | None => None
  end.

Definition split_horizon_blocks (r : Router) (dest neighbor_name : string)
    : bool :=
  match PyDict.get (fib r) dest with
  | Some e => String.eqb (next_hop e) neighbor_name
  | None => false
  end.

(** The body of [for route in update_pkt.routes]. *)
Definition handle_route (now : Q) (neighbor_name : string)
    (acc : Router * list action) (route : ADUP_Route_Entry)
    : Router * list action :=
  let '(r, acts) := acc in
  let dest := dest_network route in
  let reported_cost := total_delay route in
  if split_horizon_blocks r dest neighbor_name then (r, acts)
  else if Qgtb reported_cost 100 then (r, acts)
  else
    let reported_cost :=
      admitted_cost (topology_lookup r dest neighbor_name) reported_cost in
    let reports := PyDict.get_default (topology_table r) dest [] in
    let r :=
      with_topology_table r
        (PyDict.set (topology_table r) dest
           (PyDict.set reports neighbor_name reported_cost)) in
    let '(r, acts') := recalculate_dual r now dest in
    (r, (acts ++ acts')%list).

Definition handle_update (r : Router) (now : Q) (sender : string)
    (update_pkt : ADUP_Update) : Router * list action :=
  let neighbor_name := sender in
  if negb (PyDict.mem (neighbor_table r) neighbor_name) then (r, [])
  else fold_left (handle_route now neighbor_name) (routes update_pkt) (r, []).

(** ** Packet dispatch *)

Definition hello_metrics (h : ADUP_Hello) : pydict Q :=
  [ ("delay", h_delay h); ("jitter", h_jitter h);
    ("packet_loss", h_packet_loss h); ("congestion", h_congestion h);
    ("link_stability", h_link_stability h) ].

Definition handle_packet (r : Router) (now : Q) (sender : string)
    (pkt : Packet) : Router * list action :=
  match pkt with
  | PHello h =>
      let neighbor_name := sender in
      let r :=
        with_neighbor_table r
          (PyDict.set (neighbor_table r) neighbor_name
             {| last_seen := now; nmetrics := hello_metrics h |}) in
      let r :=
        log_packet r now "HELLO" "received" (Some neighbor_name)
          [ ("delay", h_delay h); ("jitter", h_jitter h) ] in
      (prune_neighbors r now, [])
  | PUpdate u => handle_update r now sender u
  | POther => (r, [])
  end.

(** ** Periodic sweeps *)

Definition decay_factor : Q := 0.95.

Definition fm_get_total_cost (e : fib_entry) : Q :=
  match fm_total_cost (metrics e) with Some c => c | None => 0 end.

Definition set_total_cost (e : fib_entry) (c : Q) : fib_entry :=
  {| next_hop := next_hop e;
     metrics := {| fm_total_delay := fm_total_delay (metrics e);
                   fm_total_cost := Some c;
                   fm_stability := fm_stability (metrics e);
                   fm_congestion := fm_congestion (metrics e);
                   fm_packet_loss := fm_packet_loss (metrics e);
                   fm_selection_reason :=
                     fm_selection_reason (metrics e) |} |}.

(** The test guarding the body of the decay loop for one FIB entry. *)
Definition decays (e : fib_entry) : bool :=
  negb (String.eqb (next_hop e) "self") && Qgtb (fm_get_total_cost e) 10.

(** [for neighbor in tt[dest]: if tt[dest][neighbor] > 10: ... *= 0.95] *)
Definition decay_reports (reports : pydict Q) : pydict Q :=
  map (fun it : string * Q =>
         if Qgtb (snd it) 10 then (fst it, snd it * decay_factor) else it)
      reports.

(** One iteration of [for dest, route_info in list(self.fib.items())]: the
    entry object is updated in place, the topology table through its key. *)
Definition decay_step (acc : Router * bool) (it : string * fib_entry)
    : Router * bool :=
  let '(r, routes_updated) := acc in
  let '(dest, route_info) := it in
  if decays route_info then
    let decayed_cost := fm_get_total_cost route_info * decay_factor in
    let r :=
      with_fib r
        (PyDict.set (fib r) dest (set_total_cost route_info decayed_cost)) in
    let r :=
      match PyDict.get (topology_table r) dest with
      | Some reports =>
          with_topology_table r
            (PyDict.set (topology_table r) dest (decay_reports reports))
      | None => r
      end in
    (r, true)
  else (r, routes_updated).

Arguments decay_step : simpl never.

(** The body of [apply_cost_decay] after each [timeout(120)]. *)
Definition apply_cost_decay (r : Router) : Router * list action :=
  let '(r, routes_updated) :=
    fold_left decay_step (PyDict.items (fib r)) (r, false) in
  if routes_updated then
    (r, flat_map
          (fun it : string * fib_entry =>
             if negb (String.eqb (next_hop (snd it)) "self")
             then [SendUpdateProc (fst it)] else [])
          (PyDict.items (fib r)))
  else (r, []).

Definition resets (e : fib_entry) : bool :=
  negb (String.eqb (next_hop e) "self") && Qgtb (fm_get_total_cost e) 60.

Definition reset_step (acc : Router * bool) (it : string * fib_entry)
    : Router * bool :=
  let '(r, reset_needed) := acc in
  let '(dest, route_info) := it in
  if resets route_info then
    let r := with_fib r (PyDict.del (fib r) dest) in
    let r :=
      if PyDict.mem (topology_table r) dest
      then with_topology_table r (PyDict.del (topology_table r) dest)
      else r in
    (r, true)
  else (r, reset_needed).

(** The body of [monitor_and_reset_costs] after each [timeout(30)]. *)
Definition monitor_and_reset_costs (r : Router) : Router * list action :=
  let '(r, reset_needed) :=
    fold_left reset_step (PyDict.items (fib r)) (r, false) in
  if reset_needed then
    trigger_update (with_cost_history r []) None
  else (r, []).

(** ** HELLO emission and metric refresh *)

(** The random draws and the time factor read by one HELLO of
    [send_hellos]. *)
Record hello_sample := {
  hs_time_factor : Q;
  hs_network_load : Q;
  hs_congestion_spike : Q;
  hs_base_loss : Q;
  hs_loss_spike : option Q;
  hs_delay_draw : Z;
  hs_jitter_draw : Z;
  hs_congestion_draw : Z;
  hs_stability_draw : Z
}.

Definition build_hello (s : hello_sample) : ADUP_Hello :=
  let time_factor := hs_time_factor s in
  let network_load := hs_network_load s in
  let dynamic_loss :=
    hs_base_loss s * Qabs time_factor * network_load *
    hs_congestion_spike s in
  let dynamic_loss :=
    match hs_loss_spike s with
    | Some extra => dynamic_loss + extra
    | None => dynamic_loss
    end in
  {| h_delay :=
       Qmax 5 (Qmin 120
         (inject_Z (py_int (inject_Z (hs_delay_draw s) * time_factor))));
     h_jitter :=
       Qmax 1 (Qmin 20
         (inject_Z (py_int (inject_Z (hs_jitter_draw s) * network_load))));
     h_packet_loss := Qmax 0.05 (Qmin 8.0 dynamic_loss);
     h_congestion :=
       Qmax 0 (Qmin 50
         (inject_Z (py_int (inject_Z (hs_congestion_draw s) * network_load))));
     h_link_stability :=
       Qmax 70 (Qmin 100
         (inject_Z (py_int (inject_Z (hs_stability_draw s) / time_factor))))
  |}.

(** One HELLO of [send_hellos] on an interface with link [l]: the log entry
    and the packet put on the link. *)
Definition send_hello_on (r : Router) (now : Q) (l : Link) (s : hello_sample)
    : Router * ADUP_Hello :=
  let hello_pkt := build_hello s in
  let neighbor_name := link_peer l (name r) in
  (log_packet r now "HELLO" "sent" (Some neighbor_name)
     [ ("delay", h_delay hello_pkt); ("jitter", h_jitter hello_pkt) ],
   hello_pkt).

(** The draws read for one neighbor by [update_dynamic_metrics]. *)
Record metric_sample := {
  ms_time_factor : Q;
  ms_random_factor : Q;
  ms_congestion_factor : Q;
  ms_spike_factor : Q
}.

(** [self.metric_variation] *)
Definition delay_base : Q := 15.
Definition jitter_base : Q := 8.
Definition packet_loss_base : Q := 0.005.
Definition congestion_base : Q := 0.08.

Definition refresh_metrics (m : pydict Q) (s : metric_sample) : pydict Q :=
  let time_factor := ms_time_factor s in
  let random_factor := ms_random_factor s in
  let new_delay :=
    Qmax 1 (Qmin 80 (delay_base * Qabs time_factor * random_factor)) in
  let new_jitter := Qmax 0.1 (Qmin 15 (jitter_base * random_factor)) in
  let new_loss_raw :=
    packet_loss_base * 100 * Qabs time_factor * random_factor *
    ms_congestion_factor s * ms_spike_factor s in
  let new_loss := Qmax 0.01 (Qmin 8.0 new_loss_raw) in
  let new_congestion :=
    Qmax 0 (Qmin 50 (congestion_base * 100 * Qabs time_factor *
                     random_factor)) in
  let m := PyDict.set m "delay" new_delay in
  let m := PyDict.set m "jitter" new_jitter in
  let m := PyDict.set m "packet_loss" new_loss in
  let m := PyDict.set m "congestion" new_congestion in
  let m := PyDict.set m "link_stability"
             (Qmax 50 (Qmin 100 (100 - Qabs (time_factor - 1) * 30))) in
  PyDict.set m "bandwidth_utilization"
    (Qmax 10 (Qmin 90 (50 * Qabs time_factor * random_factor))).

(** One round of [update_dynamic_metrics]: every neighbor's metrics object
    is updated in place; [samples] gives the draws of each iteration. *)
Definition update_dynamic_metrics (r : Router)
    (samples : string -> metric_sample) : Router :=
  with_neighbor_table r
    (map (fun it : string * neighbor_info =>
            (fst it,
             {| last_seen := last_seen (snd it);
                nmetrics := refresh_metrics (nmetrics (snd it))
                              (samples (fst it)) |}))
         (neighbor_table r)).

Definition initial_advertisement (r : Router) : Router * list action :=
  let r := with_state r "ADVERTISING" in
  let '(r, acts) := trigger_update r None in
  (with_state r "ACTIVE", acts).

(** ** Example states *)

Definition example_hello : ADUP_Hello :=
  {| h_delay := 20; h_jitter := 4; h_packet_loss := 1;
     h_congestion := 10; h_link_stability := 90 |}.

Definition link_R1_R2 : Link := {| router1 := "R1"; router2 := "R2" |}.
Definition link_R2_R3 : Link := {| router1 := "R2"; router2 := "R3" |}.

Definition learned_entry (via : string) (cost : Q) : fib_entry :=
  {| next_hop := via;
     metrics := {| fm_total_delay := None; fm_total_cost := Some cost;
                   fm_stability := Some 100; fm_congestion := Some 10;
                   fm_packet_loss := Some 1;
                   fm_selection_reason := Some "Low congestion path" |} |}.

(** R1 of the linear topology R1 - R2 - R3, holding a route to R2's network
    through R2. *)
Definition example_R1 : Router :=
  with_fib
    (with_neighbor_table
       (init_router "R1" [("eth0", Some link_R1_R2)] ["192.168.1.0"])
       [("R2", {| last_seen := 1; nmetrics := hello_metrics example_hello |})])
    [("192.168.1.0", self_entry);
     ("192.168.2.0", learned_entry "R2" 12)].

(** R2 of the same topology at a time when R1 has gone silent: R2 still
    routes R1's network through R1. *)
Definition example_R2 : Router :=
  with_topology_table
    (with_fib
       (with_neighbor_table
          (init_router "R2"
             [("eth0", Some link_R1_R2); ("eth1", Some link_R2_R3)]
             ["192.168.2.0"])
          [("R1", {| last_seen := 1;
                     nmetrics := hello_metrics example_hello |});
           ("R3", {| last_seen := 20;
                     nmetrics := hello_metrics example_hello |})])
       [("192.168.2.0", self_entry);
        ("192.168.1.0", learned_entry "R1" 12);
        ("192.168.3.0", learned_entry "R3" 12)])
    [("192.168.1.0", [("R1", 0)]); ("192.168.3.0", [("R3", 0)])].

(** R1 holding a learned route of cost 40 to R3's network. *)
Definition example_R1_decay : Router :=
  with_topology_table
    (with_fib example_R1
       [("192.168.1.0", self_entry);
        ("192.168.3.0", learned_entry "R2" 40)])
    [("192.168.3.0", [("R2", 28)])].

(** A router whose loop-detection history for ("192.168.3.0", "R2") holds
    six costs alternating between 1 and 2. *)
Definition example_loop_router : Router :=
  with_loop_detection example_R1
    [(cost_key "192.168.3.0" "R2",
      [(0, 1); (1, 2); (2, 1); (3, 2); (4, 1); (5, 2)])].

(** A router whose cost history for ("192.168.3.0", "R2") is [10, 20]. *)
Definition example_history_router : Router :=
  with_cost_history example_R1 [(cost_key "192.168.3.0" "R2", [10; 20])].

(** ** The specification's wording of loop detection and stabilization *)

(** Rejection as the specification words it, on the recorded costs (newest
    last): the last 5 costs spread by more than 30, or 3 or more strict
    increases among the last 4 costs. *)
Definition spec_loop_verdict (costs : list Q) : bool :=
  Qgtb (py_max (last_n 5 costs) - py_min (last_n 5 costs)) 30
  || Nat.leb 3 (count_increases (last_n 4 costs)).

(** An exponential moving average with the newest sample weighted most:
    start from the oldest sample and fold each newer one in with weight
    alpha. *)
Definition spec_ema (history : list Q) : Q :=
  match history with
  | [] => 0
  | oldest :: newer =>
      fold_left (fun s x => alpha * x + (1 - alpha) * s) newer oldest
  end.

(** Stabilization as the specification words it. *)
Definition spec_stabilized_value (history : list Q) (c : Q) : Q :=
  if Nat.leb 3 (List.length history) then
    Qmin (Qmin (spec_ema history)
               (1.20 * nth (List.length history - 2) history 0)) 80
  else Qmin c 60.

(** An UPDATE carrying one route entry for [P] with reported cost [c]. *)
Definition report_entry (P : string) (c : Q) : ADUP_Route_Entry :=
  {| prefix_len := 24; dest_network := P;
     total_bandwidth := 100000; total_delay := c;
     total_jitter := 0; total_packet_loss := 0;
     total_congestion := 0 |}.

Definition report (P : string) (c : Q) : ADUP_Update :=
  {| routes := [report_entry P c] |}.

(** R2 with neighbors R1 and R3, routing prefix 10.0.0.0 through R3 over a
    cheap link; R1 has not reported the prefix yet. *)
Definition example_storm_router : Router :=
  with_topology_table
    (with_fib
       (with_neighbor_table
          (init_router "R2"
             [("eth0", Some link_R1_R2); ("eth1", Some link_R2_R3)]
             ["192.168.2.0"])
          [("R1", {| last_seen := 0;
                     nmetrics := hello_metrics example_hello |});
           ("R3", {| last_seen := 0;
                     nmetrics :=
                       hello_metrics
                         {| h_delay := 5; h_jitter := 1;
                            h_packet_loss := 0.05; h_congestion := 0;
                            h_link_stability := 100 |} |})])
       [("192.168.2.0", self_entry);
        ("10.0.0.0", learned_entry "R3" 3.325)])
    [("10.0.0.0", [("R3", 1)])].

(** ** Frame conditions *)

(** The tables and logs that path selection only reads. *)
Definition routing_frame (r r' : Router) : Prop :=
  fib r' = fib r /\
  topology_table r' = topology_table r /\
  route_changes r' = route_changes r /\
  neighbor_table r' = neighbor_table r /\
  path_usage r' = path_usage r /\
  networks r' = networks r.

(** No prefix loses its FIB entry. *)
Definition fib_keeps (r r' : Router) : Prop :=
  forall P, PyDict.get (fib r) P <> None -> PyDict.get (fib r') P <> None.

(** The FIB after the loop of [trigger_update()] over [self.networks]. *)
Definition install_self (f : pydict fib_entry) (nets : list string)
    : pydict fib_entry :=
  fold_left (fun f net => PyDict.set f net self_entry) nets f.

(** The FIB after the loop of [monitor_and_reset_costs] over the items [l]. *)
Definition evict (f : pydict fib_entry) (l : list (string * fib_entry))
    : pydict fib_entry :=
  fold_left (fun f it => if resets (snd it) then PyDict.del f (fst it) else f)
            l f.

(** ** The cost invariant *)

(** The bound on a FIB entry: a recorded cost between 0 and 80, positive
    unless the entry is a directly connected network. *)
Definition fib_cost_ok (e : fib_entry) : Prop :=
  exists c, fm_total_cost (metrics e) = Some c /\
            0 <= c /\ c <= 80 /\ (next_hop e <> "self" -> 0 < c).

Definition candidate_ok (c : candidate) : Prop :=
  0 < c_total_cost c /\ c_total_cost c <= 80.

Record router_inv (r : Router) : Prop := {
  inv_fib :
    forall P e, In (P, e) (fib r) -> fib_cost_ok e;
  inv_history :
    forall k h, In (k, h) (cost_history r) -> Forall (fun x => 0 < x) h;
  inv_topology :
    forall P reports S v,
      In (P, reports) (topology_table r) -> In (S, v) reports -> 0 <= v;
  inv_neighbors :
    forall n info, In (n, info) (neighbor_table r) ->
      0 < calculate_composite_cost (nmetrics info)
}.

(** Packets as the routers of this program emit them: a HELLO is built by
    [send_hellos] from some draws, an UPDATE carries unsigned costs. *)
Inductive emitted_packet : Packet -> Prop :=
| emitted_hello (s : hello_sample) : emitted_packet (PHello (build_hello s))
| emitted_update (u : ADUP_Update) :
    Forall (fun route => 0 <= total_delay route) (routes u) ->
    emitted_packet (PUpdate u)
| emitted_other : emitted_packet POther.

(** The states a router passes through: every process of [Router] that
    writes to the router is a step. *)
Inductive reachable : Router -> Prop :=
| reach_init (nm : string) (ifs : pydict iface_info) (nets : list string) :
    reachable (init_router nm ifs nets)
| reach_packet (r : Router) (now : Q) (sender : string) (pkt : Packet) :
    reachable r -> emitted_packet pkt ->
    reachable (fst (handle_packet r now sender pkt))
| reach_advertise (r : Router) :
    reachable r -> reachable (fst (initial_advertisement r))
| reach_hello_sent (r : Router) (now : Q) (l : Link) (s : hello_sample) :
    reachable r -> reachable (fst (send_hello_on r now l s))
| reach_metrics (r : Router) (samples : string -> metric_sample) :
    reachable r -> reachable (update_dynamic_metrics r samples)
| reach_decay (r : Router) :
    reachable r -> reachable (fst (apply_cost_decay r))
| reach_reset (r : Router) :
    reachable r -> reachable (fst (monitor_and_reset_costs r)).

(** The claim of the cost bound, on one router state. *)
Definition cost_bound (r : Router) : Prop :=
  forall P e, PyDict.get (fib r) P = Some e -> next_hop e <> "self" ->
    exists c, fm_total_cost (metrics e) = Some c /\ 0 < c /\ c <= 80.

Definition example_sample : hello_sample :=
  {| hs_time_factor := 1; hs_network_load := 1; hs_congestion_spike := 1;
     hs_base_loss := 1; hs_loss_spike := None;
     hs_delay_draw := 20; hs_jitter_draw := 4;
     hs_congestion_draw := 10; hs_stability_draw := 90 |}.

(** R2 after a HELLO from R1 and R1's advertisement of its own network. *)
Definition example_learned : Router :=
  let r0 := init_router "R2" [("eth0", Some link_R1_R2)] ["192.168.2.0"] in
  let r1 := fst (handle_packet r0 1 "R1" (PHello (build_hello example_sample))) in
  fst (handle_packet r1 2 "R1" (PUpdate (report "192.168.1.0" 0))).

(** ** Bounded logs and histories *)

(** The sizes the code keeps its logs and per-path histories within; a
    history that exists holds at least the sample that created it. *)
Record logs_bounded (r : Router) : Prop := {
  lb_packet_log : (List.length (packet_log r) <= 100)%nat;
  lb_route_changes : (List.length (route_changes r) <= 50)%nat;
  lb_path_analysis : (List.length (path_analysis_log r) <= 50)%nat;
  lb_cost_history :
    forall k h, In (k, h) (cost_history r) ->
      (1 <= List.length h <= 5)%nat;
  lb_loop_detection :
    forall k h, In (k, h) (loop_detection r) ->
      (1 <= List.length h <= 10)%nat
}.

(** The logs and histories are the same in both states. *)
Definition logs_frame (r r' : Router) : Prop :=
  packet_log r' = packet_log r /\
  route_changes r' = route_changes r /\
  path_analysis_log r' = path_analysis_log r /\
  cost_history r' = cost_history r /\
  loop_detection r' = loop_detection r.

(** ** The ceiling reached in practice *)

(** Costs installed in the FIB and samples kept for stabilization stay at or
    below 71 = 50 + (80 - 50) * 0.7. *)
Record damped_inv (r : Router) : Prop := {
  di_fib :
    forall P e, In (P, e) (fib r) -> fm_get_total_cost e <= 71;
  di_history :
    forall k h, In (k, h) (cost_history r) -> Forall (fun x => x <= 71) h
}.

(** ** The install condition of [recalculate_dual] *)

(** The selected candidate differs from the installed route: there is no
    route, or its next hop is another one, or its cost is missing or more
    than 0.1 away from the candidate's. *)
Definition route_moves (r : Router) (dest : string) (c : candidate) : Prop :=
  match PyDict.get (fib r) dest with
  | None => True
  | Some e =>
      next_hop e <> c_neighbor c \/
      match fm_total_cost (metrics e) with
      | None => True
      | Some current_cost => 0.1 < Qabs (c_total_cost c - current_cost)
      end
  end.

(** The next hop of the installed route as [recalculate_dual] logs it. *)
Definition logged_next_hop (r : Router) (dest : string) : string :=
  match PyDict.get (fib r) dest with
  | Some e => next_hop e
  | None => "None"
  end.

(** R2 as in [example_storm_router], after R1 has reported the prefix at
    cost 0. *)
Definition example_zero_report : Router :=
  with_topology_table example_storm_router
    [("10.0.0.0", [("R3", 1); ("R1", 0)])].

(** ** Bounds on the topology table *)

Definition topology_le_100 (r : Router) : Prop :=
  forall P reports S v,
    In (P, reports) (topology_table r) -> In (S, v) reports -> v <= 100.

(** ** The decay sweep, entry by entry *)

(** What one decay sweep makes of a FIB entry. *)
Definition decay_entry (e : fib_entry) : fib_entry :=
  if decays e
  then set_total_cost e (fm_get_total_cost e * decay_factor)
  else e.

(** The prefixes the decay sweep re-advertises when something decayed. *)
Definition learned_prefixes (f : pydict fib_entry) : list string :=
  map fst
    (filter (fun it : string * fib_entry =>
               negb (String.eqb (next_hop (snd it)) "self")) f).

(** ** The range of link costs *)

Definition link_costs_in_range (r : Router) : Prop :=
  forall n info, In (n, info) (neighbor_table r) ->
    0.445 <= calculate_composite_cost (nmetrics info) /\
    calculate_composite_cost (nmetrics info) <= 79.5.

(** ** Topologies ([src/adup/simulation.py]) *)

Definition with_interfaces (r : Router) (x : pydict iface_info) :=
  {| name := name r; interfaces := x;
     neighbor_table := neighbor_table r;
     networks := networks r; fib := fib r;
     topology_table := topology_table r; state := state r;
     packet_log := packet_log r; route_changes := route_changes r;
     last_route_change_time := last_route_change_time r;
     convergence_start_time := convergence_start_time r;
     path_usage := path_usage r; path_analysis_log := path_analysis_log r;
     cost_history := cost_history r; loop_detection := loop_detection r |}.

(** [f'R{i+1}'], [f'192.168.{i+1}.0'] and [f'eth{j}']. *)
Definition router_name (i : nat) : string := "R" ++ decimal (i + 1).
Definition network_of (i : nat) : string :=
  "192.168." ++ decimal (i + 1) ++ ".0".
Definition eth (j : nat) : string := "eth" ++ decimal j.

(** [{f'eth{j}': {} for j in range(k)}] *)
Definition eth_interfaces (k : nat) : pydict iface_info :=
  map (fun j => (eth j, None)) (seq 0 k).

(** [Link(env, r1, r2)] *)
Definition make_link (r1 r2 : Router) : Link :=
  {| router1 := name r1; router2 := name r2 |}.

(** [router.interfaces[iface]['link'] = link] for the router stored under
    [rname]; [None] when the interface does not exist (a KeyError). *)
Definition connect (routers : pydict Router) (rname iface : string) (l : Link)
    : option (pydict Router) :=
  match PyDict.get routers rname with
  | None => None
  | Some r =>
      match PyDict.get (interfaces r) iface with
      | None => None
      | Some _ =>
          Some (PyDict.set routers rname
                  (with_interfaces r
                     (PyDict.set (interfaces r) iface (Some l))))
      end
  end.

(** The loop [for i in range(node_count)] that creates router [i] with the
    interfaces [ifs i] and stores it under its name. *)
Definition create_routers (node_count : nat) (ifs : nat -> pydict iface_info)
    : pydict Router :=
  fold_left
    (fun routers i =>
       PyDict.set routers (router_name i)
         (init_router (router_name i) (ifs i) [network_of i]))
    (seq 0 node_count) [].

(** A topology under construction: the routers by name and the links made
    so far; [None] once a statement has raised. *)
Definition topology := option (pydict Router * list Link).

(** The body of the loop of [create_linear_topology] over adjacent
    routers. *)
Definition linear_step (acc : topology) (i : nat) : topology :=
  match acc with
  | None => None
  | Some (routers, links) =>
      let router_list := map snd routers in
      match nth_error router_list i, nth_error router_list (i + 1) with
      | Some r1, Some r2 =>
          let link := make_link r1 r2 in
          match connect routers (name r1)
                  (if Nat.eqb i 0 then "eth0" else "eth1") link with
          | None => None
          | Some routers =>
              match connect routers (name r2) "eth0" link with
              | None => None
              | Some routers => Some (routers, (links ++ [link])%list)
              end
          end
      | _, _ => None
      end
  end.

Definition create_linear_topology (node_count : nat) : topology :=
  let routers :=
    create_routers node_count
      (fun i =>
         if Nat.eqb i 0 || Nat.eqb i (node_count - 1)
         then [("eth0", None)]
         else [("eth0", None); ("eth1", None)]) in
  fold_left linear_step (seq 0 (List.length routers - 1))
    (Some (routers, [])).

(** The body of the loop of [create_ring_topology]. *)
Definition ring_step (node_count : nat) (acc : topology) (i : nat)
    : topology :=
  match acc with
  | None => None
  | Some (routers, links) =>
      let router_list := map snd routers in
      match nth_error router_list i,
            nth_error router_list ((i + 1) mod node_count) with
      | Some r1, Some r2 =>
          let link := make_link r1 r2 in
          match connect routers (name r1) "eth1" link with
          | None => None
          | Some routers =>
              match connect routers (name r2) "eth0" link with
              | None => None
              | Some routers => Some (routers, (links ++ [link])%list)
              end
          end
      | _, _ => None
      end
  end.

Definition create_ring_topology (node_count : nat) : topology :=
  let routers :=
    create_routers node_count
      (fun _ => [("eth0", None); ("eth1", None)]) in
  fold_left (ring_step node_count) (seq 0 node_count) (Some (routers, [])).

(** The body of the loop of [create_star_topology] over the edge routers
    [i = 1 .. node_count - 1]. *)
Definition star_step (acc : topology) (i : nat) : topology :=
  match acc with
  | None => None
  | Some (routers, links) =>
      let router_name_i := router_name i in
      let router :=
        init_router router_name_i [("eth0", None)] [network_of i] in
      let routers := PyDict.set routers router_name_i router in
      match PyDict.get routers "R1" with
      | None => None
      | Some central_router =>
          let link := make_link central_router router in
          match connect routers (name central_router) (eth (i - 1)) link with
          | None => None
          | Some routers =>
              match connect routers (name router) "eth0" link with
              | None => None
              | Some routers => Some (routers, (links ++ [link])%list)
              end
          end
      end
  end.

Definition create_star_topology (node_count : nat) : topology :=
  let central_router :=
    init_router "R1" (eth_interfaces (node_count - 1)) ["192.168.1.0"] in
  fold_left star_step (seq 1 (node_count - 1))
    (Some ([("R1", central_router)], [])).

(** The dictionary with keys [key 0 .. key (n-1)], in that order. *)
Definition tabulate {V} (key : nat -> string) (val : nat -> V) (n : nat)
    : pydict V :=
  map (fun i => (key i, val i)) (seq 0 n).

(** The value function [val] with index [i] remapped to [v]. *)
Definition upd {V} (val : nat -> V) (i : nat) (v : V) : nat -> V :=
  fun j => if Nat.eqb j i then v else val j.

(** *** The linear topology in closed form *)

(** The link between router [k] and router [k + 1] (counting from 0). *)
Definition chain_link (k : nat) : Link :=
  {| router1 := router_name k; router2 := router_name (k + 1) |}.

(** The interfaces of router [i] of a linear topology of [n] routers once
    the first [j] links are wired. *)
Definition linear_interfaces (n j i : nat) : pydict iface_info :=
  let eth0_link :=
    if Nat.eqb i 0
    then (if Nat.ltb 0 j then Some (chain_link 0) else None)
    else (if Nat.leb i j then Some (chain_link (i - 1)) else None) in
  let eth1_link := if Nat.ltb i j then Some (chain_link i) else None in
  if Nat.eqb i 0 || Nat.eqb i (n - 1)
  then [("eth0", eth0_link)]
  else [("eth0", eth0_link); ("eth1", eth1_link)].

Definition linear_router (n j i : nat) : Router :=
  init_router (router_name i) (linear_interfaces n j i) [network_of i].

(** *** The ring topology in closed form *)

(** The link from router [k] to its successor in a ring of [n] routers. *)
Definition ring_link (n k : nat) : Link :=
  {| router1 := router_name k; router2 := router_name ((k + 1) mod n) |}.

(** The interfaces of router [i] of a ring of [n] routers once the first
    [j] links are wired. *)
Definition ring_interfaces (n j i : nat) : pydict iface_info :=
  [("eth0",
    if Nat.eqb i 0
    then (if Nat.leb n j then Some (ring_link n (n - 1)) else None)
    else (if Nat.leb i j then Some (ring_link n (i - 1)) else None));
   ("eth1", if Nat.ltb i j then Some (ring_link n i) else None)].

Definition ring_router (n j i : nat) : Router :=
  init_router (router_name i) (ring_interfaces n j i) [network_of i].

(** *** The star topology in closed form *)

(** The link from the central router to edge router [i]. *)
Definition star_link (i : nat) : Link :=
  {| router1 := "R1"; router2 := router_name i |}.

(** The interfaces of the central router of a star of [n] routers once the
    first [j] edge routers are attached. *)
Definition star_central (n j : nat) : pydict iface_info :=
  tabulate eth
    (fun k => if Nat.ltb k j then Some (star_link (k + 1)) else None)
    (n - 1).

Definition star_router (n j i : nat) : Router :=
  if Nat.eqb i 0
  then init_router "R1" (star_central n j) ["192.168.1.0"]
  else init_router (router_name i) [("eth0", Some (star_link i))]
         [network_of i].

(** *** The mesh topology *)

(** A mesh under construction: the routers, the links made so far and
    [interface_counters]; [None] once a statement has raised. *)
Definition mesh_state := option (pydict Router * list Link * pydict nat).

(** [interface_counters[name] += 1] *)
Definition bump (counters : pydict nat) (rname : string)
    : option (pydict nat) :=
  match PyDict.get counters rname with
  | None => None
  | Some c => Some (PyDict.set counters rname (c + 1)%nat)
  end.

(** The body of the inner loop of [create_mesh_topology] for the pair
    [(i, j)]. *)
Definition mesh_step (i : nat) (acc : mesh_state) (j : nat) : mesh_state :=
  match acc with
  | None => None
  | Some (routers, links, interface_counters) =>
      let router_list := map snd routers in
      match nth_error router_list i, nth_error router_list j with
      | Some r1, Some r2 =>
          let link := make_link r1 r2 in
          match PyDict.get interface_counters (name r1),
                PyDict.get interface_counters (name r2) with
          | Some c1, Some c2 =>
              match connect routers (name r1) (eth c1) link with
              | None => None
              | Some routers =>
                  match connect routers (name r2) (eth c2) link with
                  | None => None
                  | Some routers =>
                      match bump interface_counters (name r1) with
                      | None => None
                      | Some interface_counters =>
                          match bump interface_counters (name r2) with
                          | None => None
                          | Some interface_counters =>
                              Some (routers, (links ++ [link])%list,
                                    interface_counters)
                          end
                      end
                  end
              end
          | _, _ => None
          end
      | _, _ => None
      end
  end.

Definition create_mesh_topology (node_count : nat) : topology :=
  let node_count := if Nat.ltb 6 node_count then 6%nat else node_count in
  let routers :=
    create_routers node_count (fun _ => eth_interfaces (node_count - 1)) in
  let router_list := map snd routers in
  let interface_counters :=
    fold_left (fun d r => PyDict.set d (name r) 0%nat) router_list [] in
  let len := List.length router_list in
  match
    fold_left
      (fun acc i =>
         fold_left (mesh_step i) (seq (i + 1) (len - (i + 1))) acc)
      (seq 0 len)
      (Some (routers, [], interface_counters))
  with
  | None => None
  | Some (routers, links, _) => Some (routers, links)
  end.

(** The pairs [(i, j)] with [i < j < m] in the order of the two loops. *)
Definition mesh_pairs (m : nat) : list (nat * nat) :=
  flat_map (fun i => map (fun j => (i, j)) (seq (i + 1) (m - (i + 1))))
    (seq 0 m).

(** The link between routers [i] and [j], made from the lower index to the
    higher one. *)
Definition mesh_link (i j : nat) : Link :=
  {| router1 := router_name (Nat.min i j);
     router2 := router_name (Nat.max i j) |}.

(** *** The first advertisement *)

(** The UPDATE that advertises [net] at cost 0. *)
Definition zero_update (net : string) : ADUP_Update :=
  {| routes := [route_entry_for net 0] |}.

(** The interfaces that carry a link, in dictionary order. *)
Definition live_interfaces (ifs : pydict iface_info) : list (string * Link) :=
  flat_map
    (fun it : string * iface_info =>
       match snd it with Some l => [(fst it, l)] | None => [] end)
    ifs.

(** *** The default topology *)

(** [create_topology]: R1 - R2 - R3, written out statement by statement. *)
Definition create_topology : topology :=
  let r1 := init_router "R1" [("eth0", None)] ["192.168.1.0"] in
  let r2 :=
    init_router "R2" [("eth0", None); ("eth1", None)] ["192.168.2.0"] in
  let r3 := init_router "R3" [("eth0", None)] ["192.168.3.0"] in
  let routers := [("R1", r1); ("R2", r2); ("R3", r3)] in
  let link1 := make_link r1 r2 in
  let link2 := make_link r2 r3 in
  match connect routers (name r1) "eth0" link1 with
  | None => None
  | Some routers =>
      match connect routers (name r2) "eth0" link1 with
      | None => None
      | Some routers =>
          match connect routers (name r2) "eth1" link2 with
          | None => None
          | Some routers =>
              match connect routers (name r3) "eth0" link2 with
              | None => None
              | Some routers => Some (routers, [link1; link2])
              end
          end
      end
  end.

(** * Basic facts *)

Example py_int_truncates : py_int 12.9 = 12%Z /\ py_int (-0.5) = 0%Z.
Proof. split; reflexivity. Qed.

Example last_n_slice : last_n 2 [1; 2; 3] = [2; 3] /\ last_n 5 [1; 2] = [1; 2].
Proof. split; reflexivity. Qed.

Example ip_field_examples :
  ip_field_accepts "192.168.255.0" = true /\
  ip_field_accepts "192.168.256.0" = false.
Proof. split; reflexivity. Qed.

Lemma split_dots_dotless (d : string) :
  dotless d = true -> split_dots d = [d].
Proof.
  induction d as [|c d IH]; [reflexivity|]. simpl.
  destruct (Ascii.eqb c "."); [discriminate|]. simpl.
  intros H. now rewrite IH.
Qed.

Lemma split_dots_app (d rest : string) :
  dotless d = true ->
  split_dots (d ++ String "." rest) = d :: split_dots rest.
Proof.
  induction d as [|c d IH]; [reflexivity|]. simpl.
  destruct (Ascii.eqb c "."); [discriminate|]. simpl.
  intros H. now rewrite IH.
Qed.

Lemma dotless_string_of_uint (d : Decimal.uint) :
  dotless (NilEmpty.string_of_uint d) = true.
Proof. induction d; simpl; auto. Qed.

Lemma octet_decimal (k : nat) : octet (decimal k) = Nat.leb k 255.
Proof.
  unfold octet, decimal. rewrite NilEmpty.usu, DecimalNat.Unsigned.of_to.
  rewrite String.eqb_refl. apply andb_true_r.
Qed.

(** The addresses [f'192.168.{k}.0'] the topology builders hand out are
    accepted up to [k = 255] and rejected from 256 on. *)
Lemma ip_field_accepts_192_168 (k : nat) :
  ip_field_accepts ("192.168." ++ decimal k ++ ".0") = Nat.leb k 255.
Proof.
  unfold ip_field_accepts.
  change ("192.168." ++ decimal k ++ ".0")
    with ("192" ++ String "." ("168" ++ String "."
            (decimal k ++ String "." "0"))).
  rewrite !split_dots_app
    by (reflexivity || apply dotless_string_of_uint).
  change (split_dots "0") with ["0"].
  rewrite octet_decimal.
  change (octet "192") with true. change (octet "168") with true.
  change (octet "0") with true.
  cbn [andb]. apply andb_true_r.
Qed.

Example count_increases_alternating :
  count_increases [1; 2; 1; 2; 1; 2; 1] = 3%nat.
Proof. reflexivity. Qed.

Example smooth_runs_backwards : smooth [10; 20; 30] == 17.5.
Proof. reflexivity. Qed.

Example composite_cost_of_example_hello :
  calculate_composite_cost (hello_metrics example_hello) == 12.8.
Proof. reflexivity. Qed.

Lemma Qgtb_true (a b : Q) : Qgtb a b = true <-> b < a.
Proof.
  unfold Qgtb. rewrite negb_true_iff, <- not_true_iff_false, Qle_bool_iff.
  split; [apply Qnot_le_lt | apply Qlt_not_le].
Qed.

Lemma Qgtb_false (a b : Q) : Qgtb a b = false <-> a <= b.
Proof. unfold Qgtb. rewrite negb_false_iff. apply Qle_bool_iff. Qed.

Lemma Qltb_true (a b : Q) : Qltb a b = true <-> a < b.
Proof. apply (Qgtb_true b a). Qed.

Lemma Qltb_false (a b : Q) : Qltb a b = false <-> b <= a.
Proof. apply (Qgtb_false b a). Qed.

(** [if a > b then b else a] is [min(a, b)]. *)
Lemma cap_is_min (a b : Q) : (if Qgtb a b then b else a) == Qmin a b.
Proof.
  destruct (Qgtb a b) eqn:E.
  - apply Qgtb_true in E. symmetry. apply Q.min_r. lra.
  - apply Qgtb_false in E. symmetry. apply Q.min_l. exact E.
Qed.

Module PyDictFacts.
Import PyDict.
Section Facts.
Context {V : Type}.
Implicit Types (d : pydict V) (k : string) (v : V).

Lemma get_set_same d k v : get (set d k v) k = Some v.
Proof.
  induction d as [|[k' v'] d IH]; simpl.
  - now rewrite String.eqb_refl.
  - destruct (String.eqb k' k) eqn:E; simpl; now rewrite E.
Qed.

Lemma get_set_other d k k' v : k' <> k -> get (set d k v) k' = get d k'.
Proof.
  intros Hne. induction d as [|[k0 v0] d IH]; simpl.
  - destruct (String.eqb k k') eqn:E; [|reflexivity].
    apply String.eqb_eq in E. congruence.
  - destruct (String.eqb k0 k) eqn:E; simpl.
    + apply String.eqb_eq in E. subst k0.
      destruct (String.eqb k k') eqn:E'; [|reflexivity].
      apply String.eqb_eq in E'. congruence.
    + now rewrite IH.
Qed.

Lemma get_In d k v : get d k = Some v -> In (k, v) d.
Proof.
  induction d as [|[k' v'] d IH]; simpl; [discriminate|].
  destruct (String.eqb k' k) eqn:E.
  - apply String.eqb_eq in E. intros [= ->]. left. now subst.
  - intros H. right. auto.
Qed.

Lemma In_set d k v k0 v0 :
  In (k0, v0) (set d k v) -> (k0 = k /\ v0 = v) \/ In (k0, v0) d.
Proof.
  induction d as [|[k' v'] d IH]; simpl.
  - intros [[= <- <-]|[]]. now left.
  - destruct (String.eqb k' k) eqn:E; simpl.
    + apply String.eqb_eq in E. subst k'.
      intros [[= <- <-]|H]; [now left | right; now right].
    + intros [H|H]; [right; now left|].
      destruct (IH H) as [?|?]; [now left | right; now right].
Qed.

Lemma In_del d k k0 v0 : In (k0, v0) (del d k) -> In (k0, v0) d /\ k0 <> k.
Proof.
  induction d as [|[k' v'] d IH]; simpl; [tauto|].
  destruct (String.eqb k' k) eqn:E; simpl.
  - intros H. destruct (IH H). split; [now right | assumption].
  - apply String.eqb_neq in E.
    intros [[= <- <-]|H]; [split; [now left | assumption]|].
    destruct (IH H). split; [now right | assumption].
Qed.

Lemma get_del_same d k : get (del d k) k = None.
Proof.
  induction d as [|[k' v'] d IH]; simpl; [reflexivity|].
  destruct (String.eqb k' k) eqn:E; simpl; [assumption | now rewrite E].
Qed.

Lemma get_del_other d k k' : k' <> k -> get (del d k) k' = get d k'.
Proof.
  intros Hne. induction d as [|[k0 v0] d IH]; simpl; [reflexivity|].
  destruct (String.eqb k0 k) eqn:E; simpl.
  - apply String.eqb_eq in E. subst k0.
    destruct (String.eqb k k') eqn:E'; [|assumption].
    apply String.eqb_eq in E'. congruence.
  - now rewrite IH.
Qed.

Lemma get_Some_set d k v k' :
  get d k' <> None -> get (set d k v) k' <> None.
Proof.
  intros H. destruct (string_dec k' k) as [->|Hne].
  - now rewrite get_set_same.
  - now rewrite get_set_other.
Qed.

Lemma keys_set_incl d k v k0 : In k0 (keys (set d k v)) -> k0 = k \/ In k0 (keys d).
Proof.
  unfold keys. rewrite !in_map_iff. intros [[k1 v1] [<- H]].
  destruct (In_set _ _ _ _ _ H) as [[-> _]|H']; [now left|].
  right. now exists (k1, v1).
Qed.

Lemma wf_set d k v : wf d -> wf (set d k v).
Proof.
  unfold wf. induction d as [|[k' v'] d IH]; simpl; intros Hnd.
  - constructor; [intros [] | constructor].
  - inversion Hnd as [|? ? Hnot Hnd']; subst.
    destruct (String.eqb k' k) eqn:E; simpl.
    + now constructor.
    + constructor; [|auto].
      intros Hin. apply keys_set_incl in Hin as [->|Hin]; [|contradiction].
      now rewrite String.eqb_refl in E.
Qed.

Lemma wf_del d k : wf d -> wf (del d k).
Proof.
  unfold wf. induction d as [|[k' v'] d IH]; simpl; intros Hnd; [assumption|].
  inversion Hnd as [|? ? Hnot Hnd']; subst.
  destruct (String.eqb k' k); simpl; [auto|].
  constructor; [|auto].
  unfold keys. rewrite in_map_iff. intros [[k1 v1] [Hk H]]. simpl in Hk.
  subst k1. apply In_del in H as [H _]. apply Hnot.
  unfold keys. rewrite in_map_iff. now exists (k', v1).
Qed.

Lemma wf_In_get d k v : wf d -> In (k, v) d -> get d k = Some v.
Proof.
  unfold wf. induction d as [|[k' v'] d IH]; simpl; intros Hnd; [tauto|].
  inversion Hnd as [|? ? Hnot Hnd']; subst.
  intros [[= -> ->]|H].
  - now rewrite String.eqb_refl.
  - destruct (String.eqb k' k) eqn:E; [|auto].
    apply String.eqb_eq in E. subst k'. exfalso. apply Hnot.
    unfold keys. rewrite in_map_iff. now exists (k, v).
Qed.
End Facts.
End PyDictFacts.
Import PyDictFacts.

(** * Composite cost *)

(** C2. For a neighbor-metrics record holding delay, jitter, packet_loss and
    congestion, the composite link cost is
    0.40*delay + 0.20*jitter + 0.25*(packet_loss*10) + 0.15*congestion. *)
Theorem composite_cost_formula (m : pydict Q) (delay jitter packet_loss congestion : Q) :
  PyDict.get m "delay" = Some delay ->
  PyDict.get m "jitter" = Some jitter ->
  PyDict.get m "packet_loss" = Some packet_loss ->
  PyDict.get m "congestion" = Some congestion ->
  calculate_composite_cost m ==
    0.40 * delay + 0.20 * jitter + 0.25 * (packet_loss * 10)
    + 0.15 * congestion.
Proof.
  intros Hd Hj Hp Hc. unfold calculate_composite_cost, PyDict.get_default.
  rewrite Hd, Hj, Hp, Hc.
  unfold w_delay, w_jitter, w_packet_loss, w_congestion. ring.
Qed.

Lemma composite_cost_formula_witness :
  calculate_composite_cost (hello_metrics example_hello) ==
    0.40 * 20 + 0.20 * 4 + 0.25 * (1 * 10) + 0.15 * 10.
Proof.
  apply (composite_cost_formula (hello_metrics example_hello) 20 4 1 10);
    reflexivity.
Defined.

(** * Advertisement *)

Lemma send_on_all_interfaces_In (r : Router) (pkt : ADUP_Update) (em : emission) :
  In em (_send_update_on_all_interfaces r pkt) <->
  In (em_iface em, Some (em_link em)) (interfaces r) /\ em_packet em = pkt.
Proof.
  unfold _send_update_on_all_interfaces, PyDict.items.
  rewrite in_flat_map. split.
  - intros [[i [l|]] [Hin Hem]]; simpl in Hem; [|contradiction].
    destruct Hem as [<-|[]]. simpl. auto.
  - intros [Hin Hp]. exists (em_iface em, Some (em_link em)).
    split; [assumption|]. simpl. left. destruct em. simpl in *. now subst.
Qed.



(** * Neighbor pruning *)

Lemma fold_del_neighbors_frame (names : list string) (r : Router) :
  let r' := fold_left
              (fun (r' : Router) (nm : string) =>
                 with_neighbor_table r' (PyDict.del (neighbor_table r') nm))
              names r in
  fib r' = fib r /\ topology_table r' = topology_table r /\
  neighbor_table r' =
    fold_left (fun d nm => PyDict.del d nm) names (neighbor_table r).
Proof.
  revert r. induction names as [|nm names IH]; intros r; simpl.
  - auto.
  - destruct (IH (with_neighbor_table r (PyDict.del (neighbor_table r) nm)))
      as (Hf & Ht & Hn).
    simpl in *. auto.
Qed.

Lemma get_fold_del {V} (names : list string) (d : pydict V) (k : string) :
  PyDict.get (fold_left (fun d nm => PyDict.del d nm) names d) k =
  if in_dec string_dec k names then None else PyDict.get d k.
Proof.
  revert d. induction names as [|nm names IH]; intros d; simpl.
  - reflexivity.
  - rewrite IH. destruct (string_dec nm k) as [->|Hne].
    + destruct (in_dec string_dec k names); [reflexivity|].
      apply get_del_same.
    + destruct (in_dec string_dec k names); [reflexivity|].
      apply get_del_other. congruence.
Qed.

Lemma dead_neighbors_In (r : Router) (now : Q) (N : string) :
  In N (dead_neighbors r now) <->
  exists info, In (N, info) (neighbor_table r) /\ 15 < now - last_seen info.
Proof.
  unfold dead_neighbors, PyDict.items. rewrite in_map_iff. split.
  - intros [[n info] [<- H]]. apply filter_In in H as [Hin Hd].
    exists info. split; [assumption|]. now apply Qgtb_true in Hd.
  - intros [info [Hin Hd]]. exists (N, info). split; [reflexivity|].
    apply filter_In. split; [assumption|]. now apply Qgtb_true.
Qed.

(** * Frame of path selection *)

Lemma routing_frame_refl (r : Router) : routing_frame r r.
Proof. unfold routing_frame. auto 7. Qed.

Lemma routing_frame_trans (r1 r2 r3 : Router) :
  routing_frame r1 r2 -> routing_frame r2 r3 -> routing_frame r1 r3.
Proof.
  unfold routing_frame. intros (a1 & a2 & a3 & a4 & a5 & a6)
    (b1 & b2 & b3 & b4 & b5 & b6).
  repeat split; congruence.
Qed.

Lemma consider_neighbor_frame (now : Q) (dest : string)
    (acc : Router * list candidate) (it : string * Q) :
  routing_frame (fst acc) (fst (consider_neighbor now dest acc it)).
Proof.
  destruct acc as [r cs], it as [n v]. unfold consider_neighbor.
  destruct (PyDict.get (neighbor_table r) n); [|apply routing_frame_refl].
  unfold detect_cost_loop. destruct (loop_verdict _); simpl;
    unfold routing_frame; simpl; auto 7.
Qed.

Lemma fold_consider_frame (now : Q) (dest : string) (l : list (string * Q))
    (acc : Router * list candidate) :
  routing_frame (fst acc) (fst (fold_left (consider_neighbor now dest) l acc)).
Proof.
  revert acc. induction l as [|it l IH]; intros acc; simpl.
  - apply routing_frame_refl.
  - eapply routing_frame_trans; [apply consider_neighbor_frame | apply IH].
Qed.

Lemma collect_candidates_frame (r : Router) (now : Q) (dest : string) :
  routing_frame r (fst (collect_candidates r now dest)).
Proof.
  unfold collect_candidates.
  destruct (PyDict.get (topology_table r) dest).
  - apply (fold_consider_frame now dest _ (r, [])).
  - apply routing_frame_refl.
Qed.

Lemma advanced_path_selection_frame (r : Router) (now : Q) (dest : string) :
  routing_frame r (fst (advanced_path_selection r now dest)).
Proof.
  unfold advanced_path_selection.
  pose proof (collect_candidates_frame r now dest) as H.
  destruct (collect_candidates r now dest) as [r1 [|c cs]]; simpl in *.
  - exact H.
  - eapply routing_frame_trans; [exact H|].
    unfold routing_frame. simpl. auto 7.
Qed.

(** * Presence of FIB entries *)

Lemma fib_keeps_refl (r : Router) : fib_keeps r r.
Proof. now intros P. Qed.

Lemma fib_keeps_trans (r1 r2 r3 : Router) :
  fib_keeps r1 r2 -> fib_keeps r2 r3 -> fib_keeps r1 r3.
Proof. unfold fib_keeps. auto. Qed.

Lemma fib_keeps_eq (r r' : Router) : fib r' = fib r -> fib_keeps r r'.
Proof. intros H P. now rewrite H. Qed.

Lemma install_self_keeps (nets : list string) (f : pydict fib_entry) (P : string) :
  PyDict.get f P <> None -> PyDict.get (install_self f nets) P <> None.
Proof.
  revert f. induction nets as [|net nets IH]; intros f H; simpl; [assumption|].
  apply IH. now apply get_Some_set.
Qed.

Lemma trigger_all_networks (nets : list string) (r : Router) (acts : list action) :
  let r' := fst (fold_left
              (fun (acc : Router * list action) (net : string) =>
                 let '(r, acts) := acc in
                 (with_fib r (PyDict.set (fib r) net self_entry),
                  (acts ++ [SendUpdateProc net])%list))
              nets (r, acts)) in
  fib r' = install_self (fib r) nets /\
  topology_table r' = topology_table r /\
  route_changes r' = route_changes r /\
  neighbor_table r' = neighbor_table r /\
  cost_history r' = cost_history r /\
  networks r' = networks r.
Proof.
  revert r acts. induction nets as [|net nets IH]; intros r acts; simpl.
  - auto 7.
  - destruct (IH (with_fib r (PyDict.set (fib r) net self_entry))
                (acts ++ [SendUpdateProc net])%list)
      as (H1 & H2 & H3 & H4 & H5 & H6).
    simpl in *. auto 7.
Qed.

Lemma trigger_update_spec (r : Router) (dest : option string) :
  let r' := fst (trigger_update r dest) in
  (fib r' = fib r \/ fib r' = install_self (fib r) (networks r)) /\
  topology_table r' = topology_table r /\
  route_changes r' = route_changes r /\
  neighbor_table r' = neighbor_table r /\
  cost_history r' = cost_history r /\
  networks r' = networks r.
Proof.
  unfold trigger_update.
  pose proof (trigger_all_networks (networks r) r []) as H.
  destruct dest as [d|].
  - destruct (String.eqb d ""); simpl; [|auto 7].
    destruct H as (H1 & H2). auto.
  - destruct H as (H1 & H2). auto.
Qed.

Lemma trigger_update_keeps (r : Router) (dest : option string) :
  fib_keeps r (fst (trigger_update r dest)).
Proof.
  destruct (trigger_update_spec r dest) as ([H|H] & _); intros P HP;
    rewrite H; [assumption | now apply install_self_keeps].
Qed.

(** What [recalculate_dual] does to the tables, by the result of path
    selection. *)
Lemma recalculate_dual_cases (r : Router) (now : Q) (dest : string) :
  let r1 := fst (advanced_path_selection r now dest) in
  let r' := fst (recalculate_dual r now dest) in
  topology_table r' = topology_table r /\
  neighbor_table r' = neighbor_table r /\
  networks r' = networks r /\
  match snd (advanced_path_selection r now dest) with
  | None => recalculate_dual r now dest = (r1, [])
  | Some c =>
      fib r' = fib r \/
      fib r' = PyDict.set (fib r) dest (installed_entry c) \/
      fib r' = install_self (PyDict.set (fib r) dest (installed_entry c))
                 (networks r)
  end.
Proof.
  unfold recalculate_dual.
  pose proof (advanced_path_selection_frame r now dest) as Hfr.
  destruct (advanced_path_selection r now dest) as [r1 [c|]];
    cbn [fst snd] in *.
  2:{ destruct Hfr as (H1 & H2 & H3 & H4 & H5 & H6). auto. }
  destruct Hfr as (H1 & H2 & H3 & H4 & H5 & H6).
  match goal with
  | |- context [if ?b then _ else _] => destruct b
  end.
  - match goal with
    | |- context [trigger_update ?r0 ?d] =>
        destruct (trigger_update_spec r0 d) as (Hf & Ht & _ & Hn & _ & Hnet)
    end.
    simpl in *. rewrite Ht, Hn, Hnet.
    repeat split; try assumption.
    right. rewrite <- H1, <- H6. destruct Hf as [-> | ->]; auto.
  - simpl. auto.
Qed.

Lemma recalculate_dual_keeps (r : Router) (now : Q) (dest : string) :
  fib_keeps r (fst (recalculate_dual r now dest)).
Proof.
  destruct (recalculate_dual_cases r now dest) as (_ & _ & _ & H).
  pose proof (advanced_path_selection_frame r now dest) as (Hf & _).
  destruct (snd (advanced_path_selection r now dest)).
  - intros P HP. destruct H as [-> | [-> | ->]]; [assumption | |].
    + now apply get_Some_set.
    + apply install_self_keeps. now apply get_Some_set.
  - rewrite H. simpl. now apply fib_keeps_eq.
Qed.

Lemma handle_route_keeps (now : Q) (S : string)
    (acc : Router * list action) (route : ADUP_Route_Entry) :
  fib_keeps (fst acc) (fst (handle_route now S acc route)).
Proof.
  destruct acc as [r acts]. unfold handle_route.
  destruct (split_horizon_blocks r (dest_network route) S);
    [apply fib_keeps_refl|].
  destruct (Qgtb (total_delay route) 100); [apply fib_keeps_refl|].
  match goal with
  | |- context [recalculate_dual ?r0 ?n ?d] =>
      pose proof (recalculate_dual_keeps r0 n d) as H;
      destruct (recalculate_dual r0 n d) as [r' acts']
  end.
  exact H.
Qed.

Lemma fold_handle_route_keeps (now : Q) (S : string)
    (l : list ADUP_Route_Entry) (acc : Router * list action) :
  fib_keeps (fst acc) (fst (fold_left (handle_route now S) l acc)).
Proof.
  revert acc. induction l as [|route l IH]; intros acc; simpl.
  - apply fib_keeps_refl.
  - eapply fib_keeps_trans; [apply handle_route_keeps | apply IH].
Qed.

Lemma handle_update_keeps (r : Router) (now : Q) (S : string) (u : ADUP_Update) :
  fib_keeps r (fst (handle_update r now S u)).
Proof.
  unfold handle_update.
  destruct (negb (PyDict.mem (neighbor_table r) S)); [apply fib_keeps_refl|].
  apply (fold_handle_route_keeps now S (routes u) (r, [])).
Qed.

Lemma handle_packet_keeps (r : Router) (now : Q) (S : string) (pkt : Packet) :
  fib_keeps r (fst (handle_packet r now S pkt)).
Proof.
  destruct pkt as [h|u|].
  - apply fib_keeps_eq. simpl. unfold prune_neighbors.
    match goal with
    | |- context [fold_left _ ?names ?r0] =>
        destruct (fold_del_neighbors_frame names r0) as (Hf & _)
    end.
    exact Hf.
  - apply handle_update_keeps.
  - apply fib_keeps_refl.
Qed.

Lemma decay_step_keeps (acc : Router * bool) (it : string * fib_entry) :
  fib_keeps (fst acc) (fst (decay_step acc it)).
Proof.
  destruct acc as [r b], it as [dest e]. unfold decay_step.
  destruct (decays e); [|apply fib_keeps_refl].
  simpl. destruct (PyDict.get (topology_table r) dest); simpl;
    intros P HP; simpl; now apply get_Some_set.
Qed.

Lemma fold_decay_step_keeps (l : list (string * fib_entry)) (acc : Router * bool) :
  fib_keeps (fst acc) (fst (fold_left decay_step l acc)).
Proof.
  revert acc. induction l as [|it l IH]; intros acc; simpl.
  - apply fib_keeps_refl.
  - eapply fib_keeps_trans; [apply decay_step_keeps | apply IH].
Qed.

Lemma apply_cost_decay_fst (r : Router) :
  fst (apply_cost_decay r) =
  fst (fold_left decay_step (PyDict.items (fib r)) (r, false)).
Proof.
  unfold apply_cost_decay.
  destruct (fold_left decay_step (PyDict.items (fib r)) (r, false)) as [r' b].
  now destruct b.
Qed.

Lemma apply_cost_decay_keeps (r : Router) : fib_keeps r (fst (apply_cost_decay r)).
Proof.
  rewrite apply_cost_decay_fst.
  apply (fold_decay_step_keeps _ (r, false)).
Qed.

(** ** The reset sweep *)

Lemma fold_reset_step_fib (l : list (string * fib_entry)) (r : Router) (b : bool) :
  fib (fst (fold_left reset_step l (r, b))) = evict (fib r) l.
Proof.
  revert r b. induction l as [|[dest e] l IH]; intros r b; simpl.
  - reflexivity.
  - unfold evict. simpl. destruct (resets e); simpl.
    + destruct (PyDict.mem (topology_table r) dest); rewrite IH; reflexivity.
    + apply IH.
Qed.

Lemma evict_get_None (l : list (string * fib_entry)) (f : pydict fib_entry) (P : string) :
  PyDict.get (evict f l) P = None ->
  PyDict.get f P = None \/ exists e, In (P, e) l /\ resets e = true.
Proof.
  revert f. induction l as [|[dest e] l IH]; intros f H; simpl in *.
  - now left.
  - unfold evict in H. simpl in H. destruct (resets e) eqn:E.
    + destruct (IH _ H) as [H'|[e' [Hin He']]].
      * destruct (string_dec P dest) as [->|Hne].
        -- right. exists e. auto.
        -- left. now rewrite get_del_other in H'.
      * right. exists e'. auto.
    + destruct (IH _ H) as [H'|[e' [Hin He']]]; [now left|].
      right. exists e'. auto.
Qed.

Lemma monitor_and_reset_costs_fib (r : Router) :
  let r' := fst (monitor_and_reset_costs r) in
  fib r' = evict (fib r) (fib r) \/
  exists nets, fib r' = install_self (evict (fib r) (fib r)) nets.
Proof.
  unfold monitor_and_reset_costs.
  pose proof (fold_reset_step_fib (PyDict.items (fib r)) r false) as H.
  destruct (fold_left reset_step (PyDict.items (fib r)) (r, false)) as [r1 b].
  cbn [fst] in H. destruct b; [|now left].
  right. exists (networks r1). unfold trigger_update.
  destruct (trigger_all_networks (networks r1) (with_cost_history r1 []) [])
    as (H1 & _).
  cbn [networks with_cost_history] in *. rewrite H1. simpl. now rewrite H.
Qed.

Lemma In_get_Some {V} (d : pydict V) (k : string) (v : V) :
  In (k, v) d -> exists v', PyDict.get d k = Some v'.
Proof.
  induction d as [|[k' v'] d IH]; simpl; [tauto|].
  intros [[= -> ->]|H].
  - rewrite String.eqb_refl. eauto.
  - destruct (String.eqb k' k); eauto.
Qed.

Lemma fold_consider_unknown (now : Q) (dest : string) (l : list (string * Q))
    (r : Router) (cs : list candidate) :
  (forall S v, In (S, v) l -> PyDict.get (neighbor_table r) S = None) ->
  fold_left (consider_neighbor now dest) l (r, cs) = (r, cs).
Proof.
  induction l as [|[S v] l IH]; intros H; simpl; [reflexivity|].
  rewrite (H S v (or_introl eq_refl)). apply IH.
  intros S' v' Hin. apply (H S' v'). now right.
Qed.

Lemma unknown_reporters_no_candidate (r : Router) (now : Q) (P : string) :
  (forall S v, topology_lookup r P S = Some v ->
     PyDict.get (neighbor_table r) S = None) ->
  advanced_path_selection r now P = (r, None).
Proof.
  intros H. unfold advanced_path_selection, collect_candidates.
  unfold topology_lookup in H.
  destruct (PyDict.get (topology_table r) P) as [reports|]; [|reflexivity].
  rewrite fold_consider_unknown; [reflexivity|].
  intros S v Hin. destruct (In_get_Some _ _ _ Hin) as [v' Hv'].
  now apply (H S v').
Qed.

(** C9. When path selection for a prefix yields no candidate (in particular
    when no reporter of the prefix is a known neighbor), [recalculate_dual]
    leaves the FIB, the topology table and the route-change log as they are
    and schedules nothing.  No FIB entry present before a path
    recomputation, a packet handler, the decay sweep or [trigger_update] is
    absent after it; an entry absent after the reset sweep had a next hop
    other than self and a cost above 60. *)
Theorem recalculate_dual_without_candidate (r : Router) (now : Q) (P : string) :
  PyDict.wf (fib r) ->
  (snd (advanced_path_selection r now P) = None ->
     let r' := fst (recalculate_dual r now P) in
     fib r' = fib r /\
     topology_table r' = topology_table r /\
     route_changes r' = route_changes r /\
     snd (recalculate_dual r now P) = []) /\
  ((forall S v, topology_lookup r P S = Some v ->
      PyDict.get (neighbor_table r) S = None) ->
     snd (advanced_path_selection r now P) = None) /\
  fib_keeps r (fst (recalculate_dual r now P)) /\
  (forall S pkt, fib_keeps r (fst (handle_packet r now S pkt))) /\
  fib_keeps r (fst (apply_cost_decay r)) /\
  (forall d, fib_keeps r (fst (trigger_update r d))) /\
  (forall D e,
     PyDict.get (fib r) D = Some e ->
     PyDict.get (fib (fst (monitor_and_reset_costs r))) D = None ->
     next_hop e <> "self" /\ 60 < fm_get_total_cost e).
Proof.
  intros Hwf. repeat split.
  - destruct (recalculate_dual_cases r now P) as (_ & _ & _ & Hc).
    rewrite H in Hc. rewrite Hc.
    apply (advanced_path_selection_frame r now P).
  - destruct (recalculate_dual_cases r now P) as (Ht & _). exact Ht.
  - destruct (recalculate_dual_cases r now P) as (_ & _ & _ & Hc).
    rewrite H in Hc. rewrite Hc.
    apply (advanced_path_selection_frame r now P).
  - destruct (recalculate_dual_cases r now P) as (_ & _ & _ & Hc).
    rewrite H in Hc. now rewrite Hc.
  - intros H. now rewrite unknown_reporters_no_candidate.
  - apply recalculate_dual_keeps.
  - intros S pkt. apply handle_packet_keeps.
  - apply apply_cost_decay_keeps.
  - intros d. apply trigger_update_keeps.
  - assert (Hev : PyDict.get (evict (fib r) (fib r)) D = None).
    { destruct (monitor_and_reset_costs_fib r) as [Hf|[nets Hf]];
        rewrite Hf in H0; [assumption|].
      destruct (PyDict.get (evict (fib r) (fib r)) D) eqn:E; [|reflexivity].
      exfalso. revert H0. apply install_self_keeps. congruence. }
    apply evict_get_None in Hev as [Hn|[e' [Hin He']]]; [congruence|].
    apply (wf_In_get _ _ _ Hwf) in Hin.
    assert (e' = e) by congruence. subst e'.
    unfold resets in He'. apply andb_true_iff in He' as [Hs _].
    apply negb_true_iff, String.eqb_neq in Hs. exact Hs.
  - assert (Hev : PyDict.get (evict (fib r) (fib r)) D = None).
    { destruct (monitor_and_reset_costs_fib r) as [Hf|[nets Hf]];
        rewrite Hf in H0; [assumption|].
      destruct (PyDict.get (evict (fib r) (fib r)) D) eqn:E; [|reflexivity].
      exfalso. revert H0. apply install_self_keeps. congruence. }
    apply evict_get_None in Hev as [Hn|[e' [Hin He']]]; [congruence|].
    apply (wf_In_get _ _ _ Hwf) in Hin.
    assert (e' = e) by congruence. subst e'.
    unfold resets in He'. apply andb_true_iff in He' as [_ Hc].
    now apply Qgtb_true in Hc.
Qed.

Lemma recalculate_dual_without_candidate_witness :
  PyDict.wf (fib example_R2) /\
  let r' := fst (recalculate_dual example_R2 21 "10.9.9.0") in
  fib r' = fib example_R2 /\
  topology_table r' = topology_table example_R2 /\
  route_changes r' = route_changes example_R2 /\
  snd (recalculate_dual example_R2 21 "10.9.9.0") = [].
Proof.
  assert (Hwf : PyDict.wf (fib example_R2)).
  { unfold PyDict.wf. simpl. repeat constructor; simpl; intuition discriminate. }
  split; [exact Hwf|].
  apply (proj1 (recalculate_dual_without_candidate
                  example_R2 21 "10.9.9.0" Hwf)).
  reflexivity.
Defined.

(** * The decay sweep *)

Lemma decay_step_tables (r : Router) (b : bool) (d : string) (e : fib_entry) :
  let r' := fst (decay_step (r, b) (d, e)) in
  fib r' =
    (if decays e
     then PyDict.set (fib r) d
            (set_total_cost e (fm_get_total_cost e * decay_factor))
     else fib r) /\
  topology_table r' =
    (if decays e
     then match PyDict.get (topology_table r) d with
          | Some reports =>
              PyDict.set (topology_table r) d (decay_reports reports)
          | None => topology_table r
          end
     else topology_table r).
Proof.
  unfold decay_step. destruct (decays e); simpl; [|auto].
  destruct (PyDict.get (topology_table r) d); simpl; auto.
Qed.

Lemma fold_decay_step_get (l : list (string * fib_entry)) :
  NoDup (map fst l) ->
  forall (r : Router) (b : bool),
  let r' := fst (fold_left decay_step l (r, b)) in
  (forall P, ~ In P (map fst l) ->
     PyDict.get (fib r') P = PyDict.get (fib r) P /\
     PyDict.get (topology_table r') P = PyDict.get (topology_table r) P) /\
  (forall P e, In (P, e) l ->
     PyDict.get (fib r') P =
       (if decays e
        then Some (set_total_cost e (fm_get_total_cost e * decay_factor))
        else PyDict.get (fib r) P) /\
     PyDict.get (topology_table r') P =
       (if decays e
        then option_map decay_reports (PyDict.get (topology_table r) P)
        else PyDict.get (topology_table r) P)).
Proof.
  induction l as [|[d e] l IH]; intros Hnd r b; simpl.
  - split; [auto | tauto].
  - inversion Hnd as [|? ? Hnot Hnd']; subst.
    destruct (decay_step_tables r b d e) as [Hf Ht].
    destruct (decay_step (r, b) (d, e)) as [r1 b1]. cbn [fst] in Hf, Ht.
    destruct (IH Hnd' r1 b1) as [IH1 IH2].
    assert (Hother : forall P, P <> d ->
              PyDict.get (fib r1) P = PyDict.get (fib r) P /\
              PyDict.get (topology_table r1) P =
                PyDict.get (topology_table r) P).
    { intros P HP. rewrite Hf, Ht. destruct (decays e); [|auto].
      rewrite get_set_other by assumption. split; [reflexivity|].
      destruct (PyDict.get (topology_table r) d); [|reflexivity].
      now rewrite get_set_other. }
    split.
    + intros P HP.
      assert (HP1 : ~ In P (map fst l)) by tauto.
      assert (HP2 : P <> d) by (intros ->; tauto).
      destruct (IH1 P HP1) as [-> ->]. now apply Hother.
    + intros P e0 [[= -> ->]|Hin].
      * destruct (IH1 P Hnot) as [-> ->]. rewrite Hf, Ht.
        destruct (decays e0); [|auto].
        rewrite get_set_same. split; [reflexivity|].
        destruct (PyDict.get (topology_table r) P) eqn:E; simpl.
        -- now rewrite get_set_same.
        -- assumption.
      * assert (P <> d).
        { intros ->. apply Hnot. apply in_map_iff. now exists (d, e0). }
        destruct (IH2 P e0 Hin) as [-> ->].
        destruct (Hother P H) as [-> ->]. auto.
Qed.

Lemma get_decay_reports (reports : pydict Q) (S : string) :
  PyDict.get (decay_reports reports) S =
  option_map (fun v => if Qgtb v 10 then v * decay_factor else v)
             (PyDict.get reports S).
Proof.
  induction reports as [|[k v] reports IH]; simpl; [reflexivity|].
  destruct (Qgtb v 10) eqn:E; simpl; destruct (String.eqb k S); simpl;
    rewrite ?E; auto.
Qed.

(** C8. One decay sweep multiplies by 0.95 the cost of every FIB entry whose
    next hop is not self and whose cost exceeds 10, together with every
    topology-table value above 10 of that prefix; all other FIB entries and
    topology rows stay as they are.  A learned route of cost 40 has cost 38
    after the sweep. *)
Theorem apply_cost_decay_spec (r : Router) :
  PyDict.wf (fib r) ->
  let r' := fst (apply_cost_decay r) in
  (forall P e, PyDict.get (fib r) P = Some e ->
     (next_hop e <> "self" -> 10 < fm_get_total_cost e ->
        PyDict.get (fib r') P =
          Some (set_total_cost e (fm_get_total_cost e * 0.95)) /\
        (forall S v, topology_lookup r P S = Some v ->
           (10 < v -> topology_lookup r' P S = Some (v * 0.95)) /\
           (v <= 10 -> topology_lookup r' P S = Some v))) /\
     (next_hop e = "self" \/ fm_get_total_cost e <= 10 ->
        PyDict.get (fib r') P = Some e /\
        PyDict.get (topology_table r') P = PyDict.get (topology_table r) P)) /\
  (forall P, PyDict.get (fib r) P = None ->
     PyDict.get (fib r') P = None /\
     PyDict.get (topology_table r') P = PyDict.get (topology_table r) P) /\
  (forall P e, PyDict.get (fib r) P = Some e ->
     next_hop e <> "self" -> fm_total_cost (metrics e) = Some 40 ->
     exists e' c, PyDict.get (fib r') P = Some e' /\
                  next_hop e' = next_hop e /\
                  fm_total_cost (metrics e') = Some c /\ c == 38).
Proof.
  intros Hwf r'. subst r'. rewrite apply_cost_decay_fst.
  destruct (fold_decay_step_get (PyDict.items (fib r)) Hwf r false)
    as [Hout Hin].
  assert (Hdec : forall P e, PyDict.get (fib r) P = Some e ->
            next_hop e <> "self" -> 10 < fm_get_total_cost e ->
            PyDict.get
              (fib (fst (fold_left decay_step (PyDict.items (fib r))
                           (r, false)))) P =
            Some (set_total_cost e (fm_get_total_cost e * 0.95)) /\
            PyDict.get
              (topology_table
                 (fst (fold_left decay_step (PyDict.items (fib r))
                         (r, false)))) P =
            option_map decay_reports (PyDict.get (topology_table r) P)).
  { intros P e Hget Hs Hc.
    destruct (Hin P e (get_In _ _ _ Hget)) as [Hf Ht].
    assert (Hd : decays e = true).
    { unfold decays. apply andb_true_iff. split.
      - now apply negb_true_iff, String.eqb_neq.
      - now apply Qgtb_true. }
    rewrite Hd in Hf, Ht. auto. }
  split; [|split].
  - intros P e Hget. split.
    + intros Hs Hc. destruct (Hdec P e Hget Hs Hc) as [Hf Ht].
      split; [exact Hf|].
      intros S v Hv. unfold topology_lookup in *. rewrite Ht.
      destruct (PyDict.get (topology_table r) P) as [reports|];
        [|discriminate].
      simpl. rewrite get_decay_reports, Hv. simpl. split; intros Hcmp.
      * apply Qgtb_true in Hcmp. now rewrite Hcmp.
      * apply Qgtb_false in Hcmp. now rewrite Hcmp.
    + intros Hno. destruct (Hin P e (get_In _ _ _ Hget)) as [Hf Ht].
      assert (Hd : decays e = false).
      { unfold decays. apply andb_false_iff. destruct Hno as [Hs|Hc].
        - left. apply negb_false_iff. now apply String.eqb_eq.
        - right. now apply Qgtb_false. }
      rewrite Hd in Hf, Ht. rewrite Hf, Ht. auto.
  - intros P Hget. rewrite <- Hget. apply Hout. unfold PyDict.items.
    intros Hk. apply in_map_iff in Hk as [[k e] [Hk Hk']]. simpl in Hk.
    subst k. destruct (In_get_Some _ _ _ Hk') as [e' He']. congruence.
  - intros P e Hget Hs H40.
    assert (Hc : fm_get_total_cost e = 40).
    { unfold fm_get_total_cost. now rewrite H40. }
    destruct (Hdec P e Hget Hs) as [Hf _]; [rewrite Hc; reflexivity|].
    exists (set_total_cost e (fm_get_total_cost e * 0.95)),
           (fm_get_total_cost e * 0.95).
    repeat split; [exact Hf|]. rewrite Hc. reflexivity.
Qed.

Lemma apply_cost_decay_spec_witness :
  PyDict.wf (fib example_R1_decay) /\
  exists e' c,
    PyDict.get (fib (fst (apply_cost_decay example_R1_decay))) "192.168.3.0"
      = Some e' /\
    next_hop e' = "R2" /\
    fm_total_cost (metrics e') = Some c /\ c == 38.
Proof.
  assert (Hwf : PyDict.wf (fib example_R1_decay)).
  { unfold PyDict.wf. simpl. repeat constructor; simpl; intuition discriminate. }
  split; [exact Hwf|].
  apply (proj2 (proj2 (apply_cost_decay_spec example_R1_decay Hwf))
           "192.168.3.0" (learned_entry "R2" 40)).
  - reflexivity.
  - discriminate.
  - reflexivity.
Defined.

(** * Loop detection *)

Lemma fold_max_spec (t : list Q) (x : Q) :
  let m := fold_left (fun m y => if Qgtb y m then y else m) t x in
  In m (x :: t) /\ x <= m /\ Forall (fun y => y <= m) t.
Proof.
  revert x. induction t as [|y t IH]; intros x; simpl.
  - repeat split; [now left | lra | constructor].
  - destruct (Qgtb y x) eqn:E.
    + apply Qgtb_true in E. destruct (IH y) as (Hin & Hle & Hall).
      repeat split; [now right | lra | now constructor].
    + apply Qgtb_false in E. destruct (IH x) as (Hin & Hle & Hall).
      repeat split.
      * destruct Hin as [Hin|Hin]; [now left | right; now right].
      * assumption.
      * constructor; [lra | assumption].
Qed.

Lemma fold_min_spec (t : list Q) (x : Q) :
  let m := fold_left (fun m y => if Qltb y m then y else m) t x in
  In m (x :: t) /\ m <= x /\ Forall (fun y => m <= y) t.
Proof.
  revert x. induction t as [|y t IH]; intros x; simpl.
  - repeat split; [now left | lra | constructor].
  - destruct (Qltb y x) eqn:E.
    + apply Qltb_true in E. destruct (IH y) as (Hin & Hle & Hall).
      repeat split; [now right | lra | now constructor].
    + apply Qltb_false in E. destruct (IH x) as (Hin & Hle & Hall).
      repeat split.
      * destruct Hin as [Hin|Hin]; [now left | right; now right].
      * assumption.
      * constructor; [lra | assumption].
Qed.

(** [py_max] and [py_min] are the greatest and least element. *)
Lemma py_max_spec (l : list Q) :
  l <> [] -> In (py_max l) l /\ Forall (fun y => y <= py_max l) l.
Proof.
  destruct l as [|x t]; [congruence|]. intros _. unfold py_max.
  destruct (fold_max_spec t x) as (Hin & Hle & Hall).
  split; [assumption | now constructor].
Qed.

Lemma py_min_spec (l : list Q) :
  l <> [] -> In (py_min l) l /\ Forall (fun y => py_min l <= y) l.
Proof.
  destruct l as [|x t]; [congruence|]. intros _. unfold py_min.
  destruct (fold_min_spec t x) as (Hin & Hle & Hall).
  split; [assumption | now constructor].
Qed.

Lemma push_bounded_length {A} (bound : nat) (h : list A) (x : A) :
  (List.length h <= bound)%nat ->
  (List.length (push_bounded bound h x) <= bound)%nat.
Proof.
  intros H. unfold push_bounded.
  destruct (Nat.ltb bound (List.length (h ++ [x])%list)) eqn:E.
  - destruct h; simpl in *; [lia|]. rewrite length_app. simpl. lia.
  - apply Nat.ltb_ge in E. exact E.
Qed.

Lemma loop_verdict_true (h : list (Q * Q)) :
  loop_verdict h = true <->
  ((5 <= List.length h)%nat /\
   30 < py_max (map snd (last_n 5 h)) - py_min (map snd (last_n 5 h))) \/
  ((4 <= List.length h)%nat /\ (3 <= count_increases (map snd h))%nat).
Proof.
  unfold loop_verdict.
  destruct (Nat.leb 5 (List.length h)) eqn:E5.
  - apply Nat.leb_le in E5.
    destruct (Qgtb _ 30) eqn:Eo.
    + apply Qgtb_true in Eo. split; [left; auto | reflexivity].
    + apply Qgtb_false in Eo.
      assert (E4 : Nat.leb 4 (List.length h) = true) by (apply Nat.leb_le; lia).
      rewrite E4, Nat.leb_le. split.
      * intros H. right. split; [lia | assumption].
      * intros [[_ H]|[_ H]]; [lra | assumption].
  - apply Nat.leb_gt in E5.
    destruct (Nat.leb 4 (List.length h)) eqn:E4.
    + apply Nat.leb_le in E4. rewrite Nat.leb_le. split.
      * intros H. right. auto.
      * intros [[H _]|[_ H]]; [lia | assumption].
    + apply Nat.leb_gt in E4. split; [discriminate|].
      intros [[H _]|[H _]]; lia.
Qed.

Lemma consider_neighbor_verdict (now : Q) (P S : string) (r : Router)
    (cs : list candidate) (v : Q) (info : neighbor_info) :
  PyDict.get (neighbor_table r) S = Some info ->
  let total := calculate_composite_cost (nmetrics info) + v in
  (snd (detect_cost_loop r now P S total) = true ->
     snd (consider_neighbor now P (r, cs) (S, v)) = cs) /\
  (snd (detect_cost_loop r now P S total) = false ->
     exists cand,
       snd (consider_neighbor now P (r, cs) (S, v)) = (cs ++ [cand])%list /\
       c_neighbor cand = S).
Proof.
  intros Hget total. subst total. unfold consider_neighbor. rewrite Hget.
  unfold detect_cost_loop. cbn [snd].
  destruct (loop_verdict _); split; intros H; try discriminate.
  - reflexivity.
  - simpl. eexists. split; reflexivity.
Qed.

(** C5 as the code has it.  [detect_cost_loop] records (now, c) in the
    history of (P, S), which stays within 10 entries, and rejects exactly
    when at least 5 costs are recorded and the last 5 spread by more than
    30, or at least 4 costs are recorded and 3 or more adjacent pairs of the
    whole recorded history strictly increase.  A rejected candidate is left
    out of the candidate list; any other candidate of a known neighbor is
    appended to it. *)
Theorem detect_cost_loop_spec (r : Router) (now : Q) (P S : string) (c : Q) :
  let old := PyDict.get_default (loop_detection r) (cost_key P S) [] in
  let h := push_bounded 10 old (now, c) in
  PyDict.get (loop_detection (fst (detect_cost_loop r now P S c)))
             (cost_key P S) = Some h /\
  ((List.length old <= 10)%nat -> (List.length h <= 10)%nat) /\
  (snd (detect_cost_loop r now P S c) = true <->
   ((5 <= List.length h)%nat /\
    30 < py_max (map snd (last_n 5 h)) - py_min (map snd (last_n 5 h))) \/
   ((4 <= List.length h)%nat /\ (3 <= count_increases (map snd h))%nat)) /\
  (forall info v cs,
     PyDict.get (neighbor_table r) S = Some info ->
     c = calculate_composite_cost (nmetrics info) + v ->
     (snd (detect_cost_loop r now P S c) = true ->
        snd (consider_neighbor now P (r, cs) (S, v)) = cs) /\
     (snd (detect_cost_loop r now P S c) = false ->
        exists cand,
          snd (consider_neighbor now P (r, cs) (S, v)) = (cs ++ [cand])%list /\
          c_neighbor cand = S)).
Proof.
  intros old h. split; [|split; [|split]].
  - unfold detect_cost_loop. cbn [fst]. simpl. apply get_set_same.
  - apply push_bounded_length.
  - unfold detect_cost_loop. cbn [snd]. apply loop_verdict_true.
  - intros info v cs Hget ->. now apply consider_neighbor_verdict.
Qed.

Lemma detect_cost_loop_spec_witness :
  snd (detect_cost_loop example_loop_router 6 "192.168.3.0" "R2" 1) = true.
Proof.
  apply (proj1 (proj2 (proj2
           (detect_cost_loop_spec example_loop_router 6
              "192.168.3.0" "R2" 1)))).
  right. split; vm_compute; lia.
Defined.

(** C5 as stated fails: with recorded costs 1, 2, 1, 2, 1, 2, 1 the last four
    costs hold a single increase and the last five spread by 1, yet the
    candidate is rejected, because the increases are counted over the whole
    history. *)
Lemma detect_cost_loop_counts_whole_history :
  let r' := fst (detect_cost_loop example_loop_router 6 "192.168.3.0" "R2" 1) in
  let recorded :=
    map snd (PyDict.get_default (loop_detection r')
               (cost_key "192.168.3.0" "R2") []) in
  recorded = [1; 2; 1; 2; 1; 2; 1] /\
  snd (detect_cost_loop example_loop_router 6 "192.168.3.0" "R2" 1) = true /\
  spec_loop_verdict recorded = false.
Proof. vm_compute. auto. Qed.

(** * Stabilization *)

Lemma smooth_cons (a : Q) (t : list Q) :
  t <> [] -> smooth (a :: t) = alpha * a + (1 - alpha) * smooth t.
Proof.
  intros Ht. unfold smooth. simpl.
  destruct (rev t) as [|newest older] eqn:E.
  - exfalso. apply Ht. apply (f_equal (@rev Q)) in E.
    now rewrite rev_involutive in E.
  - simpl. now rewrite fold_left_app.
Qed.

Lemma smooth_three (a b c : Q) :
  smooth [a; b; c] == (1 # 2) * a + (1 # 4) * b + (1 # 4) * c.
Proof. unfold smooth, alpha. simpl. ring. Qed.

(** C4 as the code has it.  [stabilize_cost] records the candidate in the
    history of (P, S).  With 3 or more recorded samples (the candidate
    included) it returns the average obtained by folding from the newest
    sample back to the oldest with alpha = 0.5, so that the oldest sample
    weighs 1/2 and each newer one less, capped at 1.2 times the previously
    recorded cost and at 80; with fewer it returns min(c, 60). *)
Theorem stabilize_cost_spec (r : Router) (P S : string) (c : Q) :
  let h := push_bounded 5
             (PyDict.get_default (cost_history r) (cost_key P S) []) c in
  PyDict.get (cost_history (fst (stabilize_cost r P S c))) (cost_key P S)
    = Some h /\
  ((3 <= List.length h)%nat ->
     snd (stabilize_cost r P S c) ==
       Qmin (Qmin (smooth h) (1.2 * nth (List.length h - 2) h 0)) 80) /\
  ((List.length h < 3)%nat -> snd (stabilize_cost r P S c) = Qmin c 60) /\
  (forall a t, t <> [] ->
     smooth (a :: t) == (1 # 2) * a + (1 # 2) * smooth t) /\
  (forall a b, smooth [a; b] == (1 # 2) * a + (1 # 2) * b) /\
  (forall a b d,
     smooth [a; b; d] == (1 # 2) * a + (1 # 4) * b + (1 # 4) * d).
Proof.
  intros h. split; [|split; [|split; [|split; [|split]]]].
  - unfold stabilize_cost. cbn [fst]. simpl. apply get_set_same.
  - intros Hlen. unfold stabilize_cost. cbn [snd]. fold h.
    unfold stabilized_value.
    apply Nat.leb_le in Hlen. rewrite Hlen.
    assert (H1 : Nat.ltb 1 (List.length h) = true).
    { apply Nat.ltb_lt. apply Nat.leb_le in Hlen. lia. }
    rewrite H1. rewrite cap_is_min.
    assert (E : nth (List.length h - 2) h 0 * 1.2
                == 1.2 * nth (List.length h - 2) h 0) by ring.
    now rewrite E.
  - intros Hlen. unfold stabilize_cost. cbn [snd]. fold h.
    unfold stabilized_value.
    apply Nat.leb_gt in Hlen. now rewrite Hlen.
  - intros a t Ht. rewrite smooth_cons by assumption. unfold alpha. ring.
  - intros a b. unfold smooth, alpha. simpl. ring.
  - apply smooth_three.
Qed.

Lemma stabilize_cost_spec_witness :
  snd (stabilize_cost example_history_router "192.168.3.0" "R2" 30) ==
    Qmin (Qmin (smooth [10; 20; 30]) (1.2 * 20)) 80.
Proof.
  apply (proj1 (proj2
           (stabilize_cost_spec example_history_router
              "192.168.3.0" "R2" 30))).
  vm_compute. lia.
Defined.

(** C4 as stated fails: with recorded samples 10, 20 and candidate 30 the
    code returns 17.5 (oldest sample weighted most), whereas the average
    that weighs the newest sample most is 22.5; neither cap applies. *)
Lemma stabilize_cost_weighs_oldest_most :
  snd (stabilize_cost example_history_router "192.168.3.0" "R2" 30) == 17.5 /\
  spec_stabilized_value [10; 20; 30] 30 == 22.5 /\
  ~ snd (stabilize_cost example_history_router "192.168.3.0" "R2" 30)
    == spec_stabilized_value [10; 20; 30] 30.
Proof.
  split; [|split]; vm_compute; congruence.
Qed.

(** * UPDATE admission *)

Lemma handle_single_route (r : Router) (now : Q) (S : string)
    (route : ADUP_Route_Entry) :
  PyDict.mem (neighbor_table r) S = true ->
  split_horizon_blocks r (dest_network route) S = false ->
  let r' := fst (handle_update r now S {| routes := [route] |}) in
  (100 < total_delay route -> r' = r) /\
  (total_delay route <= 100 ->
     topology_lookup r' (dest_network route) S =
       Some (admitted_cost (topology_lookup r (dest_network route) S)
                           (total_delay route)) /\
     neighbor_table r' = neighbor_table r).
Proof.
  intros Hmem Hsh. unfold handle_update. rewrite Hmem. simpl.
  unfold handle_route. rewrite Hsh. split; intros Hc.
  - apply Qgtb_true in Hc. now rewrite Hc.
  - apply Qgtb_false in Hc. rewrite Hc.
    match goal with
    | |- context [recalculate_dual ?r0 ?n ?d] =>
        destruct (recalculate_dual_cases r0 n d) as (Ht & Hn & _);
        destruct (recalculate_dual r0 n d) as [r' acts']
    end.
    cbn [fst] in *. split; [|exact Hn].
    unfold topology_lookup at 1. rewrite Ht. simpl.
    rewrite get_set_same. apply get_set_same.
Qed.

(** C3 with the closing example as the code computes it.  A route entry
    from a known neighbor that passes the split-horizon check is dropped,
    leaving the router as it is, when its cost exceeds 100; otherwise the
    topology table stores min(old*1.5, 80) when a previous value old exists
    and the cost exceeds 2*old, and the reported cost itself in every other
    case.  When S reports 10, then 25, then 90 for a prefix it had not
    reported before, each report passing the split-horizon check, the
    stored value is 22.5: the second report already exceeds twice the first
    and is stored as 15. *)
Theorem update_admission :
  (forall (r : Router) (now : Q) (S : string) (route : ADUP_Route_Entry),
     PyDict.mem (neighbor_table r) S = true ->
     split_horizon_blocks r (dest_network route) S = false ->
     let P := dest_network route in
     let c := total_delay route in
     let r' := fst (handle_update r now S {| routes := [route] |}) in
     (100 < c -> r' = r) /\
     (c <= 100 ->
        (forall old, topology_lookup r P S = Some old -> 2 * old < c ->
           exists v, topology_lookup r' P S = Some v /\
                     v == Qmin (old * 1.5) 80) /\
        (forall old, topology_lookup r P S = Some old -> c <= 2 * old ->
           topology_lookup r' P S = Some c) /\
        (topology_lookup r P S = None -> topology_lookup r' P S = Some c)))
  /\
  (forall (r : Router) (t1 t2 t3 : Q) (S X : string),
     PyDict.mem (neighbor_table r) S = true ->
     topology_lookup r X S = None ->
     let r1 := fst (handle_update r t1 S (report X 10)) in
     let r2 := fst (handle_update r1 t2 S (report X 25)) in
     let r3 := fst (handle_update r2 t3 S (report X 90)) in
     split_horizon_blocks r X S = false ->
     split_horizon_blocks r1 X S = false ->
     split_horizon_blocks r2 X S = false ->
     exists v, topology_lookup r3 X S = Some v /\ v == 22.5).
Proof.
  split.
  - intros r now S route Hmem Hsh P c r'.
    destruct (handle_single_route r now S route Hmem Hsh) as [Hdrop Hadm].
    split; [exact Hdrop|]. intros Hc. destruct (Hadm Hc) as [Hv _].
    fold P c r' in Hv. split; [|split].
    + intros old Hold Hgt. rewrite Hv, Hold. simpl.
      assert (E : Qgtb c (old * 2.0) = true) by (apply Qgtb_true; lra).
      rewrite E. eexists. split; reflexivity.
    + intros old Hold Hle. rewrite Hv, Hold. simpl.
      assert (E : Qgtb c (old * 2.0) = false) by (apply Qgtb_false; lra).
      now rewrite E.
    + intros Hnone. now rewrite Hv, Hnone.
  - intros r t1 t2 t3 S X Hmem Hnone r1 r2 r3 Hsh0 Hsh1 Hsh2.
    destruct (handle_single_route r t1 S (report_entry X 10) Hmem Hsh0)
      as [_ H1].
    destruct H1 as [Hv1 Hn1]; [simpl; lra|].
    change (fst (handle_update r t1 S {| routes := [report_entry X 10] |}))
      with r1 in Hv1, Hn1.
    cbn [report_entry dest_network total_delay] in Hv1.
    rewrite Hnone in Hv1.
    assert (Hmem1 : PyDict.mem (neighbor_table r1) S = true)
      by now rewrite Hn1.
    destruct (handle_single_route r1 t2 S (report_entry X 25) Hmem1 Hsh1)
      as [_ H2].
    destruct H2 as [Hv2 Hn2]; [simpl; lra|].
    change (fst (handle_update r1 t2 S {| routes := [report_entry X 25] |}))
      with r2 in Hv2, Hn2.
    cbn [report_entry dest_network total_delay] in Hv2.
    rewrite Hv1 in Hv2.
    assert (Hmem2 : PyDict.mem (neighbor_table r2) S = true)
      by now rewrite Hn2.
    destruct (handle_single_route r2 t3 S (report_entry X 90) Hmem2 Hsh2)
      as [_ H3].
    destruct H3 as [Hv3 _]; [simpl; lra|].
    change (fst (handle_update r2 t3 S {| routes := [report_entry X 90] |}))
      with r3 in Hv3.
    cbn [report_entry dest_network total_delay] in Hv3.
    rewrite Hv2 in Hv3.
    eexists. split; [exact Hv3|]. vm_compute. reflexivity.
Qed.

Lemma update_admission_witness :
  let r := example_storm_router in
  let r1 := fst (handle_update r 1 "R1" (report "10.0.0.0" 10)) in
  let r2 := fst (handle_update r1 2 "R1" (report "10.0.0.0" 25)) in
  let r3 := fst (handle_update r2 3 "R1" (report "10.0.0.0" 90)) in
  exists v, topology_lookup r3 "10.0.0.0" "R1" = Some v /\ v == 22.5.
Proof.
  apply (proj2 update_admission example_storm_router 1 2 3 "R1" "10.0.0.0");
    vm_compute; reflexivity.
Defined.

(** C3 as stated fails: R1 reports 10, then 25, then 90 to R2 for a prefix
    R2 routes through R3; all three reports pass the split-horizon check
    and the stored value is 22.5, not 37.5. *)
Lemma cost_storm_stores_22_5 :
  let r := example_storm_router in
  let r1 := fst (handle_update r 1 "R1" (report "10.0.0.0" 10)) in
  let r2 := fst (handle_update r1 2 "R1" (report "10.0.0.0" 25)) in
  let r3 := fst (handle_update r2 3 "R1" (report "10.0.0.0" 90)) in
  PyDict.mem (neighbor_table r) "R1" = true /\
  split_horizon_blocks r "10.0.0.0" "R1" = false /\
  split_horizon_blocks r1 "10.0.0.0" "R1" = false /\
  split_horizon_blocks r2 "10.0.0.0" "R1" = false /\
  exists v, topology_lookup r3 "10.0.0.0" "R1" = Some v /\
            v == 22.5 /\ ~ v == 37.5.
Proof.
  vm_compute. repeat split; try reflexivity.
  eexists. split; [reflexivity|]. split; [reflexivity | discriminate].
Qed.

(** * Split horizon *)

Lemma fold_handle_route_blocked (now : Q) (S : string)
    (l : list ADUP_Route_Entry) (r : Router) (acts : list action) :
  (forall route, In route l ->
     split_horizon_blocks r (dest_network route) S = true) ->
  fold_left (handle_route now S) l (r, acts) = (r, acts).
Proof.
  induction l as [|route l IH]; intros H; cbn [fold_left]; [reflexivity|].
  replace (handle_route now S (r, acts) route) with (r, acts).
  - apply IH. intros route' Hin. apply H. now right.
  - unfold handle_route. now rewrite (H route (or_introl eq_refl)).
Qed.

(** C1 as the code has it.  [send_update] does no filtering by next hop: an
    advertised prefix (an IPv4 address, as every prefix learned from a
    packet is, with a FIB cost of at most 70) is sent on every interface with
    a live link, the one toward its own next hop included.  The
    split-horizon check is made on receipt: a router ignores every route
    entry of an UPDATE from S for a prefix whose FIB next hop is S, so such
    an UPDATE leaves its topology table and the rest of its state as they
    are and schedules nothing. *)
Theorem split_horizon_on_receipt :
  (forall (r : Router) (P : string) (e : fib_entry) (i : string) (l : Link),
     PyDict.get (fib r) P = Some e ->
     fib_total_cost e <= 70 ->
     ip_field_accepts P = true ->
     In (i, Some l) (interfaces r) ->
     link_peer l (name r) = next_hop e ->
     exists em, In em (send_update r P) /\
                em_iface em = i /\ em_link em = l /\
                exists entry, routes (em_packet em) = [entry] /\
                              dest_network entry = P) /\
  (forall (r : Router) (now : Q) (S : string) (u : ADUP_Update),
     (forall route, In route (routes u) ->
        exists e, PyDict.get (fib r) (dest_network route) = Some e /\
                  next_hop e = S) ->
     handle_update r now S u = (r, [])).
Proof.
  split.
  - intros r P e i l Hget Hc Hip Hin _.
    exists {| em_iface := i; em_link := l;
              em_packet :=
                {| routes := [route_entry_for P (fib_total_cost e)] |} |}.
    split; [|simpl; repeat split; eexists; split; reflexivity].
    unfold send_update, ADUP_Route_Entry_new. rewrite Hget.
    apply Qgtb_false in Hc. rewrite Hc, Hip.
    apply send_on_all_interfaces_In. simpl. auto.
  - intros r now S u H. unfold handle_update.
    destruct (negb (PyDict.mem (neighbor_table r) S)); [reflexivity|].
    apply fold_handle_route_blocked.
    intros route Hin. destruct (H route Hin) as [e [Hget Hnh]].
    unfold split_horizon_blocks. rewrite Hget, Hnh. apply String.eqb_refl.
Qed.

Lemma split_horizon_on_receipt_witness :
  (exists em, In em (send_update example_R1 "192.168.2.0") /\
              em_iface em = "eth0" /\ em_link em = link_R1_R2 /\
              exists entry, routes (em_packet em) = [entry] /\
                            dest_network entry = "192.168.2.0") /\
  handle_update example_R1 2 "R2" (report "192.168.2.0" 5) = (example_R1, []).
Proof.
  split.
  - apply (proj1 split_horizon_on_receipt example_R1 "192.168.2.0"
             (learned_entry "R2" 12) "eth0" link_R1_R2).
    + reflexivity.
    + vm_compute. discriminate.
    + reflexivity.
    + simpl. auto.
    + reflexivity.
  - apply (proj2 split_horizon_on_receipt example_R1 2 "R2"
             (report "192.168.2.0" 5)).
    intros route [<-|[]]. exists (learned_entry "R2" 12).
    split; reflexivity.
Defined.

(** C1 as stated fails: R1 routes 192.168.2.0 through R2, and the UPDATE
    for that prefix is put on eth0, whose link leads to R2; R2, handling
    it, records the cost under R1 in its topology table for the prefix. *)
Lemma update_sent_toward_next_hop :
  exists e em entry,
    PyDict.get (fib example_R1) "192.168.2.0" = Some e /\
    next_hop e = "R2" /\
    In em (send_update example_R1 "192.168.2.0") /\
    link_peer (em_link em) (name example_R1) = "R2" /\
    In entry (routes (em_packet em)) /\
    dest_network entry = "192.168.2.0" /\
    topology_lookup
      (fst (handle_packet example_R2 2 (name example_R1)
              (PUpdate (em_packet em))))
      "192.168.2.0" "R1" = Some 12.
Proof.
  exists (learned_entry "R2" 12).
  exists {| em_iface := "eth0"; em_link := link_R1_R2;
            em_packet :=
              {| routes := [route_entry_for "192.168.2.0" 12] |} |}.
  exists (route_entry_for "192.168.2.0" 12).
  repeat split; try reflexivity; simpl; auto.
Qed.

(** * The cost bound *)

Lemma fold_smooth_pos (l : list Q) (x : Q) :
  0 < x -> Forall (fun y => 0 < y) l ->
  0 < fold_left (fun smoothed h => alpha * h + (1 - alpha) * smoothed) l x.
Proof.
  revert x. induction l as [|y l IH]; intros x Hx Hl; simpl; [assumption|].
  inversion Hl; subst. apply IH; [|assumption]. unfold alpha. lra.
Qed.

Lemma smooth_pos (h : list Q) :
  h <> [] -> Forall (fun y => 0 < y) h -> 0 < smooth h.
Proof.
  intros Hne Hall. unfold smooth.
  assert (Hrev : Forall (fun y => 0 < y) (rev h)).
  { apply Forall_forall. intros y Hy. apply in_rev in Hy.
    revert y Hy. now apply Forall_forall. }
  destruct (rev h) as [|newest older] eqn:E.
  - exfalso. apply Hne. apply (f_equal (@rev Q)) in E.
    now rewrite rev_involutive in E.
  - inversion Hrev; subst. now apply fold_smooth_pos.
Qed.

Lemma stabilized_value_bound (h : list Q) (c : Q) :
  Forall (fun y => 0 < y) h -> 0 < c ->
  0 < stabilized_value h c /\ stabilized_value h c <= 80.
Proof.
  intros Hall Hc. unfold stabilized_value.
  destruct (Nat.leb 3 (List.length h)) eqn:E3.
  - apply Nat.leb_le in E3.
    assert (E1 : Nat.ltb 1 (List.length h) = true) by (apply Nat.ltb_lt; lia).
    rewrite E1.
    assert (Hs : 0 < smooth h).
    { apply smooth_pos; [|assumption]. intros ->. simpl in E3. lia. }
    assert (Hp : 0 < nth (List.length h - 2) h 0).
    { assert (Hin : In (nth (List.length h - 2) h 0) h)
        by (apply nth_In; lia).
      revert Hin. now apply Forall_forall. }
    set (capped := if Qgtb (smooth h) (nth (List.length h - 2) h 0 * 1.2)
                   then nth (List.length h - 2) h 0 * 1.2 else smooth h).
    assert (Hcap : 0 < capped).
    { subst capped. destruct (Qgtb _ _); lra. }
    split.
    + apply Q.min_glb_lt; lra.
    + apply Q.le_min_r.
  - split.
    + apply Q.min_glb_lt; lra.
    + pose proof (Q.le_min_r c 60). lra.
Qed.

Lemma push_bounded_Forall {A} (P : A -> Prop) (bound : nat) (h : list A) (x : A) :
  Forall P h -> P x -> Forall P (push_bounded bound h x).
Proof.
  intros Hh Hx. unfold push_bounded.
  assert (Hall : Forall P (h ++ [x])%list).
  { apply Forall_app. split; [assumption | now constructor]. }
  destruct (Nat.ltb bound _); [|assumption].
  destruct (h ++ [x])%list; simpl; [constructor|]. now inversion Hall.
Qed.

Lemma ceiling_and_damping_bound (t : Q) :
  0 < t -> 0 < ceiling_and_damping t /\ ceiling_and_damping t <= 71.
Proof.
  intros Ht. unfold ceiling_and_damping.
  assert (H80 : Qmin t 80 <= 80) by apply Q.le_min_r.
  assert (Hpos : 0 < Qmin t 80) by (apply Q.min_glb_lt; lra).
  destruct (Qgtb (Qmin t 80) 50) eqn:E.
  - apply Qgtb_true in E. split; lra.
  - apply Qgtb_false in E. split; lra.
Qed.

Lemma router_inv_ext (r r' : Router) :
  fib r' = fib r -> cost_history r' = cost_history r ->
  topology_table r' = topology_table r ->
  neighbor_table r' = neighbor_table r ->
  router_inv r -> router_inv r'.
Proof.
  intros Hf Hc Ht Hn [I1 I2 I3 I4].
  constructor; rewrite ?Hf, ?Hc, ?Ht, ?Hn; assumption.
Qed.

Lemma detect_cost_loop_inv (r : Router) (now : Q) (d n : string) (c : Q) :
  router_inv r -> router_inv (fst (detect_cost_loop r now d n c)).
Proof. apply router_inv_ext; reflexivity. Qed.

Lemma stabilize_cost_inv (r : Router) (d n : string) (c : Q) :
  router_inv r -> 0 < c ->
  router_inv (fst (stabilize_cost r d n c)) /\
  0 < snd (stabilize_cost r d n c) /\ snd (stabilize_cost r d n c) <= 80.
Proof.
  intros Hinv Hc. unfold stabilize_cost. cbn [fst snd].
  set (old := PyDict.get_default (cost_history r) (cost_key d n) []).
  assert (Hold : Forall (fun x => 0 < x) old).
  { subst old. unfold PyDict.get_default.
    destruct (PyDict.get (cost_history r) (cost_key d n)) eqn:E;
      [|constructor].
    apply get_In in E. exact (inv_history r Hinv _ _ E). }
  assert (Hnew : Forall (fun x => 0 < x) (push_bounded 5 old c))
    by now apply push_bounded_Forall.
  split; [|now apply stabilized_value_bound].
  destruct Hinv as [I1 I2 I3 I4]. constructor; simpl; try assumption.
  intros k h Hin. apply In_set in Hin as [[_ ->]|Hin]; [assumption|].
  now apply (I2 k).
Qed.

Lemma consider_neighbor_inv (now : Q) (dest : string) (r : Router)
    (cs : list candidate) (S : string) (v : Q) :
  router_inv r -> 0 <= v -> Forall candidate_ok cs ->
  router_inv (fst (consider_neighbor now dest (r, cs) (S, v))) /\
  Forall candidate_ok (snd (consider_neighbor now dest (r, cs) (S, v))).
Proof.
  intros Hinv Hv Hcs. unfold consider_neighbor.
  destruct (PyDict.get (neighbor_table r) S) as [info|] eqn:Hget;
    [|split; assumption].
  assert (Hlink : 0 < calculate_composite_cost (nmetrics info)).
  { apply get_In in Hget. exact (inv_neighbors r Hinv _ _ Hget). }
  set (total := calculate_composite_cost (nmetrics info) + v).
  assert (Htotal : 0 < total) by (subst total; lra).
  pose proof (detect_cost_loop_inv r now dest S total Hinv) as H1.
  destruct (detect_cost_loop r now dest S total) as [r1 looped].
  cbn [fst] in H1. destruct looped; [split; assumption|].
  destruct (ceiling_and_damping_bound total Htotal) as [Hcd _].
  destruct (stabilize_cost_inv r1 dest S (ceiling_and_damping total) H1 Hcd)
    as (H2 & Hpos & Hle).
  destruct (stabilize_cost r1 dest S (ceiling_and_damping total))
    as [r2 stabilized].
  cbn [fst snd] in *. split; [assumption|].
  apply Forall_app. split; [assumption|].
  constructor; [|constructor]. split; assumption.
Qed.

Lemma fold_consider_inv (now : Q) (dest : string) (l : list (string * Q))
    (r : Router) (cs : list candidate) :
  router_inv r -> Forall (fun it => 0 <= snd it) l ->
  Forall candidate_ok cs ->
  router_inv (fst (fold_left (consider_neighbor now dest) l (r, cs))) /\
  Forall candidate_ok
    (snd (fold_left (consider_neighbor now dest) l (r, cs))).
Proof.
  revert r cs. induction l as [|[S v] l IH]; intros r cs Hinv Hl Hcs;
    cbn [fold_left]; [split; assumption|].
  inversion Hl as [|? ? Hv Hl']; subst. simpl in Hv.
  destruct (consider_neighbor_inv now dest r cs S v Hinv) as [H1 H2];
    try assumption.
  destruct (consider_neighbor now dest (r, cs) (S, v)) as [r1 cs1].
  now apply IH.
Qed.

Lemma In_insert_candidate (c x : candidate) (l : list candidate) :
  In x (insert_candidate c l) -> x = c \/ In x l.
Proof.
  induction l as [|d l IH]; simpl.
  - intros [<-|[]]. now left.
  - destruct (Qltb _ _); simpl.
    + intros [<-|H]; [right; now left|].
      destruct (IH H); [now left | right; now right].
    + intros [<-|[<-|H]]; [now left | right; now left | right; now right].
Qed.

Lemma In_sort_candidates (x : candidate) (l : list candidate) :
  In x (sort_candidates l) -> In x l.
Proof.
  induction l as [|c l IH]; simpl; [tauto|].
  intros H. apply In_insert_candidate in H as [->|H]; [now left|].
  right. now apply IH.
Qed.

Lemma advanced_path_selection_inv (r : Router) (now : Q) (dest : string) :
  router_inv r ->
  router_inv (fst (advanced_path_selection r now dest)) /\
  (forall c, snd (advanced_path_selection r now dest) = Some c ->
             candidate_ok c).
Proof.
  intros Hinv. unfold advanced_path_selection, collect_candidates.
  assert (Hcoll :
    router_inv (fst (match PyDict.get (topology_table r) dest with
                     | Some reports =>
                         fold_left (consider_neighbor now dest)
                           (PyDict.items reports) (r, [])
                     | None => (r, [])
                     end)) /\
    Forall candidate_ok
      (snd (match PyDict.get (topology_table r) dest with
            | Some reports =>
                fold_left (consider_neighbor now dest)
                  (PyDict.items reports) (r, [])
            | None => (r, [])
            end))).
  { destruct (PyDict.get (topology_table r) dest) as [reports|] eqn:E.
    - apply fold_consider_inv; [assumption | | constructor].
      apply Forall_forall. intros [S v] Hin. simpl.
      apply get_In in E. exact (inv_topology r Hinv _ _ _ _ E Hin).
    - split; [assumption | constructor]. }
  destruct (match PyDict.get (topology_table r) dest with
            | Some reports => _ | None => _ end) as [r1 cs].
  cbn [fst snd] in Hcoll. destruct Hcoll as [H1 H2].
  destruct cs as [|c0 cs]; cbn [fst snd].
  - split; [assumption | discriminate].
  - split.
    + revert H1. apply router_inv_ext; reflexivity.
    + intros c Hc.
      assert (Hin : In c (sort_candidates (c0 :: cs))).
      { destruct (sort_candidates (c0 :: cs)); [discriminate|].
        injection Hc as ->. now left. }
      apply In_sort_candidates in Hin.
      exact (proj1 (Forall_forall _ _) H2 c Hin).
Qed.

Lemma self_entry_ok : fib_cost_ok self_entry.
Proof.
  exists 0. simpl. repeat split; try lra. intros H. now contradiction H.
Qed.

Lemma installed_entry_ok (c : candidate) :
  candidate_ok c -> fib_cost_ok (installed_entry c).
Proof.
  intros [Hpos Hle]. exists (c_total_cost c). simpl.
  repeat split; try assumption; lra.
Qed.

Lemma In_install_self (nets : list string) (f : pydict fib_entry)
    (P : string) (e : fib_entry) :
  In (P, e) (install_self f nets) -> e = self_entry \/ In (P, e) f.
Proof.
  revert f. induction nets as [|net nets IH]; intros f; simpl; [now right|].
  intros H. destruct (IH _ H) as [->|Hin]; [now left|].
  apply In_set in Hin as [[_ ->]|Hin]; [now left | now right].
Qed.

Lemma trigger_update_inv (r : Router) (d : option string) :
  router_inv r -> router_inv (fst (trigger_update r d)).
Proof.
  intros [I1 I2 I3 I4].
  destruct (trigger_update_spec r d) as (Hf & Ht & _ & Hn & Hc & _).
  constructor; rewrite ?Ht, ?Hn, ?Hc; try assumption.
  intros P e Hin. destruct Hf as [Hf|Hf]; rewrite Hf in Hin.
  - now apply (I1 P).
  - apply In_install_self in Hin as [->|Hin];
      [apply self_entry_ok | now apply (I1 P)].
Qed.

Lemma recalculate_dual_inv (r : Router) (now : Q) (dest : string) :
  router_inv r -> router_inv (fst (recalculate_dual r now dest)).
Proof.
  intros Hinv. unfold recalculate_dual.
  destruct (advanced_path_selection_inv r now dest Hinv) as [H1 Hc].
  destruct (advanced_path_selection r now dest) as [r1 [c|]];
    cbn [fst snd] in *; [|assumption].
  specialize (Hc c eq_refl).
  match goal with
  | |- context [if ?b then _ else _] => destruct b
  end.
  - apply trigger_update_inv. unfold log_route_change.
    destruct H1 as [I1 I2 I3 I4]. constructor; simpl; try assumption.
    intros P e Hin. apply In_set in Hin as [[_ ->]|Hin].
    + now apply installed_entry_ok.
    + now apply (I1 P).
  - revert H1. apply router_inv_ext; reflexivity.
Qed.

(** ** UPDATE admission keeps the invariant *)

Lemma admitted_cost_nonneg (old : option Q) (c : Q) :
  0 <= c -> (forall o, old = Some o -> 0 <= o) ->
  0 <= admitted_cost old c.
Proof.
  intros Hc Hold. unfold admitted_cost. destruct old as [o|]; [|assumption].
  specialize (Hold o eq_refl).
  destruct (Qgtb c (o * 2.0)); [|assumption].
  apply Q.min_glb; lra.
Qed.

Lemma handle_route_inv (now : Q) (S : string) (r : Router)
    (acts : list action) (route : ADUP_Route_Entry) :
  router_inv r -> 0 <= total_delay route ->
  router_inv (fst (handle_route now S (r, acts) route)).
Proof.
  intros Hinv Hc. unfold handle_route.
  destruct (split_horizon_blocks r (dest_network route) S); [assumption|].
  destruct (Qgtb (total_delay route) 100); [assumption|].
  match goal with
  | |- context [recalculate_dual ?r0 ?n ?d] =>
      assert (H0 : router_inv r0)
  end.
  { assert (Hadm : 0 <= admitted_cost
                          (topology_lookup r (dest_network route) S)
                          (total_delay route)).
    { apply admitted_cost_nonneg; [assumption|].
      intros o Ho. unfold topology_lookup in Ho.
      destruct (PyDict.get (topology_table r) (dest_network route))
        as [reports|] eqn:E; [|discriminate].
      apply get_In in E. apply get_In in Ho.
      exact (inv_topology r Hinv _ _ _ _ E Ho). }
    destruct Hinv as [I1 I2 I3 I4]. constructor; simpl; try assumption.
    intros P reports S' v Hin Hin'.
    apply In_set in Hin as [[_ ->]|Hin]; [|now apply (I3 P reports S')].
    apply In_set in Hin' as [[_ ->]|Hin']; [assumption|].
    unfold PyDict.get_default in Hin'.
    destruct (PyDict.get (topology_table r) (dest_network route))
      as [reports|] eqn:E; [|contradiction].
    apply get_In in E. exact (I3 _ reports S' v E Hin'). }
  match goal with
  | |- context [recalculate_dual ?r0 ?n ?d] =>
      pose proof (recalculate_dual_inv r0 n d H0) as H;
      destruct (recalculate_dual r0 n d) as [r' acts']
  end.
  exact H.
Qed.

Lemma handle_update_inv (r : Router) (now : Q) (S : string) (u : ADUP_Update) :
  router_inv r ->
  Forall (fun route => 0 <= total_delay route) (routes u) ->
  router_inv (fst (handle_update r now S u)).
Proof.
  intros Hinv Hall. unfold handle_update.
  destruct (negb (PyDict.mem (neighbor_table r) S)); [assumption|].
  generalize (@nil action). revert r Hinv.
  induction (routes u) as [|route l IH]; intros r Hinv acts;
    cbn [fold_left]; [assumption|].
  inversion Hall as [|? ? Hc Hall']; subst.
  pose proof (handle_route_inv now S r acts route Hinv Hc) as H.
  destruct (handle_route now S (r, acts) route) as [r1 acts1].
  now apply IH.
Qed.

(** ** HELLO handling and metric refresh keep link costs positive *)

Lemma build_hello_cost_pos (s : hello_sample) :
  0 < calculate_composite_cost (hello_metrics (build_hello s)).
Proof.
  unfold calculate_composite_cost, hello_metrics, PyDict.get_default.
  cbn [PyDict.get String.eqb Ascii.eqb Bool.eqb].
  unfold build_hello. cbn [h_delay h_jitter h_packet_loss h_congestion].
  unfold w_delay, w_jitter, w_packet_loss, w_congestion.
  match goal with
  | |- 0 < _ * Qmax 5 ?a + _ * Qmax 1 ?b + _ * Qmax 0.05 ?c * _
           + _ * Qmax 0 ?d =>
      pose proof (Q.le_max_l 5 a); pose proof (Q.le_max_l 1 b);
      pose proof (Q.le_max_l 0.05 c); pose proof (Q.le_max_l 0 d)
  end.
  lra.
Qed.

Lemma get_default_set {V} (d : pydict V) (k k' : string) (v dflt : V) :
  PyDict.get_default (PyDict.set d k v) k' dflt =
  if String.eqb k k' then v else PyDict.get_default d k' dflt.
Proof.
  unfold PyDict.get_default. destruct (String.eqb k k') eqn:E.
  - apply String.eqb_eq in E. subst. now rewrite get_set_same.
  - apply String.eqb_neq in E. rewrite get_set_other; [reflexivity|].
    congruence.
Qed.

Lemma refresh_metrics_cost_pos (m : pydict Q) (s : metric_sample) :
  0 < calculate_composite_cost (refresh_metrics m s).
Proof.
  unfold calculate_composite_cost, refresh_metrics.
  rewrite !get_default_set.
  cbn [String.eqb Ascii.eqb Bool.eqb].
  unfold w_delay, w_jitter, w_packet_loss, w_congestion.
  match goal with
  | |- 0 < _ * Qmax 1 ?a + _ * Qmax 0.1 ?b + _ * Qmax 0.01 ?c * _
           + _ * Qmax 0 ?d =>
      pose proof (Q.le_max_l 1 a); pose proof (Q.le_max_l 0.1 b);
      pose proof (Q.le_max_l 0.01 c); pose proof (Q.le_max_l 0 d)
  end.
  lra.
Qed.

Lemma prune_fold_inv (names : list string) (r : Router) :
  router_inv r ->
  router_inv
    (fold_left
       (fun (r' : Router) (nm : string) =>
          with_neighbor_table r' (PyDict.del (neighbor_table r') nm))
       names r).
Proof.
  revert r. induction names as [|nm names IH]; intros r Hinv; simpl;
    [assumption|].
  apply IH. destruct Hinv as [I1 I2 I3 I4]. constructor; simpl;
    try assumption.
  intros n info Hin. apply In_del in Hin as [Hin _]. now apply (I4 n).
Qed.

Lemma log_packet_inv (r : Router) (now : Q) (ty dir : string)
    (n : option string) (details : pydict Q) :
  router_inv r -> router_inv (log_packet r now ty dir n details).
Proof. apply router_inv_ext; reflexivity. Qed.

Lemma handle_packet_inv (r : Router) (now : Q) (sender : string) (pkt : Packet) :
  router_inv r -> emitted_packet pkt ->
  router_inv (fst (handle_packet r now sender pkt)).
Proof.
  intros Hinv Hpkt. destruct Hpkt as [s|u Hu|]; cbn [handle_packet fst].
  - unfold prune_neighbors. apply prune_fold_inv. apply log_packet_inv.
    destruct Hinv as [I1 I2 I3 I4]. constructor; simpl; try assumption.
    intros n info Hin. apply In_set in Hin as [[_ ->]|Hin].
    + apply build_hello_cost_pos.
    + now apply (I4 n).
  - now apply handle_update_inv.
  - assumption.
Qed.

Lemma update_dynamic_metrics_inv (r : Router) (samples : string -> metric_sample) :
  router_inv r -> router_inv (update_dynamic_metrics r samples).
Proof.
  intros [I1 I2 I3 I4]. constructor; simpl; try assumption.
  intros n info Hin. apply in_map_iff in Hin as [[n0 info0] [[= <- <-] _]].
  apply refresh_metrics_cost_pos.
Qed.

Lemma initial_advertisement_inv (r : Router) :
  router_inv r -> router_inv (fst (initial_advertisement r)).
Proof.
  intros Hinv. unfold initial_advertisement.
  assert (H0 : router_inv (with_state r "ADVERTISING"))
    by (revert Hinv; apply router_inv_ext; reflexivity).
  pose proof (trigger_update_inv _ None H0) as H.
  destruct (trigger_update (with_state r "ADVERTISING") None) as [r1 acts].
  cbn [fst] in *. revert H. apply router_inv_ext; reflexivity.
Qed.

(** ** The sweeps keep the invariant *)

Lemma In_decay_reports (reports : pydict Q) (S : string) (v : Q) :
  In (S, v) (decay_reports reports) ->
  exists v0, In (S, v0) reports /\ (v = v0 * decay_factor \/ v = v0).
Proof.
  unfold decay_reports. intros Hin.
  apply in_map_iff in Hin as [[S0 v0] [Heq Hin]]. simpl in Heq.
  destruct (Qgtb v0 10); injection Heq as <- <-; exists v0; auto.
Qed.

Lemma decay_step_inv (r : Router) (b : bool) (d : string) (e : fib_entry) :
  router_inv r -> fib_cost_ok e ->
  router_inv (fst (decay_step (r, b) (d, e))).
Proof.
  intros Hinv He.
  destruct (decay_step_tables r b d e) as [Hf Ht].
  assert (Hrest : cost_history (fst (decay_step (r, b) (d, e)))
                    = cost_history r /\
                  neighbor_table (fst (decay_step (r, b) (d, e)))
                    = neighbor_table r).
  { unfold decay_step. destruct (decays e); [|auto]. simpl.
    destruct (PyDict.get (topology_table r) d); auto. }
  destruct Hrest as [Hc Hn]. destruct Hinv as [I1 I2 I3 I4].
  constructor; rewrite ?Hf, ?Ht, ?Hc, ?Hn; try assumption.
  - intros P e0 Hin. destruct (decays e) eqn:Hd; [|now apply (I1 P)].
    apply In_set in Hin as [[_ ->]|Hin]; [|now apply (I1 P)].
    destruct He as (c & Hcost & H0 & H80 & Hpos).
    unfold decays in Hd. apply andb_true_iff in Hd as [_ Hd].
    apply Qgtb_true in Hd. unfold fm_get_total_cost in *.
    rewrite Hcost in *. exists (c * decay_factor). simpl.
    unfold decay_factor. repeat split; try lra.
  - intros P reports S v Hin Hin'.
    destruct (decays e); [|now apply (I3 P reports S)].
    destruct (PyDict.get (topology_table r) d) as [reports0|] eqn:E;
      [|now apply (I3 P reports S)].
    apply In_set in Hin as [[_ ->]|Hin]; [|now apply (I3 P reports S)].
    apply In_decay_reports in Hin' as [v0 [Hin' Hv]].
    apply get_In in E. pose proof (I3 _ _ _ _ E Hin') as Hv0.
    unfold decay_factor in Hv. destruct Hv as [-> | ->]; lra.
Qed.

Lemma fold_decay_step_inv (l : list (string * fib_entry)) (r : Router) (b : bool) :
  router_inv r -> Forall (fun it => fib_cost_ok (snd it)) l ->
  router_inv (fst (fold_left decay_step l (r, b))).
Proof.
  revert r b. induction l as [|[d e] l IH]; intros r b Hinv Hl;
    cbn [fold_left]; [assumption|].
  inversion Hl as [|? ? He Hl']; subst. simpl in He.
  pose proof (decay_step_inv r b d e Hinv He) as H.
  destruct (decay_step (r, b) (d, e)) as [r1 b1]. now apply IH.
Qed.

Lemma apply_cost_decay_inv (r : Router) :
  router_inv r -> router_inv (fst (apply_cost_decay r)).
Proof.
  intros Hinv. rewrite apply_cost_decay_fst.
  apply fold_decay_step_inv; [assumption|].
  apply Forall_forall. intros [P e] Hin. simpl.
  exact (inv_fib r Hinv P e Hin).
Qed.

Lemma fold_reset_step_inv (l : list (string * fib_entry)) (r : Router) (b : bool) :
  router_inv r -> router_inv (fst (fold_left reset_step l (r, b))).
Proof.
  revert r b. induction l as [|[d e] l IH]; intros r b Hinv;
    cbn [fold_left]; [assumption|].
  unfold reset_step at 2. destruct (resets e); [|now apply IH].
  apply IH. destruct Hinv as [I1 I2 I3 I4].
  match goal with
  | |- context [PyDict.mem ?t d] => destruct (PyDict.mem t d)
  end; constructor; simpl; try assumption.
  - intros P e0 Hin. apply In_del in Hin as [Hin _]. now apply (I1 P).
  - intros P reports S v Hin. apply In_del in Hin as [Hin _].
    now apply (I3 P reports S).
  - intros P e0 Hin. apply In_del in Hin as [Hin _]. now apply (I1 P).
Qed.

Lemma monitor_and_reset_costs_inv (r : Router) :
  router_inv r -> router_inv (fst (monitor_and_reset_costs r)).
Proof.
  intros Hinv. unfold monitor_and_reset_costs.
  pose proof (fold_reset_step_inv (PyDict.items (fib r)) r false Hinv) as H.
  destruct (fold_left reset_step (PyDict.items (fib r)) (r, false))
    as [r1 b].
  cbn [fst] in H. destruct b; [|assumption].
  apply trigger_update_inv. destruct H as [I1 I2 I3 I4].
  constructor; simpl; try assumption. intros k h [].
Qed.

Lemma init_router_inv (nm : string) (ifs : pydict iface_info) (nets : list string) :
  router_inv (init_router nm ifs nets).
Proof. constructor; simpl; intros; contradiction. Qed.

Lemma reachable_inv (r : Router) : reachable r -> router_inv r.
Proof.
  induction 1 as [nm ifs nets | r now sender pkt _ IH Hpkt | r _ IH
                 | r now l s _ IH | r samples _ IH | r _ IH | r _ IH].
  - apply init_router_inv.
  - now apply handle_packet_inv.
  - now apply initial_advertisement_inv.
  - unfold send_hello_on. cbn [fst]. now apply log_packet_inv.
  - now apply update_dynamic_metrics_inv.
  - now apply apply_cost_decay_inv.
  - now apply monitor_and_reset_costs_inv.
Qed.

Lemma router_inv_cost_bound (r : Router) : router_inv r -> cost_bound r.
Proof.
  intros Hinv P e Hget Hs. apply get_In in Hget.
  destruct (inv_fib r Hinv P e Hget) as (c & Hc & _ & H80 & Hpos).
  exists c. auto.
Qed.

Lemma py_int_nonneg (x : Q) : 0 <= x -> 0 <= inject_Z (py_int x).
Proof.
  intros Hx. unfold py_int, inject_Z, Qle in *. simpl in *.
  rewrite Z.mul_1_r in *. apply Z.quot_pos; lia.
Qed.

Lemma send_update_emitted (r : Router) (P : string) (em : emission) :
  router_inv r -> In em (send_update r P) ->
  emitted_packet (PUpdate (em_packet em)).
Proof.
  intros Hinv Hin. unfold send_update in Hin.
  destruct (PyDict.get (fib r) P) as [e|] eqn:E; [|contradiction].
  destruct (Qgtb (fib_total_cost e) 70); [contradiction|].
  unfold ADUP_Route_Entry_new in Hin.
  destruct (ip_field_accepts P); [|contradiction].
  apply send_on_all_interfaces_In in Hin as [_ ->].
  apply emitted_update. simpl. constructor; [|constructor]. simpl.
  apply py_int_nonneg. apply get_In in E.
  destruct (inv_fib r Hinv P e E) as (c & Hc & H0 & _).
  unfold fib_total_cost. now rewrite Hc.
Qed.

(** C6. In every state a router reaches (from its initial state, by
    handling emitted packets, advertising, logging sent HELLOs, refreshing
    metrics, and the decay and reset sweeps) every FIB entry whose next hop
    is not self has a cost above 0 and at most 80; the bound still holds
    after an UPDATE is admitted, after a path recomputation with its
    ceiling, damping and stabilization, and after the decay sweep.  The
    UPDATEs such a router sends are emitted packets themselves. *)
Theorem fib_cost_bound (r : Router) :
  reachable r ->
  cost_bound r /\
  (forall now S u,
     Forall (fun route => 0 <= total_delay route) (routes u) ->
     cost_bound (fst (handle_update r now S u))) /\
  (forall now P, cost_bound (fst (recalculate_dual r now P))) /\
  cost_bound (fst (apply_cost_decay r)) /\
  (forall P em, In em (send_update r P) ->
     emitted_packet (PUpdate (em_packet em))).
Proof.
  intros Hr. pose proof (reachable_inv r Hr) as Hinv.
  split; [|split; [|split; [|split]]].
  - now apply router_inv_cost_bound.
  - intros now S u Hu. apply router_inv_cost_bound.
    now apply handle_update_inv.
  - intros now P. apply router_inv_cost_bound.
    now apply recalculate_dual_inv.
  - apply router_inv_cost_bound. now apply apply_cost_decay_inv.
  - intros P em. now apply send_update_emitted.
Qed.

Lemma fib_cost_bound_witness :
  reachable example_learned /\
  (exists e, PyDict.get (fib example_learned) "192.168.1.0" = Some e /\
             next_hop e = "R1") /\
  cost_bound example_learned.
Proof.
  assert (Hr : reachable example_learned).
  { unfold example_learned. apply reach_packet.
    - apply reach_packet; [apply reach_init | apply emitted_hello].
    - apply emitted_update. simpl. constructor; [|constructor].
      simpl. discriminate. }
  split; [exact Hr|]. split.
  - vm_compute. eexists. split; reflexivity.
  - exact (proj1 (fib_cost_bound example_learned Hr)).
Defined.

(** * Further properties of the router *)

(** ** Logs and histories stay bounded *)

Lemma last_n_length {A} (n : nat) (l : list A) :
  (List.length (last_n n l) <= n)%nat.
Proof. unfold last_n. rewrite length_skipn. lia. Qed.

Lemma bounded_append_length {A} (n : nat) (l : list A) (x : A) :
  (List.length
     (if Nat.ltb n (List.length (l ++ [x])%list)
      then last_n n (l ++ [x])%list else (l ++ [x])%list) <= n)%nat.
Proof.
  destruct (Nat.ltb n (List.length (l ++ [x])%list)) eqn:E.
  - apply last_n_length.
  - now apply Nat.ltb_ge in E.
Qed.

Lemma push_bounded_length_pos {A} (bound : nat) (h : list A) (x : A) :
  (1 <= bound)%nat -> (1 <= List.length (push_bounded bound h x))%nat.
Proof.
  intros Hb. unfold push_bounded.
  destruct (Nat.ltb bound (List.length (h ++ [x])%list)) eqn:E.
  - apply Nat.ltb_lt in E. destruct (h ++ [x])%list; simpl in *; lia.
  - rewrite length_app. simpl. lia.
Qed.

Lemma logs_bounded_frame (r r' : Router) :
  logs_frame r r' -> logs_bounded r -> logs_bounded r'.
Proof.
  intros (H1 & H2 & H3 & H4 & H5) [B1 B2 B3 B4 B5].
  constructor; rewrite ?H1, ?H2, ?H3, ?H4, ?H5; assumption.
Qed.

Lemma logs_frame_refl (r : Router) : logs_frame r r.
Proof. unfold logs_frame. auto. Qed.

Lemma logs_frame_trans (r1 r2 r3 : Router) :
  logs_frame r1 r2 -> logs_frame r2 r3 -> logs_frame r1 r3.
Proof.
  unfold logs_frame. intros (a1 & a2 & a3 & a4 & a5) (b1 & b2 & b3 & b4 & b5).
  repeat split; congruence.
Qed.

Lemma history_lookup_bounded {A} (d : pydict (list A)) (k : string) (n : nat) :
  (forall k h, In (k, h) d -> (1 <= List.length h <= n)%nat) ->
  (List.length (PyDict.get_default d k []) <= n)%nat.
Proof.
  intros H. unfold PyDict.get_default.
  destruct (PyDict.get d k) eqn:E; [|simpl; lia].
  apply get_In in E. apply H in E. lia.
Qed.

Lemma detect_cost_loop_logs (r : Router) (now : Q) (d n : string) (c : Q) :
  logs_bounded r -> logs_bounded (fst (detect_cost_loop r now d n c)).
Proof.
  intros [B1 B2 B3 B4 B5]. unfold detect_cost_loop. cbn [fst].
  constructor; simpl; try assumption.
  intros k h Hin. apply In_set in Hin as [[_ ->]|Hin]; [|now apply (B5 k)].
  split.
  - apply push_bounded_length_pos. lia.
  - apply push_bounded_length. now apply history_lookup_bounded.
Qed.

Lemma stabilize_cost_logs (r : Router) (d n : string) (c : Q) :
  logs_bounded r -> logs_bounded (fst (stabilize_cost r d n c)).
Proof.
  intros [B1 B2 B3 B4 B5]. unfold stabilize_cost. cbn [fst].
  constructor; simpl; try assumption.
  intros k h Hin. apply In_set in Hin as [[_ ->]|Hin]; [|now apply (B4 k)].
  split.
  - apply push_bounded_length_pos. lia.
  - apply push_bounded_length. now apply history_lookup_bounded.
Qed.

Lemma consider_neighbor_logs (now : Q) (dest : string)
    (acc : Router * list candidate) (it : string * Q) :
  logs_bounded (fst acc) ->
  logs_bounded (fst (consider_neighbor now dest acc it)).
Proof.
  destruct acc as [r cs], it as [S v]. cbn [fst]. intros Hb.
  unfold consider_neighbor.
  destruct (PyDict.get (neighbor_table r) S) as [info|]; [|assumption].
  match goal with
  | |- context [detect_cost_loop ?r0 ?t ?d ?n ?c] =>
      pose proof (detect_cost_loop_logs r0 t d n c Hb) as H1;
      destruct (detect_cost_loop r0 t d n c) as [r1 looped]
  end.
  cbn [fst] in H1. destruct looped; [assumption|].
  match goal with
  | |- context [stabilize_cost ?r0 ?d ?n ?c] =>
      pose proof (stabilize_cost_logs r0 d n c H1) as H2;
      destruct (stabilize_cost r0 d n c) as [r2 stabilized]
  end.
  exact H2.
Qed.

Lemma fold_consider_logs (now : Q) (dest : string) (l : list (string * Q))
    (acc : Router * list candidate) :
  logs_bounded (fst acc) ->
  logs_bounded (fst (fold_left (consider_neighbor now dest) l acc)).
Proof.
  revert acc. induction l as [|it l IH]; intros acc H; cbn [fold_left];
    [assumption|].
  apply IH. now apply consider_neighbor_logs.
Qed.

Lemma advanced_path_selection_logs (r : Router) (now : Q) (dest : string) :
  logs_bounded r -> logs_bounded (fst (advanced_path_selection r now dest)).
Proof.
  intros Hb. unfold advanced_path_selection, collect_candidates.
  assert (H : logs_bounded
                (fst (match PyDict.get (topology_table r) dest with
                      | Some reports =>
                          fold_left (consider_neighbor now dest)
                            (PyDict.items reports) (r, [])
                      | None => (r, [])
                      end))).
  { destruct (PyDict.get (topology_table r) dest); [|assumption].
    now apply (fold_consider_logs now dest _ (r, [])). }
  destruct (match PyDict.get (topology_table r) dest with
            | Some reports => _ | None => _ end) as [r1 cs].
  cbn [fst] in H. destruct cs as [|c0 cs]; cbn [fst]; [assumption|].
  destruct H as [B1 B2 B3 B4 B5]. unfold log_path_analysis.
  constructor; simpl; try assumption. apply bounded_append_length.
Qed.

Lemma trigger_all_networks_logs (nets : list string) (r : Router) (acts : list action) :
  logs_frame r
    (fst (fold_left
            (fun (acc : Router * list action) (net : string) =>
               let '(r, acts) := acc in
               (with_fib r (PyDict.set (fib r) net self_entry),
                (acts ++ [SendUpdateProc net])%list))
            nets (r, acts))).
Proof.
  revert r acts. induction nets as [|net nets IH]; intros r acts;
    cbn [fold_left]; [apply logs_frame_refl|].
  eapply logs_frame_trans; [|apply IH]. unfold logs_frame. simpl. auto.
Qed.

Lemma trigger_update_logs (r : Router) (d : option string) :
  logs_frame r (fst (trigger_update r d)).
Proof.
  unfold trigger_update.
  pose proof (trigger_all_networks_logs (networks r) r []) as H.
  destruct d as [d|]; [|exact H].
  destruct (String.eqb d ""); [exact H | apply logs_frame_refl].
Qed.

Lemma recalculate_dual_logs (r : Router) (now : Q) (dest : string) :
  logs_bounded r -> logs_bounded (fst (recalculate_dual r now dest)).
Proof.
  intros Hb. unfold recalculate_dual.
  pose proof (advanced_path_selection_logs r now dest Hb) as H1.
  destruct (advanced_path_selection r now dest) as [r1 [c|]];
    cbn [fst] in *; [|assumption].
  match goal with
  | |- context [if ?b then _ else _] => destruct b
  end.
  - eapply logs_bounded_frame; [apply trigger_update_logs|].
    unfold log_route_change. destruct H1 as [B1 B2 B3 B4 B5].
    constructor; simpl; try assumption. apply bounded_append_length.
  - destruct H1 as [B1 B2 B3 B4 B5]. constructor; simpl; assumption.
Qed.

Lemma handle_update_logs (r : Router) (now : Q) (S : string) (u : ADUP_Update) :
  logs_bounded r -> logs_bounded (fst (handle_update r now S u)).
Proof.
  intros Hb. unfold handle_update.
  destruct (negb (PyDict.mem (neighbor_table r) S)); [assumption|].
  generalize (@nil action). revert r Hb.
  induction (routes u) as [|route l IH]; intros r Hb acts;
    cbn [fold_left]; [assumption|].
  assert (H : logs_bounded (fst (handle_route now S (r, acts) route))).
  { unfold handle_route.
    destruct (split_horizon_blocks r (dest_network route) S); [assumption|].
    destruct (Qgtb (total_delay route) 100); [assumption|].
    match goal with
    | |- context [recalculate_dual ?r0 ?n ?d] =>
        assert (H0 : logs_bounded r0)
          by (destruct Hb; constructor; simpl; assumption);
        pose proof (recalculate_dual_logs r0 n d H0) as H;
        destruct (recalculate_dual r0 n d) as [r' acts']
    end.
    exact H. }
  destruct (handle_route now S (r, acts) route) as [r1 acts1].
  now apply IH.
Qed.

Lemma prune_fold_logs (names : list string) (r : Router) :
  logs_frame r
    (fold_left
       (fun (r' : Router) (nm : string) =>
          with_neighbor_table r' (PyDict.del (neighbor_table r') nm))
       names r).
Proof.
  revert r. induction names as [|nm names IH]; intros r; cbn [fold_left];
    [apply logs_frame_refl|].
  eapply logs_frame_trans; [|apply IH]. unfold logs_frame. simpl. auto.
Qed.

Lemma log_packet_logs (r : Router) (now : Q) (ty dir : string)
    (n : option string) (details : pydict Q) :
  logs_bounded r -> logs_bounded (log_packet r now ty dir n details).
Proof.
  intros [B1 B2 B3 B4 B5]. unfold log_packet.
  constructor; simpl; try assumption. apply bounded_append_length.
Qed.

Lemma handle_packet_logs (r : Router) (now : Q) (sender : string) (pkt : Packet) :
  logs_bounded r -> logs_bounded (fst (handle_packet r now sender pkt)).
Proof.
  intros Hb. destruct pkt as [h|u|]; cbn [handle_packet fst].
  - unfold prune_neighbors.
    eapply logs_bounded_frame; [apply prune_fold_logs|].
    apply log_packet_logs. destruct Hb. constructor; simpl; assumption.
  - now apply handle_update_logs.
  - assumption.
Qed.

Lemma fold_decay_step_logs (l : list (string * fib_entry)) (acc : Router * bool) :
  logs_frame (fst acc) (fst (fold_left decay_step l acc)).
Proof.
  revert acc. induction l as [|[d e] l IH]; intros [r b]; cbn [fold_left];
    [apply logs_frame_refl|].
  eapply logs_frame_trans; [|apply IH]. unfold decay_step.
  destruct (decays e); [|apply logs_frame_refl]. cbn [fst].
  simpl. destruct (PyDict.get (topology_table r) d); unfold logs_frame;
    simpl; auto.
Qed.

Lemma fold_reset_step_logs (l : list (string * fib_entry)) (acc : Router * bool) :
  logs_frame (fst acc) (fst (fold_left reset_step l acc)).
Proof.
  revert acc. induction l as [|[d e] l IH]; intros [r b]; cbn [fold_left];
    [apply logs_frame_refl|].
  eapply logs_frame_trans; [|apply IH]. unfold reset_step.
  destruct (resets e); [|apply logs_frame_refl]. cbn [fst].
  match goal with
  | |- context [PyDict.mem ?t d] => destruct (PyDict.mem t d)
  end; unfold logs_frame; simpl; auto.
Qed.

Lemma reachable_logs_bounded (r : Router) : reachable r -> logs_bounded r.
Proof.
  induction 1 as [nm ifs nets | r now sender pkt _ IH Hpkt | r _ IH
                 | r now l s _ IH | r samples _ IH | r _ IH | r _ IH].
  - constructor; simpl; try lia; intros k h [].
  - now apply handle_packet_logs.
  - unfold initial_advertisement.
    pose proof (trigger_update_logs (with_state r "ADVERTISING") None) as H.
    destruct (trigger_update (with_state r "ADVERTISING") None) as [r1 acts].
    cbn [fst] in *. destruct H as (H1 & H2 & H3 & H4 & H5).
    destruct IH as [B1 B2 B3 B4 B5].
    constructor; simpl; rewrite ?H1, ?H2, ?H3, ?H4, ?H5; assumption.
  - unfold send_hello_on. cbn [fst]. now apply log_packet_logs.
  - destruct IH. constructor; simpl; assumption.
  - rewrite apply_cost_decay_fst.
    eapply logs_bounded_frame; [|exact IH].
    apply (fold_decay_step_logs _ (r, false)).
  - unfold monitor_and_reset_costs.
    pose proof (fold_reset_step_logs (PyDict.items (fib r)) (r, false)) as H.
    destruct (fold_left reset_step (PyDict.items (fib r)) (r, false))
      as [r1 b].
    cbn [fst] in H.
    assert (H1 : logs_bounded r1) by (eapply logs_bounded_frame; eassumption).
    destruct b; [|assumption].
    eapply logs_bounded_frame; [apply trigger_update_logs|].
    destruct H1 as [B1 B2 B3 B4 B5].
    constructor; simpl; try assumption. intros k h [].
Qed.

Lemma example_learned_reachable : reachable example_learned.
Proof.
  unfold example_learned. apply reach_packet.
  - apply reach_packet; [apply reach_init | apply emitted_hello].
  - apply emitted_update. simpl. constructor; [|constructor].
    simpl. discriminate.
Qed.

(** X1. In every state a router reaches, the packet log holds at most 100
    entries, the route-change log and the path-analysis log at most 50
    each, every cost history between 1 and 5 samples and every
    loop-detection history between 1 and 10. *)
Theorem logs_stay_bounded (r : Router) :
  reachable r ->
  (List.length (packet_log r) <= 100)%nat /\
  (List.length (route_changes r) <= 50)%nat /\
  (List.length (path_analysis_log r) <= 50)%nat /\
  (forall k h, PyDict.get (cost_history r) k = Some h ->
     (1 <= List.length h <= 5)%nat) /\
  (forall k h, PyDict.get (loop_detection r) k = Some h ->
     (1 <= List.length h <= 10)%nat).
Proof.
  intros Hr. destruct (reachable_logs_bounded r Hr) as [B1 B2 B3 B4 B5].
  repeat split; try assumption.
  - apply get_In in H. apply B4 in H. lia.
  - apply get_In in H. apply B4 in H. lia.
  - apply get_In in H. apply B5 in H. lia.
  - apply get_In in H. apply B5 in H. lia.
Qed.

Lemma logs_stay_bounded_witness :
  reachable example_learned /\
  (forall k h, PyDict.get (cost_history example_learned) k = Some h ->
     (1 <= List.length h <= 5)%nat).
Proof.
  split; [exact example_learned_reachable|].
  exact (proj1 (proj2 (proj2 (proj2
           (logs_stay_bounded example_learned example_learned_reachable))))).
Defined.

(** ** Learned costs never exceed 71 *)

Lemma ceiling_and_damping_le_71 (t : Q) : ceiling_and_damping t <= 71.
Proof.
  unfold ceiling_and_damping.
  assert (H80 : Qmin t 80 <= 80) by apply Q.le_min_r.
  destruct (Qgtb (Qmin t 80) 50) eqn:E.
  - lra.
  - apply Qgtb_false in E. lra.
Qed.

Lemma fold_smooth_le (B : Q) (l : list Q) (x : Q) :
  x <= B -> Forall (fun y => y <= B) l ->
  fold_left (fun smoothed h => alpha * h + (1 - alpha) * smoothed) l x <= B.
Proof.
  revert x. induction l as [|y l IH]; intros x Hx Hl; simpl; [assumption|].
  inversion Hl; subst. apply IH; [|assumption]. unfold alpha. lra.
Qed.

Lemma smooth_le (B : Q) (h : list Q) :
  0 <= B -> Forall (fun y => y <= B) h -> smooth h <= B.
Proof.
  intros HB Hall. unfold smooth.
  assert (Hrev : Forall (fun y => y <= B) (rev h)).
  { apply Forall_forall. intros y Hy. apply in_rev in Hy.
    exact (proj1 (Forall_forall _ _) Hall y Hy). }
  destruct (rev h) as [|newest older]; [assumption|].
  inversion Hrev; subst. now apply fold_smooth_le.
Qed.

Lemma stabilized_value_le_71 (h : list Q) (c : Q) :
  Forall (fun y => y <= 71) h -> stabilized_value h c <= 71.
Proof.
  intros Hall. unfold stabilized_value.
  destruct (Nat.leb 3 (List.length h)).
  - assert (Hs : smooth h <= 71) by (apply smooth_le; [lra | assumption]).
    match goal with
    | |- Qmin ?x 80 <= 71 =>
        assert (Hx : x <= 71);
        [|pose proof (Q.le_min_l x 80); lra]
    end.
    destruct (Nat.ltb 1 (List.length h)); [|assumption].
    destruct (Qgtb _ _) eqn:E; [|assumption].
    apply Qgtb_true in E. lra.
  - pose proof (Q.le_min_r c 60). lra.
Qed.

Lemma damped_inv_ext (r r' : Router) :
  fib r' = fib r -> cost_history r' = cost_history r ->
  damped_inv r -> damped_inv r'.
Proof.
  intros Hf Hc [D1 D2]. constructor; rewrite ?Hf, ?Hc; assumption.
Qed.

Lemma stabilize_cost_damped (r : Router) (d n : string) (c : Q) :
  damped_inv r -> c <= 71 ->
  damped_inv (fst (stabilize_cost r d n c)) /\
  snd (stabilize_cost r d n c) <= 71.
Proof.
  intros Hinv Hc. unfold stabilize_cost. cbn [fst snd].
  set (old := PyDict.get_default (cost_history r) (cost_key d n) []).
  assert (Hold : Forall (fun x => x <= 71) old).
  { subst old. unfold PyDict.get_default.
    destruct (PyDict.get (cost_history r) (cost_key d n)) eqn:E;
      [|constructor].
    apply get_In in E. exact (di_history r Hinv _ _ E). }
  assert (Hnew : Forall (fun x => x <= 71) (push_bounded 5 old c))
    by now apply push_bounded_Forall.
  split; [|now apply stabilized_value_le_71].
  destruct Hinv as [D1 D2]. constructor; simpl; try assumption.
  intros k h Hin. apply In_set in Hin as [[_ ->]|Hin]; [assumption|].
  now apply (D2 k).
Qed.

Lemma fold_consider_damped (now : Q) (dest : string) (l : list (string * Q))
    (r : Router) (cs : list candidate) :
  damped_inv r -> Forall (fun c => c_total_cost c <= 71) cs ->
  damped_inv (fst (fold_left (consider_neighbor now dest) l (r, cs))) /\
  Forall (fun c => c_total_cost c <= 71)
    (snd (fold_left (consider_neighbor now dest) l (r, cs))).
Proof.
  revert r cs. induction l as [|[S v] l IH]; intros r cs Hinv Hcs;
    cbn [fold_left]; [split; assumption|].
  assert (H : damped_inv (fst (consider_neighbor now dest (r, cs) (S, v))) /\
              Forall (fun c => c_total_cost c <= 71)
                (snd (consider_neighbor now dest (r, cs) (S, v)))).
  { unfold consider_neighbor.
    destruct (PyDict.get (neighbor_table r) S) as [info|];
      [|split; assumption].
    match goal with
    | |- context [detect_cost_loop ?r0 ?t ?d ?n ?c] =>
        assert (H1 : damped_inv (fst (detect_cost_loop r0 t d n c)))
          by (revert Hinv; apply damped_inv_ext; reflexivity);
        destruct (detect_cost_loop r0 t d n c) as [r1 looped]
    end.
    cbn [fst] in H1. destruct looped; [split; assumption|].
    match goal with
    | |- context [stabilize_cost ?r0 ?d ?n (ceiling_and_damping ?c)] =>
        destruct (stabilize_cost_damped r0 d n (ceiling_and_damping c) H1
                    (ceiling_and_damping_le_71 c)) as [H2 Hle];
        destruct (stabilize_cost r0 d n (ceiling_and_damping c))
          as [r2 stabilized]
    end.
    cbn [fst snd] in *. split; [assumption|].
    apply Forall_app. split; [assumption|].
    constructor; [exact Hle | constructor]. }
  destruct (consider_neighbor now dest (r, cs) (S, v)) as [r1 cs1].
  cbn [fst snd] in H. destruct H. now apply IH.
Qed.

Lemma advanced_path_selection_damped (r : Router) (now : Q) (dest : string) :
  damped_inv r ->
  damped_inv (fst (advanced_path_selection r now dest)) /\
  (forall c, snd (advanced_path_selection r now dest) = Some c ->
             c_total_cost c <= 71).
Proof.
  intros Hinv. unfold advanced_path_selection, collect_candidates.
  assert (Hcoll :
    damped_inv (fst (match PyDict.get (topology_table r) dest with
                     | Some reports =>
                         fold_left (consider_neighbor now dest)
                           (PyDict.items reports) (r, [])
                     | None => (r, [])
                     end)) /\
    Forall (fun c => c_total_cost c <= 71)
      (snd (match PyDict.get (topology_table r) dest with
            | Some reports =>
                fold_left (consider_neighbor now dest)
                  (PyDict.items reports) (r, [])
            | None => (r, [])
            end))).
  { destruct (PyDict.get (topology_table r) dest) as [reports|].
    - apply fold_consider_damped; [assumption | constructor].
    - split; [assumption | constructor]. }
  destruct (match PyDict.get (topology_table r) dest with
            | Some reports => _ | None => _ end) as [r1 cs].
  cbn [fst snd] in Hcoll. destruct Hcoll as [H1 H2].
  destruct cs as [|c0 cs]; cbn [fst snd].
  - split; [assumption | discriminate].
  - split.
    + revert H1. apply damped_inv_ext; reflexivity.
    + intros c Hc.
      assert (Hin : In c (sort_candidates (c0 :: cs))).
      { destruct (sort_candidates (c0 :: cs)); [discriminate|].
        injection Hc as ->. now left. }
      apply In_sort_candidates in Hin.
      exact (proj1 (Forall_forall _ _) H2 c Hin).
Qed.

Lemma self_entry_damped : fm_get_total_cost self_entry <= 71.
Proof. unfold fm_get_total_cost. simpl. lra. Qed.

Lemma trigger_update_damped (r : Router) (d : option string) :
  damped_inv r -> damped_inv (fst (trigger_update r d)).
Proof.
  intros [D1 D2].
  destruct (trigger_update_spec r d) as (Hf & _ & _ & _ & Hc & _).
  constructor; rewrite ?Hc; try assumption.
  intros P e Hin. destruct Hf as [Hf|Hf]; rewrite Hf in Hin.
  - now apply (D1 P).
  - apply In_install_self in Hin as [->|Hin];
      [apply self_entry_damped | now apply (D1 P)].
Qed.

Lemma recalculate_dual_damped (r : Router) (now : Q) (dest : string) :
  damped_inv r -> damped_inv (fst (recalculate_dual r now dest)).
Proof.
  intros Hinv. unfold recalculate_dual.
  destruct (advanced_path_selection_damped r now dest Hinv) as [H1 Hc].
  destruct (advanced_path_selection r now dest) as [r1 [c|]];
    cbn [fst snd] in *; [|assumption].
  specialize (Hc c eq_refl).
  match goal with
  | |- context [if ?b then _ else _] => destruct b
  end.
  - apply trigger_update_damped. unfold log_route_change.
    destruct H1 as [D1 D2]. constructor; simpl; try assumption.
    intros P e Hin. apply In_set in Hin as [[_ ->]|Hin];
      [exact Hc | now apply (D1 P)].
  - revert H1. apply damped_inv_ext; reflexivity.
Qed.

Lemma handle_update_damped (r : Router) (now : Q) (S : string) (u : ADUP_Update) :
  damped_inv r -> damped_inv (fst (handle_update r now S u)).
Proof.
  intros Hb. unfold handle_update.
  destruct (negb (PyDict.mem (neighbor_table r) S)); [assumption|].
  generalize (@nil action). revert r Hb.
  induction (routes u) as [|route l IH]; intros r Hb acts;
    cbn [fold_left]; [assumption|].
  assert (H : damped_inv (fst (handle_route now S (r, acts) route))).
  { unfold handle_route.
    destruct (split_horizon_blocks r (dest_network route) S); [assumption|].
    destruct (Qgtb (total_delay route) 100); [assumption|].
    match goal with
    | |- context [recalculate_dual ?r0 ?n ?d] =>
        assert (H0 : damped_inv r0)
          by (revert Hb; apply damped_inv_ext; reflexivity);
        pose proof (recalculate_dual_damped r0 n d H0) as H;
        destruct (recalculate_dual r0 n d) as [r' acts']
    end.
    exact H. }
  destruct (handle_route now S (r, acts) route) as [r1 acts1].
  now apply IH.
Qed.

Lemma fold_decay_step_damped (l : list (string * fib_entry)) (r : Router) (b : bool) :
  damped_inv r -> Forall (fun it => fm_get_total_cost (snd it) <= 71) l ->
  damped_inv (fst (fold_left decay_step l (r, b))).
Proof.
  revert r b. induction l as [|[d e] l IH]; intros r b Hinv Hl;
    cbn [fold_left]; [assumption|].
  inversion Hl as [|? ? He Hl']; subst. simpl in He.
  assert (H : damped_inv (fst (decay_step (r, b) (d, e)))).
  { destruct (decay_step_tables r b d e) as [Hf _].
    assert (Hc : cost_history (fst (decay_step (r, b) (d, e)))
                 = cost_history r).
    { unfold decay_step. destruct (decays e); [|reflexivity]. simpl.
      now destruct (PyDict.get (topology_table r) d). }
    destruct Hinv as [D1 D2]. constructor; rewrite ?Hf, ?Hc; try assumption.
    intros P e0 Hin. destruct (decays e) eqn:Hd; [|now apply (D1 P)].
    apply In_set in Hin as [[_ ->]|Hin]; [|now apply (D1 P)].
    unfold decays in Hd. apply andb_true_iff in Hd as [_ Hd].
    apply Qgtb_true in Hd. unfold fm_get_total_cost at 1. simpl.
    unfold decay_factor. lra. }
  destruct (decay_step (r, b) (d, e)) as [r1 b1]. now apply IH.
Qed.

Lemma fold_reset_step_damped (l : list (string * fib_entry)) (r : Router) (b : bool) :
  damped_inv r -> damped_inv (fst (fold_left reset_step l (r, b))).
Proof.
  revert r b. induction l as [|[d e] l IH]; intros r b Hinv;
    cbn [fold_left]; [assumption|].
  unfold reset_step at 2. destruct (resets e); [|now apply IH].
  apply IH. destruct Hinv as [D1 D2].
  match goal with
  | |- context [PyDict.mem ?t d] => destruct (PyDict.mem t d)
  end; constructor; simpl; try assumption;
    intros P e0 Hin; apply In_del in Hin as [Hin _]; now apply (D1 P).
Qed.

Lemma reachable_damped (r : Router) : reachable r -> damped_inv r.
Proof.
  induction 1 as [nm ifs nets | r now sender pkt _ IH Hpkt | r _ IH
                 | r now l s _ IH | r samples _ IH | r _ IH | r _ IH].
  - constructor; simpl; intros; contradiction.
  - destruct pkt as [h|u|]; cbn [handle_packet fst].
    + unfold prune_neighbors.
      match goal with
      | |- context [fold_left _ ?names ?r0] =>
          destruct (fold_del_neighbors_frame names r0) as (Hf & _);
          destruct (prune_fold_logs names r0) as (_ & _ & _ & Hc & _)
      end.
      revert IH. apply damped_inv_ext; [rewrite Hf | rewrite Hc];
        reflexivity.
    + now apply handle_update_damped.
    + assumption.
  - unfold initial_advertisement.
    assert (H0 : damped_inv (with_state r "ADVERTISING"))
      by (revert IH; apply damped_inv_ext; reflexivity).
    pose proof (trigger_update_damped _ None H0) as H.
    destruct (trigger_update (with_state r "ADVERTISING") None) as [r1 acts].
    cbn [fst] in *. revert H. apply damped_inv_ext; reflexivity.
  - revert IH. apply damped_inv_ext; reflexivity.
  - revert IH. apply damped_inv_ext; reflexivity.
  - rewrite apply_cost_decay_fst. apply fold_decay_step_damped; [assumption|].
    apply Forall_forall. intros [P e] Hin. exact (di_fib r IH P e Hin).
  - unfold monitor_and_reset_costs.
    pose proof (fold_reset_step_damped (PyDict.items (fib r)) r false IH) as H.
    destruct (fold_left reset_step (PyDict.items (fib r)) (r, false))
      as [r1 b].
    cbn [fst] in H. destruct b; [|assumption].
    apply trigger_update_damped. destruct H as [D1 D2].
    constructor; simpl; try assumption. intros k h [].
Qed.

(** X2. The ceiling of 80 is never reached: in every state a router
    reaches, every FIB cost is at most 71 = 50 + (80 - 50) * 0.7, because
    each candidate passes the ceiling and the damping before it is
    stabilized, and neither stabilization nor the sweeps raise a cost. *)
Theorem fib_cost_at_most_71 (r : Router) :
  reachable r ->
  forall P e c,
    PyDict.get (fib r) P = Some e ->
    fm_total_cost (metrics e) = Some c ->
    c <= 71.
Proof.
  intros Hr P e c Hget Hc. apply get_In in Hget.
  pose proof (di_fib r (reachable_damped r Hr) P e Hget) as H.
  unfold fm_get_total_cost in H. now rewrite Hc in H.
Qed.

Lemma fib_cost_at_most_71_witness :
  reachable example_learned /\
  exists e c,
    PyDict.get (fib example_learned) "192.168.1.0" = Some e /\
    fm_total_cost (metrics e) = Some c /\ c <= 71.
Proof.
  split; [exact example_learned_reachable|].
  assert (Hget : exists e c,
            PyDict.get (fib example_learned) "192.168.1.0" = Some e /\
            fm_total_cost (metrics e) = Some c).
  { vm_compute. eexists. eexists. split; reflexivity. }
  destruct Hget as (e & c & Hget & Hc). exists e, c.
  split; [exact Hget|]. split; [exact Hc|].
  exact (fib_cost_at_most_71 example_learned example_learned_reachable
           "192.168.1.0" e c Hget Hc).
Defined.

(** ** Self entries and advertisement of connected networks *)

Lemma get_install_self (nets : list string) (f : pydict fib_entry) (P : string) :
  PyDict.get (install_self f nets) P =
  if in_dec string_dec P nets then Some self_entry else PyDict.get f P.
Proof.
  revert f. induction nets as [|net nets IH]; intros f; simpl; [reflexivity|].
  rewrite IH. destruct (in_dec string_dec P nets) as [Hin|Hnot].
  - now destruct (string_dec net P).
  - destruct (string_dec net P) as [->|Hne].
    + apply get_set_same.
    + apply get_set_other. congruence.
Qed.

Lemma trigger_all_networks_actions (nets : list string) (r : Router) (acts : list action) :
  snd (fold_left
         (fun (acc : Router * list action) (net : string) =>
            let '(r, acts) := acc in
            (with_fib r (PyDict.set (fib r) net self_entry),
             (acts ++ [SendUpdateProc net])%list))
         nets (r, acts)) = (acts ++ map SendUpdateProc nets)%list.
Proof.
  revert r acts. induction nets as [|net nets IH]; intros r acts;
    cbn [fold_left map].
  - now rewrite app_nil_r.
  - rewrite IH, <- app_assoc. reflexivity.
Qed.

Lemma trigger_update_None (r : Router) :
  fib (fst (trigger_update r None)) = install_self (fib r) (networks r) /\
  snd (trigger_update r None) = map SendUpdateProc (networks r).
Proof.
  unfold trigger_update. split.
  - apply (trigger_all_networks (networks r) r []).
  - apply (trigger_all_networks_actions (networks r) r []).
Qed.

(** X3. The initial advertisement leaves the router ACTIVE with a self
    entry of cost 0 for every directly connected network, leaves the FIB
    entry of every other prefix as it was, and schedules one UPDATE per
    connected network, in the order of [self.networks]. *)
Theorem initial_advertisement_installs_self (r : Router) :
  let r' := fst (initial_advertisement r) in
  state r' = "ACTIVE" /\
  (forall net, In net (networks r) ->
     PyDict.get (fib r') net = Some self_entry /\
     fib_total_cost self_entry == 0) /\
  (forall P, ~ In P (networks r) ->
     PyDict.get (fib r') P = PyDict.get (fib r) P) /\
  snd (initial_advertisement r) = map SendUpdateProc (networks r).
Proof.
  unfold initial_advertisement.
  destruct (trigger_update_None (with_state r "ADVERTISING")) as [Hf Ha].
  destruct (trigger_update (with_state r "ADVERTISING") None) as [r1 acts].
  cbn [fst snd] in *. simpl in Hf, Ha. split; [reflexivity|].
  split; [|split].
  - intros net Hin. split; [|reflexivity]. simpl. rewrite Hf, get_install_self.
    now destruct (in_dec string_dec net (networks r)).
  - intros P Hnot. simpl. rewrite Hf, get_install_self.
    now destruct (in_dec string_dec P (networks r)).
  - exact Ha.
Qed.

(** ** The reset sweep: threshold, idempotence, and what it clears *)

Lemma In_evict (l : list (string * fib_entry)) (f : pydict fib_entry)
    (k : string) (e : fib_entry) :
  In (k, e) (evict f l) ->
  In (k, e) f /\ forall e', In (k, e') l -> resets e' = false.
Proof.
  revert f. induction l as [|[d e0] l IH]; intros f H.
  - split; [exact H | intros e' []].
  - unfold evict in H. cbn [fold_left fst snd] in H.
    destruct (resets e0) eqn:E0.
    + destruct (IH _ H) as [Hin Hl]. apply In_del in Hin as [Hin Hne].
      split; [assumption|]. intros e' [[= -> ->]|Hin']; [congruence|].
      now apply Hl.
    + destruct (IH _ H) as [Hin Hl]. split; [assumption|].
      intros e' [[= -> ->]|Hin']; [assumption | now apply Hl].
Qed.

Lemma fold_reset_step_quiet (l : list (string * fib_entry)) (r : Router) (b : bool) :
  (forall k e, In (k, e) l -> resets e = false) ->
  fold_left reset_step l (r, b) = (r, b).
Proof.
  induction l as [|[d e] l IH]; intros H; cbn [fold_left]; [reflexivity|].
  unfold reset_step at 2. rewrite (H d e (or_introl eq_refl)).
  apply IH. intros k e' Hin. apply (H k e'). now right.
Qed.

Lemma swept_fib_quiet (r : Router) (k : string) (e : fib_entry) :
  In (k, e) (fib (fst (monitor_and_reset_costs r))) -> resets e = false.
Proof.
  intros Hin.
  destruct (monitor_and_reset_costs_fib r) as [Hf|[nets Hf]];
    rewrite Hf in Hin.
  - apply In_evict in Hin as [Hin Hl]. now apply Hl.
  - apply In_install_self in Hin as [->|Hin]; [reflexivity|].
    apply In_evict in Hin as [Hin Hl]. now apply Hl.
Qed.

(** X4. After a reset sweep every FIB entry whose next hop is not self has a
    cost of at most 60, and a second sweep run right after it changes
    nothing and schedules nothing. *)
Theorem reset_sweep_idempotent (r : Router) :
  let r' := fst (monitor_and_reset_costs r) in
  (forall P e, PyDict.get (fib r') P = Some e -> next_hop e <> "self" ->
     fm_get_total_cost e <= 60) /\
  monitor_and_reset_costs r' = (r', []).
Proof.
  intros r'. split.
  - intros P e Hget Hs. apply get_In in Hget.
    apply swept_fib_quiet in Hget. unfold resets in Hget.
    apply andb_false_iff in Hget as [H|H].
    + apply negb_false_iff, String.eqb_eq in H. contradiction.
    + now apply Qgtb_false in H.
  - unfold monitor_and_reset_costs at 1.
    rewrite fold_reset_step_quiet; [reflexivity|].
    intros k e Hin. now apply (swept_fib_quiet r k e).
Qed.

Lemma fold_reset_step_flag (l : list (string * fib_entry)) (r : Router) (b : bool) :
  snd (fold_left reset_step l (r, b)) =
  b || existsb (fun it => resets (snd it)) l.
Proof.
  revert r b. induction l as [|[d e] l IH]; intros r b; cbn [fold_left existsb].
  - now rewrite orb_false_r.
  - unfold reset_step at 2. cbn [snd]. destruct (resets e).
    + rewrite IH. simpl. now rewrite orb_true_r.
    + rewrite IH. reflexivity.
Qed.

Lemma fold_reset_step_rest (l : list (string * fib_entry)) (acc : Router * bool) :
  networks (fst (fold_left reset_step l acc)) = networks (fst acc) /\
  neighbor_table (fst (fold_left reset_step l acc)) = neighbor_table (fst acc).
Proof.
  revert acc. induction l as [|[d e] l IH]; intros [r b]; cbn [fold_left];
    [auto|].
  destruct (IH (reset_step (r, b) (d, e))) as [-> ->].
  unfold reset_step. destruct (resets e); [|auto]. cbn [fst].
  match goal with
  | |- context [PyDict.mem ?t d] => destruct (PyDict.mem t d)
  end; auto.
Qed.

Lemma del_keeps_None {V} (d : pydict V) (k k' : string) :
  PyDict.get d k' = None -> PyDict.get (PyDict.del d k) k' = None.
Proof.
  intros H. destruct (string_dec k' k) as [->|Hne].
  - apply get_del_same.
  - now rewrite get_del_other.
Qed.

Lemma fold_reset_step_topology (l : list (string * fib_entry)) (r : Router)
    (b : bool) (P : string) :
  PyDict.get (topology_table r) P = None \/
  (exists e, In (P, e) l /\ resets e = true) ->
  PyDict.get (topology_table (fst (fold_left reset_step l (r, b)))) P = None.
Proof.
  revert r b. induction l as [|[d e] l IH]; intros r b H; cbn [fold_left].
  - destruct H as [H|[e [[] _]]]. exact H.
  - unfold reset_step at 2. destruct (resets e) eqn:E.
    + apply IH. cbn [fst].
      destruct (string_dec P d) as [->|Hne].
      * left. destruct (PyDict.mem (topology_table
                          (with_fib r (PyDict.del (fib r) d))) d) eqn:Em.
        -- simpl. apply get_del_same.
        -- unfold PyDict.mem in Em. simpl in Em |- *.
           now destruct (PyDict.get (topology_table r) d).
      * destruct H as [H|[e' [[Heq|Hin] He']]].
        -- left.
           destruct (PyDict.mem (topology_table
                       (with_fib r (PyDict.del (fib r) d))) d); simpl;
             [now apply del_keeps_None | assumption].
        -- congruence.
        -- right. now exists e'.
    + apply IH. destruct H as [H|[e' [[Heq|Hin] He']]].
      * now left.
      * congruence.
      * right. now exists e'.
Qed.

(** X5. What a reset sweep clears.  When no FIB entry has a next hop other
    than self and a cost above 60 the sweep returns the router as it is and
    schedules nothing.  When some entry has, the sweep removes the topology
    row of every such prefix, empties the cost histories, leaves every
    directly connected network with a self entry, and schedules one UPDATE
    per connected network. *)
Theorem reset_sweep_effect (r : Router) :
  ((forall P e, In (P, e) (fib r) -> resets e = false) ->
     monitor_and_reset_costs r = (r, [])) /\
  ((exists P e, In (P, e) (fib r) /\ resets e = true) ->
     let r' := fst (monitor_and_reset_costs r) in
     cost_history r' = [] /\
     (forall P e, In (P, e) (fib r) -> resets e = true ->
        PyDict.get (topology_table r') P = None) /\
     (forall net, In net (networks r) ->
        PyDict.get (fib r') net = Some self_entry) /\
     snd (monitor_and_reset_costs r) = map SendUpdateProc (networks r)).
Proof.
  split.
  - intros H. unfold monitor_and_reset_costs.
    now rewrite fold_reset_step_quiet.
  - intros (P0 & e0 & Hin0 & He0). unfold monitor_and_reset_costs.
    pose proof (fold_reset_step_flag (PyDict.items (fib r)) r false) as Hflag.
    pose proof (fold_reset_step_rest (PyDict.items (fib r)) (r, false))
      as [Hnet _].
    pose proof (fold_reset_step_topology (PyDict.items (fib r)) r false)
      as Htop.
    destruct (fold_left reset_step (PyDict.items (fib r)) (r, false))
      as [r1 b].
    cbn [fst snd] in *.
    assert (Hb : b = true).
    { rewrite Hflag. simpl. apply existsb_exists. exists (P0, e0). auto. }
    clear Hflag. subst b.
    destruct (trigger_update_spec (with_cost_history r1 []) None)
      as (_ & Ht & _ & _ & Hc & _).
    destruct (trigger_update_None (with_cost_history r1 [])) as [Hf Ha].
    simpl in Ht, Hc, Hf, Ha. rewrite Hnet in Hf, Ha.
    split; [exact Hc|]. split; [|split].
    + intros P e Hin He. rewrite Ht. apply Htop. right. now exists e.
    + intros net Hin. rewrite Hf, get_install_self.
      now destruct (in_dec string_dec net (networks r)).
    + exact Ha.
Qed.

(** ** Which candidate is selected *)

Lemma sort_candidates_head (l : list candidate) (c : candidate) :
  hd_error (sort_candidates l) = Some c ->
  exists before after,
    l = (before ++ c :: after)%list /\
    (forall x, In x before -> c_combined_score c < c_combined_score x) /\
    (forall x, In x after -> c_combined_score c <= c_combined_score x).
Proof.
  revert c. induction l as [|a l IH]; intros c; simpl; [discriminate|].
  destruct (sort_candidates l) as [|d t] eqn:E; simpl.
  - intros [= <-]. destruct l as [|b l'].
    + exists [], []. repeat split; intros x [].
    + exfalso. simpl in E.
      destruct (sort_candidates l'); simpl in E; [discriminate|].
      destruct (Qltb _ _); discriminate.
  - destruct (IH d eq_refl) as (before & after & Hl & Hb & Ha).
    destruct (Qltb (c_combined_score d) (c_combined_score a)) eqn:Elt;
      simpl; intros [= <-].
    + apply Qltb_true in Elt. exists (a :: before), after. subst l.
      repeat split; [|assumption].
      intros x [<-|Hin]; [assumption | now apply Hb].
    + apply Qltb_false in Elt. exists [], l. repeat split; [intros x []|].
      intros x Hin. subst l. apply in_app_or in Hin as [Hin|[<-|Hin]].
      * pose proof (Hb x Hin). lra.
      * assumption.
      * pose proof (Ha x Hin). lra.
Qed.

Lemma advanced_path_selection_head (r : Router) (now : Q) (dest : string)
    (c : candidate) :
  snd (advanced_path_selection r now dest) = Some c ->
  hd_error (sort_candidates (snd (collect_candidates r now dest))) = Some c.
Proof.
  unfold advanced_path_selection.
  destruct (collect_candidates r now dest) as [r1 [|c0 cs]]; cbn [snd];
    [discriminate | auto].
Qed.

(** X6. Path selection returns the candidate with the least combined score;
    among candidates of equal least score it returns the one met first in
    the order of the topology table. *)
Theorem selection_is_first_minimum (r : Router) (now : Q) (dest : string)
    (c : candidate) :
  snd (advanced_path_selection r now dest) = Some c ->
  exists before after,
    snd (collect_candidates r now dest) = (before ++ c :: after)%list /\
    (forall x, In x before -> c_combined_score c < c_combined_score x) /\
    (forall x, In x after -> c_combined_score c <= c_combined_score x).
Proof.
  intros H. apply sort_candidates_head.
  now apply advanced_path_selection_head.
Qed.

Lemma selection_is_first_minimum_witness :
  exists c before after,
    snd (advanced_path_selection example_storm_router 1 "10.0.0.0") = Some c /\
    snd (collect_candidates example_storm_router 1 "10.0.0.0")
      = (before ++ c :: after)%list /\
    (forall x, In x before -> c_combined_score c < c_combined_score x) /\
    (forall x, In x after -> c_combined_score c <= c_combined_score x).
Proof.
  assert (H : exists c,
            snd (advanced_path_selection example_storm_router 1 "10.0.0.0")
            = Some c).
  { vm_compute. eexists. reflexivity. }
  destruct H as [c Hc]. exists c.
  destruct (selection_is_first_minimum example_storm_router 1 "10.0.0.0" c Hc)
    as (before & after & H).
  exists before, after. split; [exact Hc | exact H].
Defined.

Lemma fold_consider_known (now : Q) (dest : string) (l : list (string * Q))
    (r : Router) (cs : list candidate) (nt : pydict neighbor_info)
    (known : string -> Prop) :
  neighbor_table r = nt ->
  (forall S v, In (S, v) l -> known S) ->
  Forall (fun c => PyDict.get nt (c_neighbor c) <> None /\
                   known (c_neighbor c)) cs ->
  Forall (fun c => PyDict.get nt (c_neighbor c) <> None /\
                   known (c_neighbor c))
    (snd (fold_left (consider_neighbor now dest) l (r, cs))).
Proof.
  revert r cs. induction l as [|[S v] l IH]; intros r cs Hnt Hl Hcs;
    cbn [fold_left]; [assumption|].
  pose proof (consider_neighbor_frame now dest (r, cs) (S, v))
    as (_ & _ & _ & Hn & _).
  assert (H : Forall (fun c => PyDict.get nt (c_neighbor c) <> None /\
                               known (c_neighbor c))
                (snd (consider_neighbor now dest (r, cs) (S, v)))).
  { unfold consider_neighbor.
    destruct (PyDict.get (neighbor_table r) S) as [info|] eqn:Hget;
      [|assumption].
    unfold detect_cost_loop. destruct (loop_verdict _); [assumption|].
    cbn [snd stabilize_cost]. apply Forall_app. split; [assumption|].
    constructor; [|constructor]. cbn [c_neighbor]. split.
    - rewrite <- Hnt, Hget. discriminate.
    - apply (Hl S v). now left. }
  destruct (consider_neighbor now dest (r, cs) (S, v)) as [r1 cs1].
  cbn [fst snd] in *. apply IH; [congruence | | assumption].
  intros S' v' Hin. apply (Hl S' v'). now right.
Qed.

(** X7. The neighbor path selection returns is a known neighbor that has a
    reported cost for the prefix in the topology table. *)
Theorem selected_neighbor_is_known_reporter (r : Router) (now : Q)
    (dest : string) (c : candidate) :
  snd (advanced_path_selection r now dest) = Some c ->
  PyDict.get (neighbor_table r) (c_neighbor c) <> None /\
  topology_lookup r dest (c_neighbor c) <> None.
Proof.
  intros H. apply advanced_path_selection_head in H.
  assert (Hin : In c (snd (collect_candidates r now dest))).
  { apply In_sort_candidates.
    destruct (sort_candidates _); [discriminate|].
    injection H as ->. now left. }
  unfold collect_candidates, topology_lookup in *.
  destruct (PyDict.get (topology_table r) dest) as [reports|];
    [|contradiction].
  pose proof (fold_consider_known now dest (PyDict.items reports) r []
                (neighbor_table r)
                (fun S => PyDict.get reports S <> None) eq_refl) as Hk.
  assert (Hrep : forall S v, In (S, v) (PyDict.items reports) ->
                             PyDict.get reports S <> None).
  { intros S v Hin'. destruct (In_get_Some reports S v Hin') as [v' Hv'].
    rewrite Hv'. discriminate. }
  pose proof (Hk Hrep (Forall_nil _)) as Hall.
  exact (proj1 (Forall_forall _ _) Hall c Hin).
Qed.

Lemma selected_neighbor_is_known_reporter_witness :
  exists c,
    snd (advanced_path_selection example_storm_router 1 "10.0.0.0") = Some c /\
    PyDict.get (neighbor_table example_storm_router) (c_neighbor c) <> None /\
    topology_lookup example_storm_router "10.0.0.0" (c_neighbor c) <> None.
Proof.
  assert (H : exists c,
            snd (advanced_path_selection example_storm_router 1 "10.0.0.0")
            = Some c).
  { vm_compute. eexists. reflexivity. }
  destruct H as [c Hc]. exists c. split; [exact Hc|].
  exact (selected_neighbor_is_known_reporter
           example_storm_router 1 "10.0.0.0" c Hc).
Defined.

(** ** When a selected route is installed *)

Lemma last_n_snoc {A} (n : nat) (l : list A) (x : A) :
  last_n (S n) (l ++ [x])%list = (last_n n l ++ [x])%list.
Proof.
  unfold last_n. rewrite length_app. simpl.
  replace (List.length l + 1 - S n)%nat with (List.length l - n)%nat by lia.
  rewrite skipn_app.
  replace (List.length l - n - List.length l)%nat with 0%nat by lia.
  reflexivity.
Qed.

Lemma bounded_append_last {A} (n : nat) (l : list A) (x : A) :
  exists older,
    (if Nat.ltb (S n) (List.length (l ++ [x])%list)
     then last_n (S n) (l ++ [x])%list else (l ++ [x])%list)
    = (older ++ [x])%list.
Proof.
  destruct (Nat.ltb (S n) (List.length (l ++ [x])%list)).
  - exists (last_n n l). apply last_n_snoc.
  - now exists l.
Qed.

Lemma trigger_update_Some (r : Router) (d : string) :
  d <> "" -> trigger_update r (Some d) = (r, [SendUpdateProc d]).
Proof.
  intros H. unfold trigger_update.
  apply String.eqb_neq in H. now rewrite H.
Qed.

(** X8. The install rule of [recalculate_dual] for a selected candidate of
    a prefix other than the empty string.  The usage counter of the
    selected path is incremented in every case.  When there is no route
    yet, or the next hop changes, or the cost moves by more than 0.1, the
    candidate is installed for the prefix, no other FIB entry is touched,
    the change is appended to the route-change log with the old and the new
    next hop, and one UPDATE for the prefix is scheduled; otherwise the
    FIB and the route-change log stay as they are and nothing is
    scheduled. *)
Theorem recalculate_dual_install (r : Router) (now : Q) (dest : string)
    (c : candidate) :
  snd (advanced_path_selection r now dest) = Some c ->
  dest <> "" ->
  let r' := fst (recalculate_dual r now dest) in
  PyDict.get (path_usage r') (path_key (c_neighbor c) dest) =
    Some (PyDict.get_default (path_usage r)
            (path_key (c_neighbor c) dest) 0 + 1)%Z /\
  (route_moves r dest c ->
     PyDict.get (fib r') dest = Some (installed_entry c) /\
     (forall P, P <> dest -> PyDict.get (fib r') P = PyDict.get (fib r) P) /\
     snd (recalculate_dual r now dest) = [SendUpdateProc dest] /\
     exists older rc,
       route_changes r' = (older ++ [rc])%list /\
       rc_destination rc = dest /\
       rc_old_route rc = logged_next_hop r dest /\
       rc_new_route rc = c_neighbor c /\
       rc_path_info rc = Some c) /\
  (~ route_moves r dest c ->
     fib r' = fib r /\ route_changes r' = route_changes r /\
     snd (recalculate_dual r now dest) = []).
Proof.
  intros Hsel Hdest. unfold recalculate_dual.
  pose proof (advanced_path_selection_frame r now dest)
    as (Hf & _ & Hrc & _ & Hpu & _).
  destruct (advanced_path_selection r now dest) as [r1 best].
  cbn [fst snd] in *. subst best.
  unfold route_moves, logged_next_hop. rewrite <- Hf, <- Hpu, <- Hrc.
  set (cond := negb _ || _).
  assert (Hcond : cond = true <->
            match PyDict.get (fib r1) dest with
            | None => True
            | Some e =>
                next_hop e <> c_neighbor c \/
                match fm_total_cost (metrics e) with
                | None => True
                | Some current_cost =>
                    0.1 < Qabs (c_total_cost c - current_cost)
                end
            end).
  { subst cond. simpl. rewrite orb_true_iff, negb_true_iff.
    destruct (PyDict.get (fib r1) dest) as [e|].
    - rewrite String.eqb_neq.
      destruct (fm_total_cost (metrics e)) as [cur|].
      + now rewrite Qgtb_true.
      + tauto.
    - split; [auto | intros _; right; reflexivity]. }
  destruct cond.
  - rewrite trigger_update_Some by assumption. cbn [fst snd].
    unfold log_route_change. simpl. split; [apply get_set_same|].
    split.
    + intros _. split; [apply get_set_same|].
      split; [intros P HP; now apply get_set_other|].
      split; [reflexivity|].
      match goal with
      | |- context [(route_changes r1 ++ [?e])%list] =>
          destruct (bounded_append_last 49 (route_changes r1) e)
            as [older Ho];
          exists older, e
      end.
      split; [exact Ho|]. simpl. auto.
    + intros Hno. exfalso. apply Hno. now apply Hcond.
  - simpl. split; [apply get_set_same|]. split.
    + intros Hyes. apply Hcond in Hyes. discriminate.
    + auto.
Qed.

Lemma recalculate_dual_install_witness :
  exists c,
    snd (advanced_path_selection example_storm_router 1 "10.0.0.0") = Some c /\
    PyDict.get (path_usage (fst (recalculate_dual example_storm_router 1
                                   "10.0.0.0")))
      (path_key (c_neighbor c) "10.0.0.0") =
    Some (PyDict.get_default (path_usage example_storm_router)
            (path_key (c_neighbor c) "10.0.0.0") 0 + 1)%Z.
Proof.
  assert (H : exists c,
            snd (advanced_path_selection example_storm_router 1 "10.0.0.0")
            = Some c).
  { vm_compute. eexists. reflexivity. }
  destruct H as [c Hc]. exists c. split; [exact Hc|].
  apply (recalculate_dual_install example_storm_router 1 "10.0.0.0" c Hc).
  discriminate.
Defined.

(** ** What UPDATE admission stores *)

(** X9. A reported cost can at most double per admitted UPDATE, and a stored
    0 is absorbing: once a neighbor's reported cost for a prefix is 0, every
    later report of a cost between 0 and 100 is stored as 0. *)
Theorem admission_growth_cap (r : Router) (now : Q) (S : string)
    (route : ADUP_Route_Entry) (old : Q) :
  PyDict.mem (neighbor_table r) S = true ->
  split_horizon_blocks r (dest_network route) S = false ->
  topology_lookup r (dest_network route) S = Some old ->
  0 <= old ->
  total_delay route <= 100 ->
  exists v,
    topology_lookup (fst (handle_update r now S {| routes := [route] |}))
      (dest_network route) S = Some v /\
    v <= 2 * old /\
    (old == 0 -> 0 <= total_delay route -> v == 0).
Proof.
  intros Hmem Hsh Hold H0 H100.
  destruct (handle_single_route r now S route Hmem Hsh) as [_ Hadm].
  destruct (Hadm H100) as [Hv _]. rewrite Hold in Hv.
  eexists. split; [exact Hv|]. unfold admitted_cost.
  destruct (Qgtb (total_delay route) (old * 2.0)) eqn:E.
  - apply Qgtb_true in E.
    assert (Hmin : Qmin (old * 1.5) 80 <= old * 1.5) by apply Q.le_min_l.
    split; [lra|]. intros Hz _.
    assert (Hge : 0 <= Qmin (old * 1.5) 80) by (apply Q.min_glb; lra).
    lra.
  - apply Qgtb_false in E. split; [lra|]. intros Hz Hc. lra.
Qed.

Lemma admission_growth_cap_witness :
  exists v,
    topology_lookup
      (fst (handle_update example_zero_report 5 "R1"
              {| routes := [report_entry "10.0.0.0" 50] |}))
      "10.0.0.0" "R1" = Some v /\
    v <= 2 * 0 /\
    (0 == 0 -> 0 <= 50 -> v == 0).
Proof.
  apply (admission_growth_cap example_zero_report 5 "R1"
           (report_entry "10.0.0.0" 50) 0);
    vm_compute; (reflexivity || discriminate).
Defined.

Lemma topology_le_100_ext (r r' : Router) :
  topology_table r' = topology_table r ->
  topology_le_100 r -> topology_le_100 r'.
Proof. unfold topology_le_100. intros ->. auto. Qed.

Lemma admitted_cost_le_100 (old : option Q) (c : Q) :
  c <= 100 -> admitted_cost old c <= 100.
Proof.
  intros Hc. unfold admitted_cost. destruct old as [o|]; [|assumption].
  destruct (Qgtb c (o * 2.0)); [|assumption].
  pose proof (Q.le_min_r (o * 1.5) 80). lra.
Qed.

Lemma handle_update_topology_le_100 (r : Router) (now : Q) (S : string)
    (u : ADUP_Update) :
  topology_le_100 r -> topology_le_100 (fst (handle_update r now S u)).
Proof.
  intros Hb. unfold handle_update.
  destruct (negb (PyDict.mem (neighbor_table r) S)); [assumption|].
  generalize (@nil action). revert r Hb.
  induction (routes u) as [|route l IH]; intros r Hb acts;
    cbn [fold_left]; [assumption|].
  assert (H : topology_le_100 (fst (handle_route now S (r, acts) route))).
  { unfold handle_route.
    destruct (split_horizon_blocks r (dest_network route) S); [assumption|].
    destruct (Qgtb (total_delay route) 100) eqn:E100; [assumption|].
    apply Qgtb_false in E100.
    match goal with
    | |- context [recalculate_dual ?r0 ?n ?d] =>
        assert (H0 : topology_le_100 r0);
        [|destruct (recalculate_dual_cases r0 n d) as (Ht & _);
          destruct (recalculate_dual r0 n d) as [r' acts'];
          cbn [fst] in *; revert H0; now apply topology_le_100_ext]
    end.
    intros P reports S' v Hin Hin'. simpl in Hin.
    apply In_set in Hin as [[_ ->]|Hin]; [|now apply (Hb P reports S')].
    apply In_set in Hin' as [[_ ->]|Hin'];
      [now apply admitted_cost_le_100|].
    unfold PyDict.get_default in Hin'.
    destruct (PyDict.get (topology_table r) (dest_network route))
      as [reports|] eqn:E; [|contradiction].
    apply get_In in E. exact (Hb _ reports S' v E Hin'). }
  destruct (handle_route now S (r, acts) route) as [r1 acts1].
  now apply IH.
Qed.

Lemma fold_decay_step_topology_le_100 (l : list (string * fib_entry))
    (r : Router) (b : bool) :
  topology_le_100 r -> topology_le_100 (fst (fold_left decay_step l (r, b))).
Proof.
  revert r b. induction l as [|[d e] l IH]; intros r b Hb;
    cbn [fold_left]; [assumption|].
  assert (H : topology_le_100 (fst (decay_step (r, b) (d, e)))).
  { destruct (decay_step_tables r b d e) as [_ Ht].
    intros P reports S v Hin Hin'. rewrite Ht in Hin.
    destruct (decays e); [|now apply (Hb P reports S)].
    destruct (PyDict.get (topology_table r) d) as [reports0|] eqn:E;
      [|now apply (Hb P reports S)].
    apply In_set in Hin as [[_ ->]|Hin]; [|now apply (Hb P reports S)].
    apply In_decay_reports in Hin' as [v0 [Hin' Hv]].
    apply get_In in E. pose proof (Hb _ _ _ _ E Hin') as Hv0.
    unfold decay_factor in Hv. destruct Hv as [-> | ->]; lra. }
  destruct (decay_step (r, b) (d, e)) as [r1 b1]. now apply IH.
Qed.

Lemma fold_reset_step_topology_le_100 (l : list (string * fib_entry))
    (r : Router) (b : bool) :
  topology_le_100 r -> topology_le_100 (fst (fold_left reset_step l (r, b))).
Proof.
  revert r b. induction l as [|[d e] l IH]; intros r b Hb;
    cbn [fold_left]; [assumption|].
  unfold reset_step at 2. destruct (resets e); [|now apply IH].
  apply IH.
  match goal with
  | |- context [PyDict.mem ?t d] => destruct (PyDict.mem t d)
  end; [|exact Hb].
  intros P reports S v Hin. simpl in Hin. apply In_del in Hin as [Hin _].
  now apply (Hb P reports S).
Qed.

Lemma reachable_topology_le_100 (r : Router) : reachable r -> topology_le_100 r.
Proof.
  induction 1 as [nm ifs nets | r now sender pkt _ IH Hpkt | r _ IH
                 | r now l s _ IH | r samples _ IH | r _ IH | r _ IH].
  - intros P reports S v [].
  - destruct pkt as [h|u|]; cbn [handle_packet fst].
    + unfold prune_neighbors.
      match goal with
      | |- context [fold_left _ ?names ?r0] =>
          destruct (fold_del_neighbors_frame names r0) as (_ & Ht & _)
      end.
      revert IH. now apply topology_le_100_ext.
    + now apply handle_update_topology_le_100.
    + assumption.
  - unfold initial_advertisement.
    destruct (trigger_update_spec (with_state r "ADVERTISING") None)
      as (_ & Ht & _).
    destruct (trigger_update (with_state r "ADVERTISING") None) as [r1 acts].
    cbn [fst] in *. revert IH. now apply topology_le_100_ext.
  - exact IH.
  - exact IH.
  - rewrite apply_cost_decay_fst. now apply fold_decay_step_topology_le_100.
  - unfold monitor_and_reset_costs.
    pose proof (fold_reset_step_topology_le_100
                  (PyDict.items (fib r)) r false IH) as H.
    destruct (fold_left reset_step (PyDict.items (fib r)) (r, false))
      as [r1 b].
    cbn [fst] in H. destruct b; [|assumption].
    destruct (trigger_update_spec (with_cost_history r1 []) None)
      as (_ & Ht & _).
    revert H. now apply topology_le_100_ext.
Qed.

(** X10. In every state a router reaches, every cost held in the topology
    table lies between 0 and 100: admission drops what exceeds 100, the
    rapid-increase cap stores at most 80, and the sweeps only lower or
    delete. *)
Theorem topology_costs_bounded (r : Router) :
  reachable r ->
  forall P S v, topology_lookup r P S = Some v -> 0 <= v /\ v <= 100.
Proof.
  intros Hr P S v Hv. unfold topology_lookup in Hv.
  destruct (PyDict.get (topology_table r) P) as [reports|] eqn:E;
    [|discriminate].
  apply get_In in E. apply get_In in Hv. split.
  - exact (inv_topology r (reachable_inv r Hr) P reports S v E Hv).
  - exact (reachable_topology_le_100 r Hr P reports S v E Hv).
Qed.

Lemma topology_costs_bounded_witness :
  reachable example_learned /\
  exists v, topology_lookup example_learned "192.168.1.0" "R1" = Some v /\
            0 <= v /\ v <= 100.
Proof.
  split; [exact example_learned_reachable|].
  exists 0. split; [reflexivity|].
  exact (topology_costs_bounded example_learned example_learned_reachable
           "192.168.1.0" "R1" 0 eq_refl).
Defined.

(** ** What an UPDATE can write *)

Lemma handle_route_frame (now : Q) (S : string) (r : Router)
    (acts : list action) (route : ADUP_Route_Entry) :
  let r' := fst (handle_route now S (r, acts) route) in
  neighbor_table r' = neighbor_table r /\
  networks r' = networks r /\
  (forall P S', S' <> S ->
     topology_lookup r' P S' = topology_lookup r P S') /\
  (forall P, dest_network route <> P ->
     PyDict.get (topology_table r') P = PyDict.get (topology_table r) P).
Proof.
  unfold handle_route.
  destruct (split_horizon_blocks r (dest_network route) S); [simpl; auto|].
  destruct (Qgtb (total_delay route) 100); [simpl; auto|].
  match goal with
  | |- context [recalculate_dual ?r0 ?n ?d] =>
      destruct (recalculate_dual_cases r0 n d) as (Ht & Hn & Hnet & _);
      destruct (recalculate_dual r0 n d) as [r' acts']
  end.
  cbn [fst] in *. simpl in Ht, Hn, Hnet.
  split; [exact Hn|]. split; [exact Hnet|]. split.
  - intros P S' HS. unfold topology_lookup. rewrite Ht.
    destruct (string_dec P (dest_network route)) as [->|HP].
    + rewrite get_set_same, get_set_other by assumption.
      unfold PyDict.get_default.
      now destruct (PyDict.get (topology_table r) (dest_network route)).
    + now rewrite get_set_other.
  - intros P HP. rewrite Ht. apply get_set_other. congruence.
Qed.

Lemma fold_handle_route_frame (now : Q) (S : string)
    (l : list ADUP_Route_Entry) (acts : list action) (r0 : Router) :
  let r' := fst (fold_left (handle_route now S) l (r0, acts)) in
  neighbor_table r' = neighbor_table r0 /\
  networks r' = networks r0 /\
  (forall P S', S' <> S ->
     topology_lookup r' P S' = topology_lookup r0 P S') /\
  (forall P, (forall route, In route l -> dest_network route <> P) ->
     PyDict.get (topology_table r') P = PyDict.get (topology_table r0) P).
Proof.
  revert acts r0. induction l as [|route l IH]; intros acts r0;
    cbn [fold_left].
  - simpl. auto.
  - destruct (handle_route_frame now S r0 acts route) as (H1 & H2 & H3 & H4).
    destruct (handle_route now S (r0, acts) route) as [r1 acts1].
    cbn [fst] in *. destruct (IH acts1 r1) as (I1 & I2 & I3 & I4).
    split; [congruence|]. split; [congruence|]. split.
    + intros P S' HS. rewrite I3, H3; auto.
    + intros P HP. rewrite I4, H4; auto.
      * apply HP. now left.
      * intros route' Hin. apply HP. now right.
Qed.

Lemma handle_update_neighbor_table (r : Router) (now : Q) (S : string)
    (u : ADUP_Update) :
  neighbor_table (fst (handle_update r now S u)) = neighbor_table r.
Proof.
  unfold handle_update.
  destruct (negb (PyDict.mem (neighbor_table r) S)); [reflexivity|].
  apply (fold_handle_route_frame now S (routes u) [] r).
Qed.

(** X11. An UPDATE from S writes only S's column of the topology table, and
    only in the rows of the prefixes it carries: the costs reported by
    other neighbors, the rows of other prefixes, the neighbor table and the
    list of connected networks are left as they are.  An UPDATE from a
    sender that is not in the neighbor table changes nothing at all. *)
Theorem update_writes_only_senders_column (r : Router) (now : Q) (S : string)
    (u : ADUP_Update) :
  let r' := fst (handle_update r now S u) in
  neighbor_table r' = neighbor_table r /\
  networks r' = networks r /\
  (forall P S', S' <> S ->
     topology_lookup r' P S' = topology_lookup r P S') /\
  (forall P, (forall route, In route (routes u) -> dest_network route <> P) ->
     PyDict.get (topology_table r') P = PyDict.get (topology_table r) P) /\
  (PyDict.get (neighbor_table r) S = None ->
     handle_update r now S u = (r, [])).
Proof.
  unfold handle_update, PyDict.mem.
  destruct (PyDict.get (neighbor_table r) S) as [info|]; cbn [negb];
    [|simpl; auto 6].
  destruct (fold_handle_route_frame now S (routes u) [] r)
    as (H1 & H2 & H3 & H4).
  repeat split; try assumption. discriminate.
Qed.

(** ** Loop detection on new and on steady paths *)

Lemma count_increases_steady (c : Q) (l : list Q) :
  Forall (fun x => x == c) l -> count_increases l = 0%nat.
Proof.
  induction l as [|a [|b l] IH]; intros H; [reflexivity | reflexivity|].
  inversion H as [|? ? Ha H']; subst.
  change (count_increases (a :: b :: l))
    with ((if Qgtb b a then 1 else 0) + count_increases (b :: l))%nat.
  rewrite IH by assumption.
  inversion H' as [|? ? Hb _]; subst.
  assert (E : Qgtb b a = false) by (apply Qgtb_false; lra).
  now rewrite E.
Qed.

Lemma spread_steady (c : Q) (l : list Q) :
  Forall (fun x => x == c) l -> py_max l - py_min l == 0.
Proof.
  intros H. destruct l as [|a l]; [reflexivity|].
  destruct (py_max_spec (a :: l)) as [Hmax _]; [discriminate|].
  destruct (py_min_spec (a :: l)) as [Hmin _]; [discriminate|].
  pose proof (proj1 (Forall_forall _ _) H _ Hmax).
  pose proof (proj1 (Forall_forall _ _) H _ Hmin).
  simpl in *. lra.
Qed.

Lemma Forall_last_n {A} (P : A -> Prop) (n : nat) (l : list A) :
  Forall P l -> Forall P (last_n n l).
Proof.
  intros H. apply Forall_forall. intros x Hx.
  apply (proj1 (Forall_forall _ _) H x).
  unfold last_n in Hx.
  rewrite <- (firstn_skipn (List.length l - n) l).
  apply in_or_app. now right.
Qed.

(** X12. Loop detection never rejects a candidate on one of the first three
    evaluations of a path, and never rejects a path whose recorded costs
    all equal the candidate cost. *)
Theorem loop_detection_lenient (r : Router) (now : Q) (P S : string) (c : Q) :
  let old := PyDict.get_default (loop_detection r) (cost_key P S) [] in
  ((List.length old < 3)%nat ->
     snd (detect_cost_loop r now P S c) = false) /\
  (Forall (fun e => snd e == c) old ->
     snd (detect_cost_loop r now P S c) = false).
Proof.
  intros old. unfold detect_cost_loop. cbn [snd]. fold old. split.
  - intros Hlen.
    assert (Hh : (List.length (push_bounded 10 old (now, c)) < 4)%nat).
    { unfold push_bounded. rewrite length_app. simpl.
      destruct (Nat.ltb 10 (List.length old + 1)) eqn:E.
      - apply Nat.ltb_lt in E. lia.
      - rewrite length_app. simpl. lia. }
    unfold loop_verdict.
    assert (E5 : Nat.leb 5 (List.length (push_bounded 10 old (now, c)))
                 = false) by (apply Nat.leb_gt; lia).
    assert (E4 : Nat.leb 4 (List.length (push_bounded 10 old (now, c)))
                 = false) by (apply Nat.leb_gt; lia).
    now rewrite E5, E4.
  - intros Hold.
    assert (Hall : Forall (fun x => x == c)
                     (map snd (push_bounded 10 old (now, c)))).
    { apply Forall_map. apply push_bounded_Forall; [assumption|].
      simpl. reflexivity. }
    unfold loop_verdict.
    assert (Hosc : Qgtb (py_max (map snd (last_n 5
                           (push_bounded 10 old (now, c)))) -
                         py_min (map snd (last_n 5
                           (push_bounded 10 old (now, c))))) 30 = false).
    { apply Qgtb_false.
      rewrite (spread_steady c); [lra|].
      apply Forall_map. apply Forall_last_n.
      now apply Forall_map in Hall. }
    rewrite Hosc, (count_increases_steady c) by assumption.
    now destruct (Nat.leb 5 _), (Nat.leb 4 _).
Qed.

(** ** Stabilization and damping on steady costs *)

Lemma fold_smooth_steady (c : Q) (l : list Q) (x : Q) :
  x == c -> Forall (fun y => y == c) l ->
  fold_left (fun smoothed h => alpha * h + (1 - alpha) * smoothed) l x == c.
Proof.
  revert x. induction l as [|y l IH]; intros x Hx Hl; simpl; [assumption|].
  inversion Hl; subst. apply IH; [|assumption]. unfold alpha. lra.
Qed.

Lemma smooth_steady (c : Q) (h : list Q) :
  h <> [] -> Forall (fun y => y == c) h -> smooth h == c.
Proof.
  intros Hne Hall. unfold smooth.
  assert (Hrev : Forall (fun y => y == c) (rev h)).
  { apply Forall_forall. intros y Hy. apply in_rev in Hy.
    exact (proj1 (Forall_forall _ _) Hall y Hy). }
  destruct (rev h) as [|newest older] eqn:E.
  - exfalso. apply Hne. apply (f_equal (@rev Q)) in E.
    now rewrite rev_involutive in E.
  - inversion Hrev; subst. now apply fold_smooth_steady.
Qed.

(** X13. Stabilization is transparent on a steady cost: when every sample
    already recorded for the path equals the candidate cost c and
    0 <= c <= 60, [stabilize_cost] returns c. *)
Theorem stabilize_cost_steady (r : Router) (P S : string) (c : Q) :
  0 <= c -> c <= 60 ->
  Forall (fun x => x == c)
    (PyDict.get_default (cost_history r) (cost_key P S) []) ->
  snd (stabilize_cost r P S c) == c.
Proof.
  intros H0 H60 Hold. unfold stabilize_cost. cbn [snd].
  set (h := push_bounded 5 _ c).
  assert (Hall : Forall (fun x => x == c) h).
  { subst h. apply push_bounded_Forall; [assumption | reflexivity]. }
  unfold stabilized_value.
  destruct (Nat.leb 3 (List.length h)) eqn:E3.
  - apply Nat.leb_le in E3.
    assert (E1 : Nat.ltb 1 (List.length h) = true) by (apply Nat.ltb_lt; lia).
    rewrite E1.
    assert (Hs : smooth h == c).
    { apply smooth_steady; [|assumption]. intros Hnil.
      rewrite Hnil in E3. simpl in E3. lia. }
    assert (Hp : nth (List.length h - 2) h 0 == c).
    { assert (Hin : In (nth (List.length h - 2) h 0) h)
        by (apply nth_In; lia).
      exact (proj1 (Forall_forall _ _) Hall _ Hin). }
    assert (Ecap : Qgtb (smooth h) (nth (List.length h - 2) h 0 * 1.2)
                   = false) by (apply Qgtb_false; lra).
    rewrite Ecap. rewrite Q.min_l; lra.
  - rewrite Q.min_l; lra.
Qed.

Lemma stabilize_cost_steady_witness :
  snd (stabilize_cost
         (with_cost_history example_R1
            [(cost_key "192.168.3.0" "R2", [12; 12; 12])])
         "192.168.3.0" "R2" 12) == 12.
Proof.
  apply stabilize_cost_steady.
  - discriminate.
  - discriminate.
  - simpl. repeat constructor.
Defined.

(** X14. The ceiling followed by the damping never raises a cost, leaves a
    cost of at most 50 as it is, yields at most 71, and is monotone. *)
Theorem ceiling_and_damping_shape :
  (forall t, ceiling_and_damping t <= t) /\
  (forall t, t <= 50 -> ceiling_and_damping t == t) /\
  (forall t, ceiling_and_damping t <= 71) /\
  (forall t1 t2, t1 <= t2 ->
     ceiling_and_damping t1 <= ceiling_and_damping t2).
Proof.
  assert (Hcase : forall t,
            (t <= 50 /\ ceiling_and_damping t == t) \/
            (50 < t /\ t <= 80 /\
             ceiling_and_damping t == 50 + (t - 50) * 0.7) \/
            (80 < t /\ ceiling_and_damping t == 71)).
  { intros t. unfold ceiling_and_damping.
    destruct (Q.min_spec t 80) as [[Hlt Hm]|[Hge Hm]].
    - destruct (Qgtb (Qmin t 80) 50) eqn:E.
      + apply Qgtb_true in E. right. left. rewrite Hm in *.
        repeat split; lra.
      + apply Qgtb_false in E. left. rewrite Hm in *. split; lra.
    - assert (E : Qgtb (Qmin t 80) 50 = true)
        by (apply Qgtb_true; rewrite Hm; lra).
      rewrite E, Hm. destruct (Qlt_le_dec 80 t) as [H|H].
      + right. right. split; [assumption | lra].
      + right. left. assert (t == 80) by lra. repeat split; lra. }
  split; [|split; [|split]].
  - intros t. destruct (Hcase t) as [[? ?]|[(? & ? & ?)|[? ?]]]; lra.
  - intros t Ht. destruct (Hcase t) as [[? ?]|[(? & ? & ?)|[? ?]]]; lra.
  - intros t. apply ceiling_and_damping_le_71.
  - intros t1 t2 Hle.
    destruct (Hcase t1) as [[? ?]|[(? & ? & ?)|[? ?]]];
      destruct (Hcase t2) as [[? ?]|[(? & ? & ?)|[? ?]]]; lra.
Qed.

(** ** What a HELLO does *)

Lemma In_fold_del {V} (names : list string) (d : pydict V) (k : string) (v : V) :
  In (k, v) (fold_left (fun d nm => PyDict.del d nm) names d) ->
  In (k, v) d /\ ~ In k names.
Proof.
  revert d. induction names as [|nm names IH]; intros d H; simpl in *.
  - auto.
  - destruct (IH _ H) as [Hin Hnot]. apply In_del in Hin as [Hin Hne].
    split; [assumption|]. intros [->|Hin']; [congruence | contradiction].
Qed.

(** X15. After a HELLO from S is handled at time [now], S is in the neighbor
    table with [last_seen = now] and the metrics of the packet, every
    neighbor left in the table was seen within the last 15 time units and
    so has link stability 100, and the packet log ends with the entry of
    this HELLO. *)
Theorem hello_refreshes_sender (r : Router) (now : Q) (S : string)
    (h : ADUP_Hello) :
  PyDict.wf (neighbor_table r) ->
  let r' := fst (handle_packet r now S (PHello h)) in
  PyDict.get (neighbor_table r') S =
    Some {| last_seen := now; nmetrics := hello_metrics h |} /\
  (forall n info, PyDict.get (neighbor_table r') n = Some info ->
     now - last_seen info <= 15 /\
     calculate_link_stability r' now n = 100) /\
  (exists older entry,
     packet_log r' = (older ++ [entry])%list /\
     pl_type entry = "HELLO" /\ pl_direction entry = "received" /\
     pl_neighbor entry = Some S /\ pl_time entry = now) /\
  snd (handle_packet r now S (PHello h)) = [].
Proof.
  intros Hwf. cbn [handle_packet fst snd]. unfold prune_neighbors.
  set (r1 := with_neighbor_table r _).
  set (r2 := log_packet r1 now "HELLO" "received" (Some S) _).
  destruct (fold_del_neighbors_frame (dead_neighbors r2 now) r2)
    as (_ & _ & Hn).
  destruct (prune_fold_logs (dead_neighbors r2 now) r2) as (Hpl & _).
  assert (Hnt2 : neighbor_table r2 =
                 PyDict.set (neighbor_table r) S
                   {| last_seen := now; nmetrics := hello_metrics h |})
    by reflexivity.
  assert (Hwf2 : PyDict.wf (neighbor_table r2))
    by (rewrite Hnt2; now apply wf_set).
  assert (Hfresh : forall n info,
            In (n, info)
              (fold_left (fun d nm => PyDict.del d nm)
                 (dead_neighbors r2 now) (neighbor_table r2)) ->
            now - last_seen info <= 15).
  { intros n info Hin. apply In_fold_del in Hin as [Hin Hnot].
    destruct (Qlt_le_dec 15 (now - last_seen info)) as [Hd|]; [|assumption].
    exfalso. apply Hnot. apply dead_neighbors_In. now exists info. }
  split; [|split; [|split]].
  - rewrite Hn, get_fold_del.
    destruct (in_dec string_dec S (dead_neighbors r2 now)) as [Hin|_].
    + exfalso. apply dead_neighbors_In in Hin as [info [Hin Hd]].
      apply (wf_In_get _ _ _ Hwf2) in Hin.
      rewrite Hnt2, get_set_same in Hin. injection Hin as <-.
      simpl in Hd. lra.
    + rewrite Hnt2. apply get_set_same.
  - intros n info Hget.
    assert (Hle : now - last_seen info <= 15).
    { apply (Hfresh n). rewrite <- Hn. now apply get_In. }
    split; [exact Hle|]. unfold calculate_link_stability. rewrite Hget.
    assert (E : Qltb (now - last_seen info) 20 = true)
      by (apply Qltb_true; lra).
    now rewrite E.
  - rewrite Hpl. subst r2. unfold log_packet. simpl.
    match goal with
    | |- context [(packet_log r ++ [?e])%list] =>
        destruct (bounded_append_last 99 (packet_log r) e) as [older Ho];
        exists older, e
    end.
    split; [exact Ho|]. simpl. auto.
  - reflexivity.
Qed.

Lemma hello_refreshes_sender_witness :
  PyDict.wf (neighbor_table example_R2) /\
  PyDict.get
    (neighbor_table (fst (handle_packet example_R2 21 "R3"
                            (PHello example_hello)))) "R3" =
    Some {| last_seen := 21; nmetrics := hello_metrics example_hello |}.
Proof.
  assert (Hwf : PyDict.wf (neighbor_table example_R2)).
  { unfold PyDict.wf. simpl. repeat constructor; simpl; intuition discriminate. }
  split; [exact Hwf|].
  exact (proj1 (hello_refreshes_sender example_R2 21 "R3" example_hello Hwf)).
Defined.

(** ** The cost an UPDATE advertises *)

Lemma py_int_le (B : Z) (q : Q) :
  q <= inject_Z B -> inject_Z (py_int q) <= inject_Z B.
Proof.
  destruct q as [n d]. unfold py_int, inject_Z, Qle. simpl.
  rewrite !Z.mul_1_r. intros H.
  apply Z.quot_le_upper_bound; lia.
Qed.

Lemma py_int_floor (q : Q) :
  0 <= q ->
  0 <= inject_Z (py_int q) /\ inject_Z (py_int q) <= q /\
  q < inject_Z (py_int q) + 1.
Proof.
  destruct q as [n d]. unfold py_int, inject_Z, Qle, Qlt, Qplus. simpl.
  rewrite !Z.mul_1_r. intros H.
  assert (Hq : (0 <= Z.pos d * (n ÷ Z.pos d) <= n)%Z)
    by (apply Z.mul_quot_le; lia).
  assert (Hs : (n < Z.pos d * Z.succ (n ÷ Z.pos d))%Z)
    by (apply Z.mul_succ_quot_gt; lia).
  assert (H0 : (0 <= n ÷ Z.pos d)%Z) by (apply Z.quot_pos; lia).
  repeat split; nia.
Qed.

(** X16. Every route entry [send_update] emits for a prefix is the FIB cost
    of that prefix truncated to an integer; it is at most 70, and for a
    non-negative FIB cost it lies between cost - 1 (excluded) and the cost
    itself, so up to one unit of cost is lost in each advertisement. *)
Theorem advertised_cost_range (r : Router) (P : string) (em : emission)
    (entry : ADUP_Route_Entry) :
  In em (send_update r P) ->
  In entry (routes (em_packet em)) ->
  exists e,
    PyDict.get (fib r) P = Some e /\
    dest_network entry = P /\
    total_delay entry = inject_Z (py_int (fib_total_cost e)) /\
    total_delay entry <= 70 /\
    (0 <= fib_total_cost e ->
       0 <= total_delay entry /\
       total_delay entry <= fib_total_cost e /\
       fib_total_cost e < total_delay entry + 1).
Proof.
  intros Hem Hentry. unfold send_update in Hem.
  destruct (PyDict.get (fib r) P) as [e|]; [|contradiction].
  destruct (Qgtb (fib_total_cost e) 70) eqn:E; [contradiction|].
  apply Qgtb_false in E.
  unfold ADUP_Route_Entry_new in Hem.
  destruct (ip_field_accepts P); [|contradiction].
  apply send_on_all_interfaces_In in Hem as [_ Hpkt].
  rewrite Hpkt in Hentry. simpl in Hentry.
  destruct Hentry as [<-|[]]. exists e. simpl.
  repeat split; try reflexivity.
  - apply (py_int_le 70). exact E.
  - now apply py_int_floor.
  - now apply py_int_floor.
  - now apply py_int_floor.
Qed.

Lemma advertised_cost_range_witness :
  exists em entry e,
    In em (send_update example_R1 "192.168.2.0") /\
    In entry (routes (em_packet em)) /\
    PyDict.get (fib example_R1) "192.168.2.0" = Some e /\
    total_delay entry <= 70.
Proof.
  set (em := {| em_iface := "eth0"; em_link := link_R1_R2;
                em_packet :=
                  {| routes := [route_entry_for "192.168.2.0" 12] |} |}).
  assert (Hem : In em (send_update example_R1 "192.168.2.0"))
    by (left; reflexivity).
  assert (Hentry : In (route_entry_for "192.168.2.0" 12)
                      (routes (em_packet em)))
    by (left; reflexivity).
  destruct (advertised_cost_range example_R1 "192.168.2.0" em _ Hem Hentry)
    as (e & Hget & _ & _ & Hle & _).
  exists em, (route_entry_for "192.168.2.0" 12), e. auto.
Defined.

(** ** The decay sweep keeps the FIB in shape *)

Lemma set_app_notin {V} (l1 l2 : pydict V) (k : string) (v x : V) :
  ~ In k (PyDict.keys l1) ->
  PyDict.set (l1 ++ (k, v) :: l2)%list k x = (l1 ++ (k, x) :: l2)%list.
Proof.
  induction l1 as [|[k1 v1] l1 IH]; intros Hnot; simpl.
  - now rewrite String.eqb_refl.
  - destruct (String.eqb k1 k) eqn:E.
    + apply String.eqb_eq in E. subst k1. exfalso. apply Hnot. now left.
    + rewrite IH; [reflexivity|]. intros Hin. apply Hnot. now right.
Qed.

Lemma fold_decay_step_map (l2 : list (string * fib_entry)) :
  forall (l1 : list (string * fib_entry)) (r : Router) (b : bool),
  fib r = (l1 ++ l2)%list ->
  NoDup (PyDict.keys (l1 ++ l2)%list) ->
  fib (fst (fold_left decay_step l2 (r, b))) =
    (l1 ++ map (fun it => (fst it, decay_entry (snd it))) l2)%list /\
  snd (fold_left decay_step l2 (r, b)) =
    b || existsb (fun it => decays (snd it)) l2.
Proof.
  induction l2 as [|[d e] l2 IH]; intros l1 r b Hf Hnd;
    cbn [fold_left map existsb].
  - rewrite orb_false_r. now split.
  - assert (Hnot : ~ In d (PyDict.keys l1)).
    { unfold PyDict.keys in *. rewrite map_app in Hnd. simpl in Hnd.
      apply NoDup_remove_2 in Hnd. intros Hin. apply Hnd.
      apply in_or_app. now left. }
    destruct (decay_step_tables r b d e) as [Hf1 _].
    assert (Hflag : snd (decay_step (r, b) (d, e)) = b || decays e).
    { unfold decay_step. destruct (decays e); cbn [snd].
      - now rewrite orb_true_r.
      - now rewrite orb_false_r. }
    destruct (decay_step (r, b) (d, e)) as [r1 b1]. cbn [fst snd] in *.
    assert (Hf1' : fib r1 =
                   ((l1 ++ [(d, decay_entry e)]) ++ l2)%list).
    { rewrite Hf1, <- app_assoc. simpl. unfold decay_entry.
      destruct (decays e); [|exact Hf].
      rewrite Hf. now apply set_app_notin. }
    destruct (IH (l1 ++ [(d, decay_entry e)])%list r1 b1 Hf1') as [H1 H2].
    { unfold PyDict.keys in *. rewrite !map_app in *. simpl in *.
      now rewrite <- app_assoc. }
    split.
    + rewrite H1, <- app_assoc. reflexivity.
    + rewrite H2, Hflag. now rewrite orb_assoc.
Qed.

Lemma decay_entry_next_hop (e : fib_entry) :
  next_hop (decay_entry e) = next_hop e.
Proof. unfold decay_entry. now destruct (decays e). Qed.

Lemma decay_entry_cost (e : fib_entry) :
  fm_get_total_cost (decay_entry e) <= fm_get_total_cost e.
Proof.
  unfold decay_entry. destruct (decays e) eqn:E; [|lra].
  unfold decays in E. apply andb_true_iff in E as [_ E].
  apply Qgtb_true in E. unfold fm_get_total_cost at 1. simpl.
  unfold decay_factor. lra.
Qed.

(** X17. A decay sweep keeps the prefixes of the FIB and their order, keeps
    every next hop and raises no cost.  It schedules an UPDATE for every
    prefix whose next hop is not self, in FIB order, when at least one cost
    decayed, and nothing when none did. *)
Theorem decay_sweep_shape (r : Router) :
  PyDict.wf (fib r) ->
  let r' := fst (apply_cost_decay r) in
  fib r' = map (fun it => (fst it, decay_entry (snd it))) (fib r) /\
  PyDict.keys (fib r') = PyDict.keys (fib r) /\
  (forall P e, PyDict.get (fib r) P = Some e ->
     exists e', PyDict.get (fib r') P = Some e' /\
                next_hop e' = next_hop e /\
                fm_get_total_cost e' <= fm_get_total_cost e) /\
  ((exists P e, In (P, e) (fib r) /\ decays e = true) ->
     snd (apply_cost_decay r) =
       map SendUpdateProc (learned_prefixes (fib r))) /\
  ((forall P e, In (P, e) (fib r) -> decays e = false) ->
     snd (apply_cost_decay r) = []).
Proof.
  intros Hwf. unfold apply_cost_decay.
  destruct (fold_decay_step_map (PyDict.items (fib r)) [] r false eq_refl Hwf)
    as [Hf Hflag].
  destruct (fold_left decay_step (PyDict.items (fib r)) (r, false))
    as [r1 b].
  cbn [fst snd] in Hf, Hflag. simpl in Hf, Hflag. unfold PyDict.items in *.
  assert (Hfst : fst (if b
                      then (r1, flat_map
                             (fun it : string * fib_entry =>
                                if negb (String.eqb (next_hop (snd it)) "self")
                                then [SendUpdateProc (fst it)] else [])
                             (fib r1))
                      else (r1, [])) = r1) by now destruct b.
  rewrite Hfst.
  assert (Hsched :
    flat_map (fun it : string * fib_entry =>
                if negb (String.eqb (next_hop (snd it)) "self")
                then [SendUpdateProc (fst it)] else [])
             (fib r1)
    = map SendUpdateProc (learned_prefixes (fib r))).
  { rewrite Hf. unfold learned_prefixes. clear.
    induction (fib r) as [|[k e] l IH]; [reflexivity|].
    simpl. rewrite decay_entry_next_hop, IH.
    now destruct (negb (next_hop e =? "self")). }
  split; [exact Hf|]. split; [|split; [|split]].
  - rewrite Hf. unfold PyDict.keys. rewrite map_map. reflexivity.
  - intros P e Hget. exists (decay_entry e). rewrite Hf.
    split; [|split; [apply decay_entry_next_hop | apply decay_entry_cost]].
    clear -Hget. induction (fib r) as [|[k e0] l IH]; [discriminate|].
    simpl in *. destruct (String.eqb k P); [congruence | auto].
  - intros (P & e & Hin & Hd).
    assert (Hb : b = true).
    { rewrite Hflag. apply existsb_exists. exists (P, e). auto. }
    rewrite Hb. exact Hsched.
  - intros Hnone.
    assert (Hb : b = false).
    { rewrite Hflag. destruct (existsb _ (fib r)) eqn:E; [|reflexivity].
      apply existsb_exists in E as [[P e] [Hin Hd]]. simpl in Hd.
      rewrite (Hnone P e Hin) in Hd. discriminate. }
    now rewrite Hb.
Qed.

Lemma decay_sweep_shape_witness :
  PyDict.wf (fib example_R1_decay) /\
  snd (apply_cost_decay example_R1_decay) =
    map SendUpdateProc (learned_prefixes (fib example_R1_decay)).
Proof.
  assert (Hwf : PyDict.wf (fib example_R1_decay)).
  { unfold PyDict.wf. simpl. repeat constructor; simpl; intuition discriminate. }
  split; [exact Hwf|].
  apply (proj1 (proj2 (proj2 (proj2
           (decay_sweep_shape example_R1_decay Hwf))))).
  exists "192.168.3.0", (learned_entry "R2" 40).
  split; [simpl; auto | reflexivity].
Defined.

(** ** The reason logged for a neighbor *)

Lemma fold_best_cost (l : list (string * neighbor_info)) (best : option Q) :
  match
    fold_left
      (fun (best : option Q) (it : string * neighbor_info) =>
         let other_cost := calculate_composite_cost (nmetrics (snd it)) in
         match best with
         | None => Some other_cost
         | Some b => if Qltb other_cost b then Some other_cost else Some b
         end) l best
  with
  | None => best = None /\ l = []
  | Some m =>
      (forall it, In it l ->
         m <= calculate_composite_cost (nmetrics (snd it))) /\
      (forall b, best = Some b -> m <= b) /\
      ((exists it, In it l /\
          m = calculate_composite_cost (nmetrics (snd it))) \/
       best = Some m)
  end.
Proof.
  revert best. induction l as [|it l IH]; intros best; cbn [fold_left].
  - destruct best as [b|]; [|auto].
    split; [intros it []|]. split; [intros b' [= <-]; lra | now right].
  - match goal with
    | |- context [fold_left ?f l ?b0] => specialize (IH b0)
    end.
    destruct (fold_left _ l _) as [m|].
    + destruct IH as (Hall & Hbest & Hwit). cbn beta zeta in *.
      destruct best as [b|].
      * destruct (Qltb (calculate_composite_cost (nmetrics (snd it))) b)
          eqn:E.
        -- apply Qltb_true in E. specialize (Hbest _ eq_refl).
           split; [intros it' [<-|Hin]; [assumption | now apply Hall]|].
           split; [intros b' [= <-]; lra|].
           left. destruct Hwit as [[it' [Hin Hm]]|[= Hm]].
           ++ exists it'. split; [now right | assumption].
           ++ exists it. split; [now left | now symmetry].
        -- apply Qltb_false in E. specialize (Hbest _ eq_refl).
           split; [intros it' [<-|Hin]; [lra | now apply Hall]|].
           split; [intros b' [= <-]; assumption|].
           destruct Hwit as [[it' [Hin Hm]]|Hm].
           ++ left. exists it'. split; [now right | assumption].
           ++ now right.
      * specialize (Hbest _ eq_refl).
        split; [intros it' [<-|Hin]; [assumption | now apply Hall]|].
        split; [discriminate|].
        left. destruct Hwit as [[it' [Hin Hm]]|[= Hm]].
        -- exists it'. split; [now right | assumption].
        -- exists it. split; [now left | now symmetry].
    + destruct IH as [Hb _]. cbn beta zeta in Hb.
      destruct best as [b|]; [destruct (Qltb _ b)|]; discriminate.
Qed.

(** X18. For a neighbor in the neighbor table, the reason logged with a
    packet is never "Unknown"; it is "Best path (lowest composite cost)"
    exactly when no neighbor has a lower composite link cost. *)
Theorem path_selection_reason_best (r : Router) (n : string)
    (info : neighbor_info) :
  n <> "" ->
  PyDict.get (neighbor_table r) n = Some info ->
  get_path_selection_reason r (Some n) <> "Unknown" /\
  (get_path_selection_reason r (Some n) = "Best path (lowest composite cost)"
   <->
   forall n' info', In (n', info') (neighbor_table r) ->
     calculate_composite_cost (nmetrics info) <=
     calculate_composite_cost (nmetrics info')).
Proof.
  intros Hn Hget. unfold get_path_selection_reason.
  apply String.eqb_neq in Hn. rewrite Hn, Hget.
  pose proof (fold_best_cost (PyDict.items (neighbor_table r)) None) as H.
  cbn zeta. destruct (fold_left _ (PyDict.items (neighbor_table r)) None)
    as [m|].
  - destruct H as (Hall & _ & Hwit).
    assert (Hm : m <= calculate_composite_cost (nmetrics info)).
    { apply (Hall (n, info)). now apply get_In. }
    destruct (Qeq_bool (calculate_composite_cost (nmetrics info)) m) eqn:E.
    + apply Qeq_bool_iff in E. split; [discriminate|].
      split; [|reflexivity]. intros _ n' info' Hin.
      pose proof (Hall (n', info') Hin). simpl in *. lra.
    + split; [destruct (Qltb _ _); discriminate|].
      split; [destruct (Qltb _ _); discriminate|].
      intros Hmin. exfalso.
      assert (Hge : calculate_composite_cost (nmetrics info) <= m).
      { destruct Hwit as [[[n' info'] [Hin ->]]|]; [|discriminate].
        now apply (Hmin n' info'). }
      assert (Heq : calculate_composite_cost (nmetrics info) == m) by lra.
      apply Qeq_bool_iff in Heq. congruence.
  - destruct H as [_ Hnil]. apply get_In in Hget.
    unfold PyDict.items in Hnil. rewrite Hnil in Hget. contradiction.
Qed.

Lemma path_selection_reason_best_witness :
  get_path_selection_reason example_storm_router (Some "R3") <> "Unknown" /\
  (get_path_selection_reason example_storm_router (Some "R3")
     = "Best path (lowest composite cost)"
   <->
   forall n' info', In (n', info') (neighbor_table example_storm_router) ->
     calculate_composite_cost
       (hello_metrics {| h_delay := 5; h_jitter := 1;
                         h_packet_loss := 0.05; h_congestion := 0;
                         h_link_stability := 100 |}) <=
     calculate_composite_cost (nmetrics info')).
Proof.
  apply (path_selection_reason_best example_storm_router "R3"
           {| last_seen := 0;
              nmetrics :=
                hello_metrics {| h_delay := 5; h_jitter := 1;
                                 h_packet_loss := 0.05; h_congestion := 0;
                                 h_link_stability := 100 |} |}).
  - discriminate.
  - reflexivity.
Defined.

(** ** Link costs stay within the clamps of the emitters *)

Lemma clamp_range (lo hi x : Q) :
  lo <= hi -> lo <= Qmax lo (Qmin hi x) /\ Qmax lo (Qmin hi x) <= hi.
Proof.
  intros H. split; [apply Q.le_max_l|].
  apply Q.max_lub; [assumption | apply Q.le_min_l].
Qed.

Lemma build_hello_cost_range (s : hello_sample) :
  2.325 <= calculate_composite_cost (hello_metrics (build_hello s)) /\
  calculate_composite_cost (hello_metrics (build_hello s)) <= 79.5.
Proof.
  unfold calculate_composite_cost, hello_metrics, PyDict.get_default.
  cbn [PyDict.get String.eqb Ascii.eqb Bool.eqb].
  unfold build_hello. cbn [h_delay h_jitter h_packet_loss h_congestion].
  unfold w_delay, w_jitter, w_packet_loss, w_congestion.
  match goal with
  | |- _ <= _ * Qmax 5 (Qmin 120 ?a) + _ * Qmax 1 (Qmin 20 ?b)
            + _ * Qmax 0.05 (Qmin 8.0 ?c) * _
            + _ * Qmax 0 (Qmin 50 ?d) /\ _ =>
      destruct (clamp_range 5 120 a); [lra|];
      destruct (clamp_range 1 20 b); [lra|];
      destruct (clamp_range 0.05 8.0 c); [lra|];
      destruct (clamp_range 0 50 d); [lra|]
  end.
  split; lra.
Qed.

Lemma refresh_metrics_cost_range (m : pydict Q) (s : metric_sample) :
  0.445 <= calculate_composite_cost (refresh_metrics m s) /\
  calculate_composite_cost (refresh_metrics m s) <= 62.5.
Proof.
  unfold calculate_composite_cost, refresh_metrics.
  rewrite !get_default_set.
  cbn [String.eqb Ascii.eqb Bool.eqb].
  unfold w_delay, w_jitter, w_packet_loss, w_congestion.
  match goal with
  | |- _ <= _ * Qmax 1 (Qmin 80 ?a) + _ * Qmax 0.1 (Qmin 15 ?b)
            + _ * Qmax 0.01 (Qmin 8.0 ?c) * _
            + _ * Qmax 0 (Qmin 50 ?d) /\ _ =>
      destruct (clamp_range 1 80 a); [lra|];
      destruct (clamp_range 0.1 15 b); [lra|];
      destruct (clamp_range 0.01 8.0 c); [lra|];
      destruct (clamp_range 0 50 d); [lra|]
  end.
  split; lra.
Qed.

Lemma link_costs_ext (r r' : Router) :
  neighbor_table r' = neighbor_table r ->
  link_costs_in_range r -> link_costs_in_range r'.
Proof. unfold link_costs_in_range. intros ->. auto. Qed.

Lemma reachable_link_costs (r : Router) : reachable r -> link_costs_in_range r.
Proof.
  induction 1 as [nm ifs nets | r now sender pkt _ IH Hpkt | r _ IH
                 | r now l s _ IH | r samples _ IH | r _ IH | r _ IH].
  - intros n info [].
  - destruct Hpkt as [s|u Hu|]; cbn [handle_packet fst].
    + intros n info Hin. unfold prune_neighbors in Hin.
      match type of Hin with
      | In _ (neighbor_table (fold_left _ ?names ?r0)) =>
          destruct (fold_del_neighbors_frame names r0) as (_ & _ & Hn)
      end.
      rewrite Hn in Hin. apply In_fold_del in Hin as [Hin _].
      simpl in Hin. apply In_set in Hin as [[_ ->]|Hin].
      * simpl. pose proof (build_hello_cost_range s). lra.
      * now apply (IH n).
    + revert IH. apply link_costs_ext.
      apply handle_update_neighbor_table.
    + exact IH.
  - unfold initial_advertisement.
    destruct (trigger_update_spec (with_state r "ADVERTISING") None)
      as (_ & _ & _ & Hn & _).
    destruct (trigger_update (with_state r "ADVERTISING") None) as [r1 acts].
    cbn [fst] in *. revert IH. now apply link_costs_ext.
  - exact IH.
  - intros n info Hin. simpl in Hin.
    apply in_map_iff in Hin as [[n0 info0] [[= <- <-] _]]. simpl.
    pose proof (refresh_metrics_cost_range (nmetrics info0) (samples n0)).
    lra.
  - rewrite apply_cost_decay_fst.
    assert (Hn : forall l acc,
              neighbor_table (fst (fold_left decay_step l acc))
              = neighbor_table (fst acc)).
    { induction l as [|[d e] l IHl]; intros [r0 b0]; cbn [fold_left];
        [reflexivity|].
      rewrite IHl. unfold decay_step. destruct (decays e); [|reflexivity].
      simpl. now destruct (PyDict.get (topology_table r0) d). }
    revert IH. apply link_costs_ext. apply (Hn _ (r, false)).
  - unfold monitor_and_reset_costs.
    pose proof (fold_reset_step_rest (PyDict.items (fib r)) (r, false))
      as [_ Hn].
    destruct (fold_left reset_step (PyDict.items (fib r)) (r, false))
      as [r1 b].
    cbn [fst] in Hn. destruct b; cbn [fst].
    + destruct (trigger_update_spec (with_cost_history r1 []) None)
        as (_ & _ & _ & Hn' & _).
      revert IH. apply link_costs_ext. now rewrite Hn'.
    + revert IH. now apply link_costs_ext.
Qed.

(** X19. The composite link cost of every neighbor a router knows lies
    between 0.445 and 79.5: a HELLO built by [send_hellos] gives a cost
    between 2.325 and 79.5, a metric refresh a cost between 0.445 and 62.5,
    and nothing else writes neighbor metrics. *)
Theorem link_cost_range (r : Router) :
  reachable r ->
  (forall n info, PyDict.get (neighbor_table r) n = Some info ->
     0.445 <= calculate_composite_cost (nmetrics info) /\
     calculate_composite_cost (nmetrics info) <= 79.5) /\
  (forall s,
     2.325 <= calculate_composite_cost (hello_metrics (build_hello s)) /\
     calculate_composite_cost (hello_metrics (build_hello s)) <= 79.5) /\
  (forall m s,
     0.445 <= calculate_composite_cost (refresh_metrics m s) /\
     calculate_composite_cost (refresh_metrics m s) <= 62.5).
Proof.
  intros Hr. split; [|split].
  - intros n info Hget. apply get_In in Hget.
    exact (reachable_link_costs r Hr n info Hget).
  - apply build_hello_cost_range.
  - apply refresh_metrics_cost_range.
Qed.

Lemma link_cost_range_witness :
  reachable example_learned /\
  forall n info, PyDict.get (neighbor_table example_learned) n = Some info ->
    0.445 <= calculate_composite_cost (nmetrics info) /\
    calculate_composite_cost (nmetrics info) <= 79.5.
Proof.
  split; [exact example_learned_reachable|].
  exact (proj1 (link_cost_range example_learned example_learned_reachable)).
Defined.

(** * Topologies *)

(** ** Dictionaries indexed by a counter *)

Lemma get_app_notin {V} (l1 l2 : pydict V) (k : string) :
  ~ In k (PyDict.keys l1) ->
  PyDict.get (l1 ++ l2)%list k = PyDict.get l2 k.
Proof.
  induction l1 as [|[k0 v0] l1 IH]; intros Hnot; simpl; [reflexivity|].
  destruct (String.eqb k0 k) eqn:E.
  - apply String.eqb_eq in E. exfalso. apply Hnot. now left.
  - apply IH. intros Hin. apply Hnot. now right.
Qed.

Lemma get_app_in {V} (l1 l2 : pydict V) (k : string) (v : V) :
  PyDict.get l1 k = Some v -> PyDict.get (l1 ++ l2)%list k = Some v.
Proof.
  induction l1 as [|[k0 v0] l1 IH]; simpl; [discriminate|].
  destruct (String.eqb k0 k); auto.
Qed.

Lemma set_app_in {V} (l1 l2 : pydict V) (k : string) (v : V) :
  PyDict.get l1 k <> None ->
  PyDict.set (l1 ++ l2)%list k v = (PyDict.set l1 k v ++ l2)%list.
Proof.
  induction l1 as [|[k0 v0] l1 IH]; simpl; [congruence|].
  destruct (String.eqb k0 k); [reflexivity|].
  intros H. now rewrite IH.
Qed.

Lemma set_notin {V} (l : pydict V) (k : string) (v : V) :
  ~ In k (PyDict.keys l) -> PyDict.set l k v = (l ++ [(k, v)])%list.
Proof.
  induction l as [|[k0 v0] l IH]; intros Hnot; simpl; [reflexivity|].
  destruct (String.eqb k0 k) eqn:E.
  - apply String.eqb_eq in E. exfalso. apply Hnot. now left.
  - rewrite IH; [reflexivity|]. intros Hin. apply Hnot. now right.
Qed.

Section Tabulate.
Context {V : Type}.
Variable key : nat -> string.
Hypothesis key_inj : forall i j, key i = key j -> i = j.

Lemma tabulate_S (val : nat -> V) (n : nat) :
  tabulate key val (S n) = (tabulate key val n ++ [(key n, val n)])%list.
Proof. unfold tabulate. rewrite seq_S, map_app. reflexivity. Qed.

Lemma tabulate_ext (val val' : nat -> V) (n : nat) :
  (forall i, (i < n)%nat -> val i = val' i) ->
  tabulate key val n = tabulate key val' n.
Proof.
  intros H. unfold tabulate. apply map_ext_in. intros i Hi.
  apply in_seq in Hi. rewrite H by lia. reflexivity.
Qed.

Lemma keys_tabulate (val : nat -> V) (n : nat) (k : string) :
  In k (PyDict.keys (tabulate key val n)) ->
  exists i, (i < n)%nat /\ k = key i.
Proof.
  unfold PyDict.keys, tabulate. rewrite map_map. simpl.
  intros H. apply in_map_iff in H as [i [<- Hi]]. apply in_seq in Hi.
  exists i. split; [lia | reflexivity].
Qed.

Lemma key_fresh (val : nat -> V) (n i : nat) :
  (n <= i)%nat -> ~ In (key i) (PyDict.keys (tabulate key val n)).
Proof.
  intros Hle Hin. apply keys_tabulate in Hin as [j [Hj Hk]].
  apply key_inj in Hk. lia.
Qed.

Lemma set_tabulate_fresh (val : nat -> V) (n : nat) (v : V) :
  PyDict.set (tabulate key val n) (key n) v =
  tabulate key (upd val n v) (S n).
Proof.
  rewrite tabulate_S. unfold upd at 2. rewrite Nat.eqb_refl.
  rewrite (tabulate_ext (upd val n v) val).
  2:{ intros i Hi. unfold upd.
      destruct (Nat.eqb_spec i n); [lia | reflexivity]. }
  apply set_notin. now apply key_fresh.
Qed.

Lemma get_tabulate (val : nat -> V) (n i : nat) :
  (i < n)%nat -> PyDict.get (tabulate key val n) (key i) = Some (val i).
Proof.
  induction n as [|n IH]; intros Hi; [lia|].
  rewrite tabulate_S.
  destruct (Nat.eq_dec i n) as [->|Hne].
  - rewrite get_app_notin by (now apply key_fresh).
    simpl. now rewrite String.eqb_refl.
  - apply get_app_in. apply IH. lia.
Qed.

Lemma get_tabulate_None (val : nat -> V) (n i : nat) :
  (n <= i)%nat -> PyDict.get (tabulate key val n) (key i) = None.
Proof.
  intros Hle. pose proof (key_fresh val n i Hle) as Hnot.
  destruct (PyDict.get (tabulate key val n) (key i)) eqn:E; [|reflexivity].
  exfalso. apply Hnot. apply get_In in E. unfold PyDict.keys.
  apply in_map_iff. now exists (key i, v).
Qed.

Lemma set_tabulate (val : nat -> V) (n i : nat) (v : V) :
  (i < n)%nat ->
  PyDict.set (tabulate key val n) (key i) v = tabulate key (upd val i v) n.
Proof.
  induction n as [|n IH]; intros Hi; [lia|].
  rewrite !tabulate_S.
  destruct (Nat.eq_dec i n) as [->|Hne].
  - rewrite set_app_notin by (now apply key_fresh).
    unfold upd at 2. rewrite Nat.eqb_refl.
    rewrite (tabulate_ext (upd val n v) val); [reflexivity|].
    intros j Hj. unfold upd. destruct (Nat.eqb_spec j n); [lia | reflexivity].
  - rewrite set_app_in by (rewrite get_tabulate by lia; discriminate).
    rewrite IH by lia. repeat f_equal. unfold upd.
    destruct (Nat.eqb_spec n i); [lia | reflexivity].
Qed.

Lemma nth_error_tabulate (val : nat -> V) (n i : nat) :
  (i < n)%nat ->
  nth_error (map snd (tabulate key val n)) i = Some (val i).
Proof.
  intros Hi. unfold tabulate. rewrite map_map. simpl.
  rewrite nth_error_map, nth_error_seq.
  destruct (Nat.ltb_spec i n); [reflexivity | lia].
Qed.

Lemma length_tabulate (val : nat -> V) (n : nat) :
  List.length (tabulate key val n) = n.
Proof. unfold tabulate. now rewrite length_map, length_seq. Qed.
End Tabulate.

(** ** Names *)

Lemma decimal_inj (i j : nat) : decimal i = decimal j -> i = j.
Proof.
  unfold decimal. intros H.
  apply (f_equal NilEmpty.uint_of_string) in H.
  rewrite !NilEmpty.usu in H. injection H as H.
  now apply Unsigned.to_uint_inj.
Qed.

Lemma router_name_inj (i j : nat) : router_name i = router_name j -> i = j.
Proof.
  unfold router_name. simpl. intros [= H]. apply decimal_inj in H. lia.
Qed.

Lemma eth_inj (i j : nat) : eth i = eth j -> i = j.
Proof. unfold eth. simpl. intros [= H]. now apply decimal_inj. Qed.

Lemma create_routers_tabulate (n : nat) (ifs : nat -> pydict iface_info) :
  create_routers n ifs =
  tabulate router_name
    (fun i => init_router (router_name i) (ifs i) [network_of i]) n.
Proof.
  unfold create_routers. induction n as [|n IH]; [reflexivity|].
  rewrite seq_S, fold_left_app, IH. simpl.
  rewrite (set_tabulate_fresh router_name router_name_inj).
  apply tabulate_ext. intros i Hi. unfold upd.
  destruct (Nat.eqb_spec i n) as [->|]; reflexivity.
Qed.

(** ** The linear topology *)

Ltac nat_cases :=
  repeat match goal with
  | |- context [Nat.eqb ?a ?b] => destruct (Nat.eqb_spec a b)
  | |- context [Nat.ltb ?a ?b] => destruct (Nat.ltb_spec a b)
  | |- context [Nat.leb ?a ?b] => destruct (Nat.leb_spec a b)
  end; try lia; cbn [orb andb negb].

Lemma linear_step_wires (n j : nat) (links : list Link) :
  (j + 1 < n)%nat ->
  linear_step (Some (tabulate router_name (linear_router n j) n, links)) j =
  Some (tabulate router_name (linear_router n (S j)) n,
        (links ++ [chain_link j])%list).
Proof.
  intros Hj. unfold linear_step.
  rewrite !(nth_error_tabulate router_name) by lia.
  change (make_link (linear_router n j j) (linear_router n j (j + 1)))
    with (chain_link j).
  change (name (linear_router n j j)) with (router_name j).
  change (name (linear_router n j (j + 1))) with (router_name (j + 1)).
  unfold connect at 1.
  rewrite (get_tabulate router_name router_name_inj) by lia.
  change (interfaces (linear_router n j j)) with (linear_interfaces n j j).
  assert (H1 : PyDict.get (linear_interfaces n j j)
                 (if Nat.eqb j 0 then "eth0" else "eth1") = Some None).
  { unfold linear_interfaces. nat_cases; reflexivity. }
  rewrite H1. rewrite (set_tabulate router_name router_name_inj) by lia.
  unfold connect.
  rewrite (get_tabulate router_name router_name_inj) by lia.
  assert (Hnext : upd (linear_router n j) j
                    (with_interfaces (linear_router n j j)
                       (PyDict.set (linear_interfaces n j j)
                          (if Nat.eqb j 0 then "eth0" else "eth1")
                          (Some (chain_link j))))
                    (j + 1) = linear_router n j (j + 1)).
  { unfold upd. destruct (Nat.eqb_spec (j + 1) j); [lia | reflexivity]. }
  rewrite Hnext.
  change (interfaces (linear_router n j (j + 1)))
    with (linear_interfaces n j (j + 1)).
  assert (H2 : PyDict.get (linear_interfaces n j (j + 1)) "eth0" = Some None).
  { unfold linear_interfaces. nat_cases; reflexivity. }
  rewrite H2. rewrite (set_tabulate router_name router_name_inj) by lia.
  f_equal. f_equal. apply tabulate_ext. intros i Hi. unfold upd.
  destruct (Nat.eqb_spec i (j + 1)) as [->|Hn1].
  - unfold linear_router, with_interfaces, init_router. simpl. f_equal.
    unfold linear_interfaces. nat_cases; simpl; repeat f_equal; lia.
  - destruct (Nat.eqb_spec i j) as [->|Hn2].
    + unfold linear_router, with_interfaces, init_router. simpl. f_equal.
      unfold linear_interfaces. nat_cases; simpl; repeat f_equal; lia.
    + unfold linear_router. f_equal.
      unfold linear_interfaces. nat_cases; simpl; repeat f_equal; lia.
Qed.

Lemma linear_fold (n k : nat) :
  (k < n)%nat ->
  fold_left linear_step (seq 0 k)
    (Some (tabulate router_name (linear_router n 0) n, [])) =
  Some (tabulate router_name (linear_router n k) n,
        map chain_link (seq 0 k)).
Proof.
  induction k as [|k IH]; intros Hk; [reflexivity|].
  rewrite seq_S, fold_left_app, IH by lia. cbn [fold_left Nat.add].
  rewrite linear_step_wires by lia. now rewrite map_app.
Qed.

Lemma linear_topology_closed_form (n : nat) :
  create_linear_topology n =
  Some (tabulate router_name (linear_router n (n - 1)) n,
        map chain_link (seq 0 (n - 1))).
Proof.
  unfold create_linear_topology. rewrite create_routers_tabulate.
  rewrite length_tabulate.
  rewrite (tabulate_ext router_name _ (linear_router n 0)).
  2:{ intros i Hi. unfold linear_router. f_equal.
      unfold linear_interfaces. nat_cases; reflexivity. }
  destruct n as [|n]; [reflexivity|].
  apply linear_fold. lia.
Qed.

Lemma chain_link_peers (k : nat) :
  link_peer (chain_link k) (router_name k) = router_name (k + 1) /\
  link_peer (chain_link k) (router_name (k + 1)) = router_name k.
Proof.
  unfold link_peer, chain_link. cbn [router1 router2].
  rewrite String.eqb_refl. split; [reflexivity|].
  destruct (String.eqb_spec (router_name k) (router_name (k + 1))) as [E|];
    [|reflexivity].
  apply router_name_inj in E. lia.
Qed.

(** X20. [create_linear_topology] never raises.  It creates the routers
    R1 .. Rn in this order, each with its own network 192.168.i.0 and an
    otherwise empty state, and the n - 1 links Ri - R(i+1).  Every router
    but the last has the link to its successor on eth0 (the first router)
    or eth1, every router but the first has the link to its predecessor on
    eth0, a link delivers to the other end, and from two routers on no
    interface is left without a link. *)
Theorem linear_topology_shape (n : nat) :
  exists routers,
    create_linear_topology n =
      Some (routers, map chain_link (seq 0 (n - 1))) /\
    PyDict.keys routers = map router_name (seq 0 n) /\
    (forall i, (i < n)%nat ->
       exists r,
         PyDict.get routers (router_name i) = Some r /\
         r = init_router (router_name i) (interfaces r) [network_of i] /\
         ((2 <= n)%nat ->
            forall iface l, In (iface, l) (interfaces r) -> l <> None) /\
         ((i + 1 < n)%nat ->
            PyDict.get (interfaces r) (if Nat.eqb i 0 then "eth0" else "eth1")
              = Some (Some (chain_link i))) /\
         ((1 <= i)%nat ->
            PyDict.get (interfaces r) "eth0"
              = Some (Some (chain_link (i - 1))))) /\
    (forall k,
       link_peer (chain_link k) (router_name k) = router_name (k + 1) /\
       link_peer (chain_link k) (router_name (k + 1)) = router_name k).
Proof.
  exists (tabulate router_name (linear_router n (n - 1)) n).
  split; [apply linear_topology_closed_form|].
  split; [unfold PyDict.keys, tabulate; now rewrite map_map|].
  split; [|apply chain_link_peers].
  intros i Hi. exists (linear_router n (n - 1) i).
  split; [now apply (get_tabulate router_name router_name_inj)|].
  split; [reflexivity|].
  change (interfaces (linear_router n (n - 1) i))
    with (linear_interfaces n (n - 1) i).
  unfold linear_interfaces. split; [|split].
  - intros Hn iface l. nat_cases; simpl;
      intros Hin; repeat destruct Hin as [Hin|Hin]; try contradiction;
      injection Hin as _ <-; discriminate.
  - intros Hs. nat_cases; subst; reflexivity.
  - intros H1. nat_cases; subst; reflexivity.
Qed.

(** ** The ring topology *)

Lemma ring_step_wires (n j : nat) (links : list Link) :
  (j < n)%nat ->
  ring_step n (Some (tabulate router_name (ring_router n j) n, links)) j =
  Some (tabulate router_name (ring_router n (S j)) n,
        (links ++ [ring_link n j])%list).
Proof.
  intros Hj. unfold ring_step.
  assert (Hm : ((j + 1) mod n < n)%nat) by (apply Nat.mod_upper_bound; lia).
  assert (Hmv : ((j + 1 < n)%nat /\ (j + 1) mod n = (j + 1)%nat) \/
                ((j + 1)%nat = n /\ (j + 1) mod n = 0%nat)).
  { destruct (Nat.eq_dec (j + 1) n) as [E|E].
    - right. split; [assumption|]. rewrite E. apply Nat.Div0.mod_same.
    - left. split; [lia|]. apply Nat.mod_small. lia. }
  unfold ring_link.
  set (m := ((j + 1) mod n)%nat) in *.
  rewrite !(nth_error_tabulate router_name) by lia.
  change (make_link (ring_router n j j) (ring_router n j m))
    with {| router1 := router_name j; router2 := router_name m |}.
  change (name (ring_router n j j)) with (router_name j).
  change (name (ring_router n j m)) with (router_name m).
  unfold connect at 1.
  rewrite (get_tabulate router_name router_name_inj) by lia.
  change (interfaces (ring_router n j j)) with (ring_interfaces n j j).
  assert (H1 : PyDict.get (ring_interfaces n j j) "eth1" = Some None).
  { unfold ring_interfaces. simpl. nat_cases; reflexivity. }
  rewrite H1. rewrite (set_tabulate router_name router_name_inj) by lia.
  unfold connect.
  rewrite (get_tabulate router_name router_name_inj) by lia.
  set (l := {| router1 := router_name j; router2 := router_name m |}).
  set (v1 := with_interfaces (ring_router n j j)
               (PyDict.set (ring_interfaces n j j) "eth1" (Some l))).
  assert (H2 : exists old,
            PyDict.get (interfaces (upd (ring_router n j) j v1 m)) "eth0"
            = Some old).
  { unfold upd. destruct (Nat.eqb m j); simpl; eauto. }
  destruct H2 as [old H2]. rewrite H2.
  rewrite (set_tabulate router_name router_name_inj) by lia.
  f_equal. f_equal. apply tabulate_ext. intros i Hi.
  unfold upd at 1.
  destruct (Nat.eqb_spec i m) as [->|Hn1].
  - unfold upd. destruct (Nat.eqb_spec m j) as [Emj|Emj].
    + destruct Hmv as [[Ha Hb]|[Ha Hb]]; [lia|].
      assert (Ej : j = 0%nat) by lia. assert (En : n = 1%nat) by lia.
      subst v1 l. rewrite Emj, Ej, En. reflexivity.
    + unfold ring_router, with_interfaces, init_router. simpl. f_equal.
      unfold ring_interfaces, ring_link.
      destruct Hmv as [[Ha Hb]|[Ha Hb]].
      * nat_cases; simpl; subst l; repeat f_equal; try lia.
        fold m. replace (m - 1)%nat with j by lia. reflexivity.
      * nat_cases; simpl; subst l; repeat f_equal; try lia.
        fold m. replace (n - 1)%nat with j by lia. reflexivity.
  - unfold upd. destruct (Nat.eqb_spec i j) as [->|Hn2].
    + subst v1. unfold ring_router, with_interfaces, init_router. simpl.
      f_equal. unfold ring_interfaces, ring_link. fold m.
      destruct Hmv as [[Ha Hb]|[Ha Hb]];
        nat_cases; simpl; subst l; repeat f_equal; lia.
    + unfold ring_router. f_equal. unfold ring_interfaces.
      destruct Hmv as [[Ha Hb]|[Ha Hb]];
        nat_cases; simpl; repeat f_equal; lia.
Qed.

Lemma ring_fold (n k : nat) :
  (k <= n)%nat ->
  fold_left (ring_step n) (seq 0 k)
    (Some (tabulate router_name (ring_router n 0) n, [])) =
  Some (tabulate router_name (ring_router n k) n,
        map (ring_link n) (seq 0 k)).
Proof.
  induction k as [|k IH]; intros Hk; [reflexivity|].
  rewrite seq_S, fold_left_app, IH by lia. cbn [fold_left Nat.add].
  rewrite ring_step_wires by lia. now rewrite map_app.
Qed.

Lemma ring_topology_closed_form (n : nat) :
  create_ring_topology n =
  Some (tabulate router_name (ring_router n n) n,
        map (ring_link n) (seq 0 n)).
Proof.
  unfold create_ring_topology. rewrite create_routers_tabulate.
  rewrite (tabulate_ext router_name _ (ring_router n 0)).
  2:{ intros i Hi. unfold ring_router. f_equal.
      unfold ring_interfaces. nat_cases; reflexivity. }
  apply ring_fold. lia.
Qed.

Lemma ring_successor (n i : nat) :
  (2 <= n)%nat -> (i < n)%nat -> ((i + 1) mod n)%nat <> i.
Proof.
  intros Hn Hi. destruct (Nat.eq_dec (i + 1) n) as [E|E].
  - rewrite E, Nat.Div0.mod_same. lia.
  - rewrite Nat.mod_small by lia. lia.
Qed.

(** X21. [create_ring_topology] never raises.  It creates the routers
    R1 .. Rn in this order with the n links Ri - R((i mod n) + 1); every
    router carries the link to its successor on eth1 and the link from its
    predecessor on eth0, so that no interface is left without a link, and
    the link on eth0 indeed ends at this router.  From two routers on a
    link delivers to the other end; a ring of one router is a link from R1
    to itself. *)
Theorem ring_topology_shape (n : nat) :
  exists routers,
    create_ring_topology n = Some (routers, map (ring_link n) (seq 0 n)) /\
    PyDict.keys routers = map router_name (seq 0 n) /\
    (forall i, (i < n)%nat ->
       let p := if Nat.eqb i 0 then (n - 1)%nat else (i - 1)%nat in
       PyDict.get routers (router_name i) =
         Some (init_router (router_name i)
                 [("eth0", Some (ring_link n p)); ("eth1", Some (ring_link n i))]
                 [network_of i]) /\
       router2 (ring_link n p) = router_name i /\
       ((2 <= n)%nat ->
          link_peer (ring_link n i) (router_name i)
            = router_name ((i + 1) mod n) /\
          link_peer (ring_link n i) (router_name ((i + 1) mod n))
            = router_name i)) /\
    (n = 1%nat -> link_peer (ring_link n 0) "R1" = "R1").
Proof.
  exists (tabulate router_name (ring_router n n) n).
  split; [apply ring_topology_closed_form|].
  split; [unfold PyDict.keys, tabulate; now rewrite map_map|].
  split; [|intros ->; reflexivity].
  intros i Hi p. split; [|split].
  - rewrite (get_tabulate router_name router_name_inj) by lia.
    unfold ring_router, ring_interfaces. subst p.
    nat_cases; reflexivity.
  - unfold ring_link. cbn [router2]. f_equal. subst p.
    destruct (Nat.eqb_spec i 0) as [->|Hi0].
    + replace (n - 1 + 1)%nat with n by lia. apply Nat.Div0.mod_same.
    + replace (i - 1 + 1)%nat with i by lia. apply Nat.mod_small. lia.
  - intros Hn. unfold link_peer, ring_link. cbn [router1 router2].
    rewrite String.eqb_refl. split; [reflexivity|].
    destruct (String.eqb_spec (router_name i) (router_name ((i + 1) mod n)))
      as [E|]; [|reflexivity].
    apply router_name_inj in E. pose proof (ring_successor n i Hn Hi). lia.
Qed.

(** ** The star topology *)

Lemma star_step_wires (n j : nat) (links : list Link) :
  (j + 1 < n)%nat ->
  star_step
    (Some (tabulate router_name (star_router n j) (j + 1), links)) (j + 1) =
  Some (tabulate router_name (star_router n (S j)) (S (j + 1)),
        (links ++ [star_link (j + 1)])%list).
Proof.
  intros Hj. unfold star_step. cbv zeta.
  rewrite (set_tabulate_fresh router_name router_name_inj).
  set (new := init_router (router_name (j + 1)) [("eth0", None)]
                [network_of (j + 1)]).
  change "R1" with (router_name 0) at 1.
  rewrite (get_tabulate router_name router_name_inj) by lia.
  assert (E0 : upd (star_router n j) (j + 1) new 0%nat = star_router n j 0).
  { unfold upd. nat_cases. reflexivity. }
  rewrite E0.
  change (make_link (star_router n j 0) new) with (star_link (j + 1)).
  change (name (star_router n j 0)) with (router_name 0).
  change (name new) with (router_name (j + 1)).
  unfold connect at 1.
  rewrite (get_tabulate router_name router_name_inj) by lia.
  rewrite E0.
  change (interfaces (star_router n j 0)) with (star_central n j).
  replace (j + 1 - 1)%nat with j by lia.
  unfold star_central at 1.
  rewrite (get_tabulate eth eth_inj) by lia.
  rewrite (set_tabulate router_name router_name_inj) by lia.
  unfold connect.
  rewrite (get_tabulate router_name router_name_inj) by lia.
  assert (E1 : forall v,
            upd (upd (star_router n j) (j + 1) new) 0 v (j + 1)%nat = new).
  { intros v. unfold upd. nat_cases. reflexivity. }
  rewrite E1. cbn [interfaces new init_router PyDict.get String.eqb Ascii.eqb
                   Bool.eqb].
  rewrite (set_tabulate router_name router_name_inj) by lia.
  f_equal. f_equal. apply tabulate_ext. intros i Hi.
  unfold upd at 1. destruct (Nat.eqb_spec i (j + 1)) as [->|Hn1].
  - unfold star_router. nat_cases. reflexivity.
  - unfold upd at 1. destruct (Nat.eqb_spec i 0) as [->|Hn2].
    + unfold star_router, with_interfaces, init_router. simpl.
      f_equal. unfold star_central.
      rewrite (set_tabulate eth eth_inj) by lia.
      apply tabulate_ext. intros k Hk. unfold upd.
      nat_cases; subst; reflexivity.
    + unfold upd. destruct (Nat.eqb_spec i (j + 1)); [lia|].
      unfold star_router. nat_cases; reflexivity.
Qed.

Lemma star_fold (n k : nat) :
  (k + 1 <= n)%nat ->
  fold_left star_step (seq 1 k)
    (Some (tabulate router_name (star_router n 0) 1, [])) =
  Some (tabulate router_name (star_router n k) (k + 1),
        map star_link (seq 1 k)).
Proof.
  induction k as [|k IH]; intros Hk; [reflexivity|].
  rewrite seq_S, fold_left_app, IH by lia. cbn [fold_left].
  replace (1 + k)%nat with (k + 1)%nat by lia.
  rewrite star_step_wires by lia. rewrite map_app.
  replace (S k + 1)%nat with (S (k + 1)) by lia. reflexivity.
Qed.

Lemma star_topology_closed_form (n : nat) :
  create_star_topology n =
  Some (tabulate router_name (star_router n (n - 1)) (n - 1 + 1),
        map star_link (seq 1 (n - 1))).
Proof.
  unfold create_star_topology. cbv zeta.
  destruct n as [|n]; [reflexivity|].
  rewrite <- star_fold by lia. reflexivity.
Qed.

(** X22. [create_star_topology] never raises.  It always creates the
    central router R1, also for a node count of 0 or 1, followed by the
    edge routers R2 .. Rn in this order with one link R1 - Ri each.  The
    central router carries the link to Ri on eth(i-2), so that none of its
    n - 1 interfaces is left without a link, every edge router carries its
    link on eth0, and the link delivers between the centre and the edge
    router. *)
Theorem star_topology_shape (n : nat) :
  exists routers,
    create_star_topology n = Some (routers, map star_link (seq 1 (n - 1))) /\
    PyDict.keys routers = map router_name (seq 0 (n - 1 + 1)) /\
    PyDict.get routers "R1" =
      Some (init_router "R1"
              (map (fun k => (eth k, Some (star_link (k + 1))))
                 (seq 0 (n - 1)))
              ["192.168.1.0"]) /\
    (forall i, (1 <= i < n)%nat ->
       PyDict.get routers (router_name i) =
         Some (init_router (router_name i) [("eth0", Some (star_link i))]
                 [network_of i]) /\
       link_peer (star_link i) "R1" = router_name i /\
       link_peer (star_link i) (router_name i) = "R1").
Proof.
  exists (tabulate router_name (star_router n (n - 1)) (n - 1 + 1)).
  split; [apply star_topology_closed_form|].
  split; [unfold PyDict.keys, tabulate; now rewrite map_map|].
  split.
  - change "R1" with (router_name 0) at 1.
    rewrite (get_tabulate router_name router_name_inj) by lia.
    unfold star_router. cbn [Nat.eqb]. do 2 f_equal.
    unfold star_central, tabulate. apply map_ext_in. intros k Hk.
    apply in_seq in Hk. nat_cases. reflexivity.
  - intros i Hi.
    rewrite (get_tabulate router_name router_name_inj) by lia.
    split; [unfold star_router; nat_cases; reflexivity|].
    unfold link_peer, star_link. cbn [router1 router2].
    split; [reflexivity|].
    destruct (String.eqb_spec "R1" (router_name i)) as [E|]; [|reflexivity].
    change "R1" with (router_name 0) in E. apply router_name_inj in E. lia.
Qed.

(** ** The mesh topology *)

Ltac mesh_case :=
  eexists; eexists;
  split; [vm_compute; reflexivity|];
  split; [vm_compute; reflexivity|];
  split; [vm_compute; reflexivity|];
  let i := fresh "i" in
  let j := fresh "j" in
  let Hi := fresh "Hi" in
  let Hj := fresh "Hj" in
  let Hne := fresh "Hne" in
  intros i j Hi Hj Hne;
  do 6 (try (destruct i as [|i]; [|try lia]));
  do 6 (try (destruct j as [|j]; [|try lia]));
  try lia;
  (eexists; split; [vm_compute; reflexivity|];
   split; vm_compute; reflexivity).

(** X23. [create_mesh_topology] never raises and builds a mesh of
    m = min(node_count, 6) routers R1 .. Rm.  It makes one link for every
    pair of routers, in the order of the two loops, from the lower router
    to the higher one.  Every router has m - 1 interfaces, and the link
    between routers i and j sits, at router i, on interface eth(j) when
    j < i and on eth(j-1) when j > i, so that every interface carries
    exactly one link. *)
Theorem mesh_topology_shape (n : nat) :
  exists routers links,
    create_mesh_topology n = Some (routers, links) /\
    PyDict.keys routers = map router_name (seq 0 (Nat.min n 6)) /\
    links = map (fun p => mesh_link (fst p) (snd p))
              (mesh_pairs (Nat.min n 6)) /\
    (forall i j, (i < Nat.min n 6)%nat -> (j < Nat.min n 6)%nat -> i <> j ->
       exists r,
         PyDict.get routers (router_name i) = Some r /\
         List.length (interfaces r) = (Nat.min n 6 - 1)%nat /\
         PyDict.get (interfaces r) (eth (if Nat.ltb j i then j else j - 1))
           = Some (Some (mesh_link i j))).
Proof.
  do 7 (try (destruct n as [|n]; [mesh_case|])).
  mesh_case.
Qed.

(** ** The first advertisement on a built topology *)

Lemma trigger_all_networks_interfaces (nets : list string) (r : Router)
    (acts : list action) :
  interfaces
    (fst (fold_left
            (fun (acc : Router * list action) (net : string) =>
               let '(r, acts) := acc in
               (with_fib r (PyDict.set (fib r) net self_entry),
                (acts ++ [SendUpdateProc net])%list))
            nets (r, acts))) = interfaces r.
Proof.
  revert r acts. induction nets as [|net nets IH]; intros r acts;
    [reflexivity|].
  cbn [fold_left]. now rewrite IH.
Qed.

Lemma send_all_live (r : Router) (pkt : ADUP_Update) :
  _send_update_on_all_interfaces r pkt =
  map (fun il => {| em_iface := fst il; em_link := snd il; em_packet := pkt |})
    (live_interfaces (interfaces r)).
Proof.
  unfold _send_update_on_all_interfaces, live_interfaces, PyDict.items.
  induction (interfaces r) as [|[iface [l|]] ifs IH]; simpl;
    [reflexivity | now rewrite IH | exact IH].
Qed.

Lemma initial_advertisement_state (r : Router) :
  fib (fst (initial_advertisement r)) = install_self (fib r) (networks r) /\
  interfaces (fst (initial_advertisement r)) = interfaces r.
Proof.
  unfold initial_advertisement.
  destruct (trigger_update_None (with_state r "ADVERTISING")) as [Hf _].
  pose proof (trigger_all_networks_interfaces
                (networks r) (with_state r "ADVERTISING") []) as Hi.
  change (fold_left _ (networks r) (with_state r "ADVERTISING", []))
    with (trigger_update (with_state r "ADVERTISING") None) in Hi.
  destruct (trigger_update (with_state r "ADVERTISING") None) as [r1 acts].
  cbn [fst snd] in *. split; [exact Hf | exact Hi].
Qed.

Lemma first_advertisement (r : Router) (net : string) :
  In net (networks r) ->
  send_update (fst (initial_advertisement r)) net =
  if ip_field_accepts net
  then map (fun il => {| em_iface := fst il; em_link := snd il;
                         em_packet := zero_update net |})
         (live_interfaces (interfaces r))
  else [].
Proof.
  intros Hin. destruct (initial_advertisement_state r) as [Hf Hi].
  unfold send_update, ADUP_Route_Entry_new. rewrite Hf, get_install_self.
  destruct (in_dec string_dec net _) as [_|Hn]; [|contradiction].
  change (Qgtb (fib_total_cost self_entry) 70) with false. cbv iota.
  destruct (ip_field_accepts net); [|reflexivity].
  rewrite send_all_live. now rewrite Hi.
Qed.

Lemma network_of_accepted (i : nat) :
  ip_field_accepts (network_of i) = Nat.leb (i + 1) 255.
Proof. apply ip_field_accepts_192_168. Qed.

Lemma live_tabulate (key : nat -> string) (f : nat -> Link) (n : nat) :
  live_interfaces (tabulate key (fun k => Some (f k)) n) =
  map (fun k => (key k, f k)) (seq 0 n).
Proof.
  unfold live_interfaces, tabulate.
  induction (seq 0 n) as [|k l IH]; simpl; [reflexivity | now rewrite IH].
Qed.

(** X24. On a star built by [create_star_topology], the initial
    advertisement of the central router, once its UPDATE process runs,
    puts one UPDATE for 192.168.1.0 at cost 0 on each of its n - 1
    interfaces, in interface order, and the packet on eth(k) is delivered
    to edge router R(k+2).  Every edge router up to R255 sends exactly one
    UPDATE, for its own network at cost 0, and it is delivered to R1.
    From R256 on the network name 192.168.256.0, 192.168.257.0, ... is not
    an IPv4 address: the constructor of the route entry raises and the
    edge router advertises nothing. *)
Theorem star_first_advertisement (n : nat) :
  exists routers links central,
    create_star_topology n = Some (routers, links) /\
    PyDict.get routers "R1" = Some central /\
    send_update (fst (initial_advertisement central)) "192.168.1.0" =
      map (fun k => {| em_iface := eth k; em_link := star_link (k + 1);
                       em_packet := zero_update "192.168.1.0" |})
        (seq 0 (n - 1)) /\
    (forall k, (k < n - 1)%nat ->
       link_peer (star_link (k + 1)) "R1" = router_name (k + 1)) /\
    (forall i, (1 <= i < n)%nat ->
       exists r,
         PyDict.get routers (router_name i) = Some r /\
         link_peer (star_link i) (router_name i) = "R1" /\
         ((i < 255)%nat ->
            send_update (fst (initial_advertisement r)) (network_of i) =
              [ {| em_iface := "eth0"; em_link := star_link i;
                   em_packet := zero_update (network_of i) |} ]) /\
         ((255 <= i)%nat ->
            send_update (fst (initial_advertisement r)) (network_of i)
              = [])).
Proof.
  exists (tabulate router_name (star_router n (n - 1)) (n - 1 + 1)).
  exists (map star_link (seq 1 (n - 1))).
  exists (star_router n (n - 1) 0).
  split; [apply star_topology_closed_form|].
  split.
  { change "R1" with (router_name 0) at 1.
    now rewrite (get_tabulate router_name router_name_inj) by lia. }
  split.
  { rewrite first_advertisement by (left; reflexivity).
    change (ip_field_accepts "192.168.1.0") with true. cbv iota.
    change (interfaces (star_router n (n - 1) 0))
      with (star_central n (n - 1)).
    unfold star_central.
    rewrite (tabulate_ext eth _ (fun k => Some (star_link (k + 1)))).
    2:{ intros k Hk. nat_cases. reflexivity. }
    rewrite live_tabulate, map_map. reflexivity. }
  split; [intros k Hk; reflexivity|].
  intros i Hi. exists (star_router n (n - 1) i).
  split; [now rewrite (get_tabulate router_name router_name_inj) by lia|].
  assert (Er : star_router n (n - 1) i =
               init_router (router_name i) [("eth0", Some (star_link i))]
                 [network_of i]).
  { unfold star_router. nat_cases. reflexivity. }
  rewrite Er. split; [|split].
  - unfold link_peer, star_link. cbn [router1 router2].
    destruct (String.eqb_spec "R1" (router_name i)) as [E|]; [|reflexivity].
    change "R1" with (router_name 0) in E. apply router_name_inj in E. lia.
  - intros Hlt. rewrite first_advertisement by (left; reflexivity).
    rewrite network_of_accepted.
    destruct (Nat.leb_spec (i + 1) 255); [reflexivity | lia].
  - intros Hge. rewrite first_advertisement by (left; reflexivity).
    rewrite network_of_accepted.
    destruct (Nat.leb_spec (i + 1) 255); [lia | reflexivity].
Qed.

(** ** The exploration bonus *)

Lemma exploration_bonus_cases (r : Router) (neighbor dest : string) :
  let u := PyDict.get_default (path_usage r) (path_key neighbor dest) 0%Z in
  (u = 0%Z /\ calculate_exploration_bonus r neighbor dest = 10) \/
  (u <> 0%Z /\ (u < 3)%Z /\ calculate_exploration_bonus r neighbor dest = 5) \/
  ((3 <= u < 10)%Z /\ calculate_exploration_bonus r neighbor dest = 2) \/
  ((10 <= u)%Z /\ calculate_exploration_bonus r neighbor dest = 0).
Proof.
  intros u. unfold calculate_exploration_bonus. fold u.
  destruct (Z.eqb_spec u 0); [tauto|].
  destruct (Z.ltb_spec u 3); [tauto|].
  destruct (Z.ltb_spec u 10); [right; right; left; split; [lia|reflexivity]|].
  tauto.
Qed.

(** X25. The exploration bonus lies between 0 and 10 and, on usage counts
    that are not negative, never rises with the usage of a path: a path
    used at least as often as another gets at most the other's bonus, a
    path never used gets the full bonus of 10, and the bonus is 0 exactly
    from ten uses on. *)
Theorem exploration_bonus_antitone (r r' : Router)
    (neighbor dest neighbor' dest' : string) :
  let u := PyDict.get_default (path_usage r) (path_key neighbor dest) 0%Z in
  let u' := PyDict.get_default (path_usage r') (path_key neighbor' dest') 0%Z in
  0 <= calculate_exploration_bonus r neighbor dest <= 10 /\
  ((0 <= u <= u')%Z ->
     calculate_exploration_bonus r' neighbor' dest'
       <= calculate_exploration_bonus r neighbor dest) /\
  (calculate_exploration_bonus r neighbor dest == 0 <-> (10 <= u)%Z) /\
  (PyDict.get (path_usage r) (path_key neighbor dest) = None ->
     calculate_exploration_bonus r neighbor dest = 10).
Proof.
  intros u u'.
  pose proof (exploration_bonus_cases r neighbor dest) as H.
  pose proof (exploration_bonus_cases r' neighbor' dest') as H'.
  fold u in H. fold u' in H'. cbv zeta in H, H'.
  split; [|split; [|split]].
  - destruct H as [[_ ->]|[[_ [_ ->]]|[[_ ->]|[_ ->]]]]; split; lra.
  - intros Hu.
    destruct H as [[Hc ->]|[[Hc [Hc2 ->]]|[[Hc ->]|[Hc ->]]]];
    destruct H' as [[Hc' ->]|[[Hc' [Hc2' ->]]|[[Hc' ->]|[Hc' ->]]]];
      try lra; lia.
  - destruct H as [[Hc ->]|[[Hc [Hc2 ->]]|[[Hc ->]|[Hc ->]]]];
      split; intros Hx; try lia; try reflexivity;
      try (exfalso; revert Hx; unfold Qeq; simpl; lia).
  - intros Hnone. unfold calculate_exploration_bonus, PyDict.get_default.
    rewrite Hnone. reflexivity.
Qed.

Lemma exploration_bonus_antitone_witness :
  calculate_exploration_bonus example_R1 "R2" "192.168.3.0"
    <= calculate_exploration_bonus (init_router "R9" [] []) "R2" "192.168.3.0".
Proof.
  apply (exploration_bonus_antitone (init_router "R9" [] []) example_R1
           "R2" "192.168.3.0" "R2" "192.168.3.0").
  vm_compute. split; discriminate.
Defined.

(** ** The first report of a prefix *)

(** X26. When a known neighbor N reports, with a cost of at most 100, a
    prefix P the router has never heard of (no FIB entry, no topology row,
    no cost or loop history for P via N), the report is stored as it is,
    the route via N is installed at min(ceiling_and_damping(link cost +
    reported cost), 60), no other FIB entry changes, and one UPDATE for P
    is scheduled.  When that UPDATE runs it is not suppressed and goes out
    on every interface that has a link, the one toward N included (P, read
    from a packet, being an IPv4 address). *)
Theorem first_report_is_installed (r : Router) (now : Q) (N P : string)
    (info : neighbor_info) (route : ADUP_Route_Entry) :
  PyDict.get (neighbor_table r) N = Some info ->
  PyDict.get (fib r) P = None ->
  PyDict.get (topology_table r) P = None ->
  PyDict.get (loop_detection r) (cost_key P N) = None ->
  PyDict.get (cost_history r) (cost_key P N) = None ->
  P <> "" -> dest_network route = P -> total_delay route <= 100 ->
  let res := handle_packet r now N (PUpdate {| routes := [route] |}) in
  let cost :=
    Qmin (ceiling_and_damping
            (calculate_composite_cost (nmetrics info) + total_delay route))
         60 in
  topology_lookup (fst res) P N = Some (total_delay route) /\
  (exists e,
     PyDict.get (fib (fst res)) P = Some e /\
     next_hop e = N /\ fm_total_cost (metrics e) = Some cost) /\
  (forall P', P' <> P ->
     PyDict.get (fib (fst res)) P' = PyDict.get (fib r) P') /\
  snd res = [SendUpdateProc P] /\
  (ip_field_accepts P = true ->
   send_update (fst res) P =
     map (fun il => {| em_iface := fst il; em_link := snd il;
                       em_packet := {| routes := [route_entry_for P cost] |} |})
       (live_interfaces (interfaces r))).
Proof.
  intros Hn Hfib Htt Hld Hch HP Hd Hc res cost.
  assert (Hres : exists r' cand,
            res = (r', [SendUpdateProc P]) /\
            interfaces r' = interfaces r /\
            fib r' = PyDict.set (fib r) P (installed_entry cand) /\
            topology_table r' =
              PyDict.set (topology_table r) P [(N, total_delay route)] /\
            c_neighbor cand = N /\ c_total_cost cand = cost).
  { subst res. cbn [handle_packet]. unfold handle_update, PyDict.mem.
    rewrite Hn. cbn [negb routes fold_left]. unfold handle_route.
    cbv beta iota zeta.
    rewrite Hd. unfold split_horizon_blocks. rewrite Hfib.
    apply Qgtb_false in Hc. rewrite Hc.
    unfold topology_lookup, PyDict.get_default. rewrite Htt.
    cbn [admitted_cost PyDict.set].
    unfold recalculate_dual, advanced_path_selection, collect_candidates.
    cbn [topology_table with_topology_table].
    rewrite get_set_same. cbn [PyDict.items fold_left].
    unfold consider_neighbor. cbv beta iota zeta.
    cbn [neighbor_table with_topology_table]. rewrite Hn.
    unfold detect_cost_loop, PyDict.get_default.
    cbn [loop_detection with_topology_table]. rewrite Hld.
    change (loop_verdict (push_bounded 10 [] _)) with false. cbv iota.
    unfold stabilize_cost, PyDict.get_default.
    cbn [cost_history with_loop_detection with_topology_table]. rewrite Hch.
    cbn [push_bounded app List.length Nat.ltb Nat.leb tl].
    cbn [sort_candidates fold_right insert_candidate hd_error].
    unfold log_path_analysis.
    cbn [fib with_path_analysis_log with_cost_history with_loop_detection
         with_topology_table].
    rewrite Hfib. cbn [negb orb].
    cbn [c_neighbor].
    destruct (String.eqb "None" N); cbn [negb orb];
      rewrite trigger_update_Some by assumption;
      cbv beta iota zeta; cbn [app];
      eexists; eexists; (split; [reflexivity|]);
      repeat split; reflexivity. }
  destruct Hres as (r' & cand & -> & Hif & Hf & Ht & Hcn & Hcc).
  cbn [fst snd]. split; [|split; [|split; [|split]]].
  - unfold topology_lookup. rewrite Ht, get_set_same. simpl.
    now rewrite String.eqb_refl.
  - exists (installed_entry cand). rewrite Hf, get_set_same.
    split; [reflexivity|]. split; [exact Hcn|]. simpl. now rewrite Hcc.
  - intros P' HP'. rewrite Hf. apply get_set_other. congruence.
  - reflexivity.
  - intros Hip. unfold send_update, ADUP_Route_Entry_new.
    rewrite Hf, get_set_same, Hip.
    unfold fib_total_cost. cbn [installed_entry metrics fm_total_cost].
    rewrite Hcc.
    assert (E : Qgtb cost 70 = false).
    { apply Qgtb_false. subst cost.
      pose proof (Q.le_min_r
                    (ceiling_and_damping
                       (calculate_composite_cost (nmetrics info) +
                        total_delay route)) 60). lra. }
    rewrite E, send_all_live, Hif. reflexivity.
Qed.

Lemma first_report_is_installed_witness :
  snd (handle_packet example_R1 2 "R2" (PUpdate (report "192.168.3.0" 5)))
  = [SendUpdateProc "192.168.3.0"].
Proof.
  apply (first_report_is_installed example_R1 2 "R2" "192.168.3.0"
           {| last_seen := 1; nmetrics := hello_metrics example_hello |}
           (report_entry "192.168.3.0" 5));
    try reflexivity; try discriminate.
Defined.

(** ** The default topology *)

(** X27. The default topology that [Simulation.run] falls back to is the
    linear topology on three routers: [create_topology] and
    [create_linear_topology(3)] build the same routers, interfaces and
    links. *)
Theorem default_topology_is_linear :
  create_topology = create_linear_topology 3.
Proof. vm_compute. reflexivity. Qed.

(** * A connected network that is never advertised *)


(** * Routes through a pruned neighbor *)

Lemma selected_is_known (r : Router) (now : Q) (dest : string)
    (c : candidate) :
  snd (advanced_path_selection r now dest) = Some c ->
  PyDict.get (neighbor_table r) (c_neighbor c) <> None.
Proof.
  intros H. apply advanced_path_selection_head in H.
  assert (Hin : In c (snd (collect_candidates r now dest))).
  { apply In_sort_candidates.
    destruct (sort_candidates _); [discriminate|].
    injection H as ->. now left. }
  unfold collect_candidates in Hin.
  destruct (PyDict.get (topology_table r) dest) as [reports|];
    [|contradiction].
  pose proof (fold_consider_known now dest (PyDict.items reports) r []
                (neighbor_table r) (fun _ => True) eq_refl
                (fun _ _ _ => I) (Forall_nil _)) as Hall.
  exact (proj1 (proj1 (Forall_forall _ _) Hall c Hin)).
Qed.

Lemma recalculate_dual_entry (r : Router) (now : Q) (dest P : string)
    (e : fib_entry) :
  dest <> "" ->
  PyDict.get (fib r) P = Some e ->
  exists e',
    PyDict.get (fib (fst (recalculate_dual r now dest))) P = Some e' /\
    (e' = e \/
     (P = dest /\
      exists c, e' = installed_entry c /\
                PyDict.get (neighbor_table r) (c_neighbor c) <> None)).
Proof.
  intros Hd Hget.
  pose proof (selected_is_known r now dest) as Hk.
  pose proof (advanced_path_selection_frame r now dest) as (Hf & _).
  unfold recalculate_dual.
  destruct (advanced_path_selection r now dest) as [r1 best].
  cbn [fst snd] in *.
  destruct best as [c|]; [|cbn [fst]; rewrite Hf; eauto].
  specialize (Hk c eq_refl).
  set (cond := negb _ || _). destruct cond.
  - rewrite trigger_update_Some by assumption. cbn [fst].
    unfold log_route_change. simpl. rewrite Hf.
    destruct (string_dec P dest) as [->|Hne].
    + rewrite get_set_same. eexists. split; [reflexivity|].
      right. split; [reflexivity|]. now exists c.
    + rewrite get_set_other by congruence. eauto.
  - cbn [fst]. simpl. rewrite Hf. eauto.
Qed.

Lemma handle_route_entry (now : Q) (S : string) (r : Router)
    (acts : list action) (route : ADUP_Route_Entry) (P : string)
    (e : fib_entry) :
  dest_network route <> "" ->
  PyDict.get (fib r) P = Some e ->
  exists e',
    PyDict.get (fib (fst (handle_route now S (r, acts) route))) P = Some e' /\
    (e' = e \/
     (P = dest_network route /\
      exists c, e' = installed_entry c /\
                PyDict.get (neighbor_table r) (c_neighbor c) <> None)).
Proof.
  intros Hd Hget. unfold handle_route. cbv beta iota zeta.
  destruct (split_horizon_blocks r (dest_network route) S); [eauto|].
  destruct (Qgtb (total_delay route) 100); [eauto|].
  match goal with
  | |- context [recalculate_dual ?r1 ?n ?d] =>
      pose proof (recalculate_dual_entry r1 n d P e Hd Hget) as H;
      destruct (recalculate_dual r1 n d) as [r2 acts']
  end.
  exact H.
Qed.

Lemma fold_handle_route_entry (now : Q) (S P : string)
    (nt : pydict neighbor_info) (l : list ADUP_Route_Entry) :
  forall (r : Router) (acts : list action) (e : fib_entry),
  (forall route, In route l -> dest_network route <> "") ->
  neighbor_table r = nt ->
  PyDict.get (fib r) P = Some e ->
  exists e',
    PyDict.get (fib (fst (fold_left (handle_route now S) l (r, acts)))) P
      = Some e' /\
    (e' = e \/
     (In P (map dest_network l) /\
      exists c, e' = installed_entry c /\
                PyDict.get nt (c_neighbor c) <> None)).
Proof.
  induction l as [|route l IH]; intros r acts e Hd Hnt Hget;
    cbn [fold_left]; [eauto|].
  destruct (handle_route_entry now S r acts route P e
              (Hd route (or_introl eq_refl)) Hget) as (e1 & Hget1 & He1).
  destruct (handle_route_frame now S r acts route) as (Hnt1 & _).
  destruct (handle_route now S (r, acts) route) as [r1 acts1].
  cbn [fst] in *.
  destruct (IH r1 acts1 e1 (fun rt Hin => Hd rt (or_intror Hin))
              (eq_trans Hnt1 Hnt) Hget1) as (e' & Hget' & He').
  exists e'. split; [exact Hget'|].
  destruct He' as [->|(Hin & c & Hc & Hk)].
  - destruct He1 as [->|(HP & c & Hc & Hk)]; [now left|].
    right. split; [left; now rewrite HP|].
    exists c. split; [exact Hc|]. now rewrite <- Hnt.
  - right. split; [now right|]. now exists c.
Qed.

Lemma handle_update_entry (r : Router) (now : Q) (S : string)
    (u : ADUP_Update) (P : string) (e : fib_entry) :
  (forall route, In route (routes u) -> dest_network route <> "") ->
  PyDict.get (fib r) P = Some e ->
  exists e',
    PyDict.get (fib (fst (handle_update r now S u))) P = Some e' /\
    (e' = e \/
     (PyDict.get (neighbor_table r) S <> None /\
      In P (map dest_network (routes u)) /\
      exists c, e' = installed_entry c /\
                PyDict.get (neighbor_table r) (c_neighbor c) <> None)).
Proof.
  intros Hd Hget. unfold handle_update, PyDict.mem.
  destruct (PyDict.get (neighbor_table r) S) as [info|] eqn:HS;
    cbn [negb]; [|eauto].
  destruct (fold_handle_route_entry now S P (neighbor_table r) (routes u)
              r [] e Hd eq_refl Hget) as (e' & Hget' & He').
  exists e'. split; [exact Hget'|].
  destruct He' as [->|(Hin & Hc)]; [now left|].
  right. split; [discriminate|]. now split.
Qed.

Lemma reset_sweep_evicts (r : Router) (P : string) (e : fib_entry) :
  PyDict.get (fib r) P = Some e ->
  resets e = true ->
  ~ In P (networks r) ->
  PyDict.get (fib (fst (monitor_and_reset_costs r))) P = None.
Proof.
  intros Hget Hres Hnot. unfold monitor_and_reset_costs.
  pose proof (fold_reset_step_fib (PyDict.items (fib r)) r false) as Hf.
  destruct (fold_reset_step_rest (PyDict.items (fib r)) (r, false))
    as [Hn _].
  destruct (fold_left reset_step (PyDict.items (fib r)) (r, false))
    as [r1 b].
  cbn [fst] in *.
  assert (Hnone : PyDict.get (fib r1) P = None).
  { rewrite Hf.
    destruct (PyDict.get (evict (fib r) (PyDict.items (fib r))) P)
      as [e1|] eqn:E; [|reflexivity].
    apply get_In in E. apply In_evict in E as [_ Hall].
    apply get_In in Hget. rewrite (Hall e Hget) in Hres. discriminate. }
  destruct b; [|exact Hnone].
  destruct (trigger_update_None (with_cost_history r1 [])) as [Hf2 _].
  rewrite Hf2, get_install_self. cbn [fib networks with_cost_history].
  rewrite Hn.
  destruct (in_dec string_dec P (networks r)); [contradiction|exact Hnone].
Qed.

(** C10 as the code has it.  Pruning removes from the neighbor table
    exactly the neighbors with [now - last_seen > 15]; the FIB and the
    topology table are left as they are, also by the whole HELLO handler
    that calls it, so a FIB route through a pruned neighbor and the costs
    it reported stay in place, and while the neighbor stays unknown its
    UPDATEs are ignored.  Afterwards neither a packet handler nor the decay
    sweep takes the entry of a prefix out of the FIB.  In any state, an
    UPDATE leaves the entry of a prefix as it is unless it comes from a
    known neighbor and carries the prefix, in which case the entry may be
    replaced by a candidate through a neighbor that is in the neighbor
    table, hence not the pruned one: the route need not wait for the reset
    sweep.  The reset sweep removes the entry once its cost exceeds 60. *)
Theorem prune_neighbors_frame (r : Router) (now : Q) :
  PyDict.wf (neighbor_table r) ->
  let r' := prune_neighbors r now in
  fib r' = fib r /\
  topology_table r' = topology_table r /\
  (forall N info, PyDict.get (neighbor_table r) N = Some info ->
     15 < now - last_seen info ->
     PyDict.get (neighbor_table r') N = None) /\
  (forall N info, PyDict.get (neighbor_table r) N = Some info ->
     now - last_seen info <= 15 ->
     PyDict.get (neighbor_table r') N = Some info) /\
  (forall N, PyDict.get (neighbor_table r) N = None ->
     PyDict.get (neighbor_table r') N = None) /\
  (forall sender h,
     let r'' := fst (handle_packet r now sender (PHello h)) in
     fib r'' = fib r /\ topology_table r'' = topology_table r) /\
  (forall N later u, PyDict.get (neighbor_table r') N = None ->
     handle_update r' later N u = (r', [])) /\
  (forall later sender pkt,
     fib_keeps r' (fst (handle_packet r' later sender pkt))) /\
  fib_keeps r' (fst (apply_cost_decay r')) /\
  (forall (s : Router) (later : Q) (sender : string) (u : ADUP_Update)
          (P : string) (e : fib_entry),
     PyDict.get (fib s) P = Some e ->
     (forall route, In route (routes u) -> dest_network route <> "") ->
     exists e',
       PyDict.get (fib (fst (handle_packet s later sender (PUpdate u)))) P
         = Some e' /\
       (e' = e \/
        (PyDict.get (neighbor_table s) sender <> None /\
         In P (map dest_network (routes u)) /\
         exists c, e' = installed_entry c /\
                   PyDict.get (neighbor_table s) (c_neighbor c) <> None))) /\
  (forall (s : Router) (P : string) (e : fib_entry),
     PyDict.get (fib s) P = Some e ->
     next_hop e <> "self" ->
     (exists c, fm_total_cost (metrics e) = Some c /\ 60 < c) ->
     ~ In P (networks s) ->
     PyDict.get (fib (fst (monitor_and_reset_costs s))) P = None).
Proof.
  intros Hwf r'.
  assert (Hlater :
    (forall N later u, PyDict.get (neighbor_table r') N = None ->
       handle_update r' later N u = (r', [])) /\
    (forall later sender pkt,
       fib_keeps r' (fst (handle_packet r' later sender pkt))) /\
    fib_keeps r' (fst (apply_cost_decay r')) /\
    (forall (s : Router) (later : Q) (sender : string) (u : ADUP_Update)
            (P : string) (e : fib_entry),
       PyDict.get (fib s) P = Some e ->
       (forall route, In route (routes u) -> dest_network route <> "") ->
       exists e',
         PyDict.get (fib (fst (handle_packet s later sender (PUpdate u)))) P
           = Some e' /\
         (e' = e \/
          (PyDict.get (neighbor_table s) sender <> None /\
           In P (map dest_network (routes u)) /\
           exists c, e' = installed_entry c /\
                     PyDict.get (neighbor_table s) (c_neighbor c) <> None))) /\
    (forall (s : Router) (P : string) (e : fib_entry),
       PyDict.get (fib s) P = Some e ->
       next_hop e <> "self" ->
       (exists c, fm_total_cost (metrics e) = Some c /\ 60 < c) ->
       ~ In P (networks s) ->
       PyDict.get (fib (fst (monitor_and_reset_costs s))) P = None)).
  { split; [|split; [|split; [|split]]].
    - intros N later u HN. unfold handle_update, PyDict.mem.
      now rewrite HN.
    - intros later sender pkt. apply handle_packet_keeps.
    - apply apply_cost_decay_keeps.
    - intros s later sender u P e Hget Hd. cbn [handle_packet].
      now apply handle_update_entry.
    - intros s P e Hget Hnh (c & Hc & Hgt) Hnot.
      apply (reset_sweep_evicts s P e Hget); [|exact Hnot].
      unfold resets, fm_get_total_cost. rewrite Hc.
      apply andb_true_iff. split.
      + apply negb_true_iff. now apply String.eqb_neq.
      + now apply Qgtb_true. }
  revert Hlater. subst r'. unfold prune_neighbors. intros Hlater.
  destruct (fold_del_neighbors_frame (dead_neighbors r now) r)
    as (Hf & Ht & Hn).
  split; [exact Hf|]. split; [exact Ht|].
  rewrite Hn. split; [|split; [|split; [|split]]].
  - intros N info Hget Hdead. rewrite get_fold_del.
    destruct (in_dec string_dec N (dead_neighbors r now)) as [|Hnot];
      [reflexivity|].
    exfalso. apply Hnot. apply dead_neighbors_In. exists info.
    split; [now apply get_In | assumption].
  - intros N info Hget Halive. rewrite get_fold_del.
    destruct (in_dec string_dec N (dead_neighbors r now)) as [Hin|];
      [|assumption].
    apply dead_neighbors_In in Hin as [info' [Hin Hdead]].
    apply (wf_In_get _ _ _ Hwf) in Hin. rewrite Hget in Hin.
    injection Hin as <-. lra.
  - intros N Hget. rewrite get_fold_del.
    now destruct (in_dec string_dec N (dead_neighbors r now)).
  - intros sender h. simpl. unfold prune_neighbors.
    match goal with
    | |- context [fold_left _ ?names ?r0] =>
        destruct (fold_del_neighbors_frame names r0) as (Hf' & Ht' & _)
    end.
    simpl in Hf', Ht'. split; [exact Hf' | exact Ht'].
  - rewrite <- Hn. exact Hlater.
Qed.

Lemma prune_neighbors_frame_witness :
  PyDict.wf (neighbor_table example_R2) /\
  let r' := prune_neighbors example_R2 21 in
  fib r' = fib example_R2 /\
  topology_table r' = topology_table example_R2 /\
  PyDict.get (neighbor_table r') "R1" = None /\
  PyDict.get (fib r') "192.168.1.0" = Some (learned_entry "R1" 12).
Proof.
  assert (Hwf : PyDict.wf (neighbor_table example_R2)).
  { unfold PyDict.wf. simpl. repeat constructor; simpl; intuition discriminate. }
  split; [exact Hwf|].
  destruct (prune_neighbors_frame example_R2 21 Hwf)
    as (Hf & Ht & Hdead & _).
  split; [exact Hf|]. split; [exact Ht|]. split.
  - apply (Hdead "R1" {| last_seen := 1;
                         nmetrics := hello_metrics example_hello |}).
    + reflexivity.
    + reflexivity.
  - rewrite Hf. reflexivity.
Defined.

(** C10 as stated fails.  R2 routes 192.168.1.0 through R1 at cost 12.  A
    HELLO from R3 at time 21 prunes the silent R1 and leaves that route in
    the FIB.  R3, which routes 192.168.1.0 through R2, advertises it back
    at cost 12; handling this UPDATE, R2 installs the route through R3,
    although no reset sweep has run and the cost never exceeded 60. *)
Lemma dead_route_replaced_without_reset :
  let r1 := fst (handle_packet example_R2 21 "R3" (PHello example_hello)) in
  let r2 :=
    fst (handle_packet r1 22 "R3" (PUpdate (report "192.168.1.0" 12))) in
  PyDict.get (neighbor_table r1) "R1" = None /\
  PyDict.get (fib r1) "192.168.1.0" = Some (learned_entry "R1" 12) /\
  exists e, PyDict.get (fib r2) "192.168.1.0" = Some e /\
            next_hop e = "R3".
Proof.
  vm_compute. split; [reflexivity|]. split; [reflexivity|].
  eexists. split; reflexivity.
Qed.
